(** * Patent-Valuation-Tool: the binomial-lattice engine of [app.py]

    A shallow embedding of the valuation code of [app.py]
    ([calculate_lattices], [calculate_sensitivity_data] with its helper
    [get_C0], and the request handling of the [/calculate] route) together
    with the properties stated about it.

    Numbers.  Python floats and NumPy [float64] values are embedded as the
    real numbers [R] of the Standard Library: [np.exp] is [exp], [np.sqrt]
    is [sqrt], [x ** k] for an integer [k] is [powerRZ] (or [pow] when [k]
    cannot be negative) and [x ** y] for a float [y] is [Rpower].  Rounding
    error and overflow are outside this model.  [sqrt] is the total square
    root of the library, where NumPy answers NaN for a negative argument;
    [calculate_lattices] takes the root of [dt = T / n], so the embedding
    on the reals is the code for [dt >= 0].  The module [Float64] embeds
    [calculate_lattices] once more with NaN, lemma
    [calculate_lattices_refines] shows that the two agree for [dt >= 0],
    and the theorems that need it carry the hypothesis [T >= 0].  Python
    integers are [Z]; indices into lists are [nat].

    Exceptions.  Code that can raise returns an [outcome]; the constructor
    [Raise] carries the class of the exception. *)

From Stdlib Require Import Reals Lra Lia ZArith Ascii String.
From stdpp Require Import base option list gmap strings.

#[local] Open Scope R_scope.

(** ** Python values used by the engine *)

Inductive exn : Type :=
| ZeroDivisionError
| IndexError
| KeyError
| ValueError
| TypeError
| AttributeError
| NameError.

Inductive outcome (A : Type) : Type :=
| Return (a : A)
| Raise (e : exn).
Arguments Return {A} a.
Arguments Raise {A} e.

#[global] Instance outcome_ret : MRet outcome := fun A a => Return a.
#[global] Instance outcome_bind : MBind outcome := fun A B f m =>
  match m with
  | Return a => f a
  | Raise e => Raise e
  end.

#[global] Instance R_inhabited : Inhabited R := populate 0.
#[global] Instance R_eq_dec : EqDecision R := Req_dec_T.
#[global] Instance Rlt_decision (x y : R) : Decision (x < y) := Rlt_dec x y.
#[global] Instance Rle_decision (x y : R) : Decision (x <= y) := Rle_dec x y.

(** [max(a, b)] on two floats: Python keeps the first argument unless the
    second is strictly greater. *)
Definition py_max (a b : R) : R := if decide (a < b) then b else a.

(** [min(a, b)]: the first argument unless the second is strictly smaller. *)
Definition py_min (a b : R) : R := if decide (b < a) then b else a.

(** [x / y] on two floats.  For a zero divisor Python raises
    [ZeroDivisionError]; NumPy scalars answer an infinity or NaN with a
    warning instead.  Neither is a real number, and the model records the
    event as the exception. *)
Definition py_div (x y : R) : outcome R :=
  if decide (y = 0) then Raise ZeroDivisionError else Return (x / y).

(** [int(x)] on a float truncates towards zero. *)
Definition py_int (x : R) : Z :=
  if decide (0 <= x) then Int_part x else (- Int_part (- x))%Z.

(** The mathematical floor, which the specification speaks of. *)
Definition floor (x : R) : Z := Int_part x.

(** [range(n)] for a Python integer [n]: empty when [n <= 0]. *)
Definition range (n : Z) : list nat := seq 0 (Z.to_nat n).

(** [M[i][j]] on a list of rows.  Every read the engine performs is in
    range (lemmas [cell_asset], [cell_net] and the shape lemmas below), so
    the default is never observed. *)
Definition cell (M : list (list R)) (i j : nat) : R := (M !!! i) !!! j.

(** [M[i][j] = v]: row [i] is updated in place. *)
Definition set_cell (M : list (list R)) (i j : nat) (v : R) : list (list R) :=
  alter (fun row => <[j := v]> row) i M.

(** ** [calculate_lattices] *)

(** The six values returned by [calculate_lattices]. *)
Record lattices : Type := Lattices {
  out_A : list (list R);
  out_N : list (list R);
  out_C : list (list R);
  out_times : list nat;
  out_deltas : list R;
  out_ps_for_export : list R
}.

(** [A = [[V * (u**(j-i)) * (d**i) for j in range(n+1)] for i in range(n+1)]] *)
Definition asset_lattice (V u d : R) (n : Z) : list (list R) :=
  (fun i : nat =>
     (fun j : nat => V * powerRZ u (Z.of_nat j - Z.of_nat i) * d ^ i)
       <$> range (n + 1))
    <$> range (n + 1).

(** [N = [[max(A[i][j] - K, 0) for j in range(n+1)] for i in range(n+1)]] *)
Definition net_lattice (A : list (list R)) (K : R) (n : Z) : list (list R) :=
  (fun i : nat =>
     (fun j : nat => py_max (cell A i j - K) 0) <$> range (n + 1))
    <$> range (n + 1).

(** [C = [[0.0]*(n+1) for _ in range(n+1)]] followed by
    [for i in range(n+1): C[i][n] = N[i][n]]. *)
Definition zero_lattice (n : Z) : list (list R) :=
  (fun _ : nat => replicate (Z.to_nat (n + 1)) 0) <$> range (n + 1).

Definition terminal_boundary (N C : list (list R)) (n : Z) : list (list R) :=
  foldl (fun C i => set_cell C i (Z.to_nat n) (cell N i (Z.to_nat n)))
        C (range (n + 1)).

(** The cost-of-delay schedule (source lines 137-146). *)
Definition auto_deltas (delta : R) (n : Z) (times : list nat) : list R :=
  let deltas := replicate (Z.to_nat (n + 1)) 0 in
  if bool_decide (0 < n)%Z && bool_decide (0 < delta) then
    let g := Rpower (1 / delta) (1 / IZR n) - 1 in
    let deltas := (fun t : nat => delta * (1 + g) ^ t) <$> times in
    <[Z.to_nat n := 1]> deltas
  else if bool_decide (n = 0)%Z then [delta]
  else deltas.

Definition delay_schedule (delta : R) (n : Z) (deltas_manual : option (list R))
    (times : list nat) : list R :=
  match deltas_manual with
  | Some dm =>
      if bool_decide (Z.of_nat (length dm) = n) then dm ++ [1]
      else auto_deltas delta n times
  | None => auto_deltas delta n times
  end.

(** [ps_for_export = [(np.exp((r - deltas[t]) * dt) - d) / (u - d)
                      if u != d else 0 for t in times]] *)
Definition probabilities (r dt u d : R) (deltas : list R) (times : list nat)
    : list R :=
  (fun t : nat =>
     if decide (u = d) then 0
     else (exp ((r - deltas !!! t) * dt) - d) / (u - d))
    <$> times.

(** One node of the backward induction (source lines 155-157). *)
Definition induction_node (N : list (list R)) (discount p : R) (j : nat)
    (C : list (list R)) (i : nat) : list (list R) :=
  let intrinsic_value := cell N i j in
  let hold := discount * (p * cell C i (j + 1) + (1 - p) * cell C (i + 1) (j + 1)) in
  set_cell C i j (py_max hold intrinsic_value).

(** One period: [p = ps_for_induction[j]], then [for i in range(j + 1)]. *)
Definition induction_period (N : list (list R)) (discount : R)
    (ps_for_induction : list R) (C : list (list R)) (j : nat) : list (list R) :=
  let p := ps_for_induction !!! j in
  foldl (induction_node N discount p j) C (range (Z.of_nat j + 1)).

(** [for j in range(n - 1, -1, -1)] *)
Definition backward_induction (N : list (list R)) (discount : R)
    (ps_for_induction : list R) (C : list (list R)) (n : Z) : list (list R) :=
  foldl (induction_period N discount ps_for_induction) C (reverse (range n)).

(** [l[:-1]] *)
Definition drop_last {A : Type} (l : list A) : list A := take (length l - 1) l.

(** [np.exp(sigma_effective * np.sqrt(dt))] for [dt >= 0] (for [dt < 0]
    the root is NaN: see [Float64.calculate_lattices]), and
    [np.exp(-r * dt)]. *)
Definition up_factor (sigma dt : R) : R := exp (sigma * sqrt dt).
Definition discount_factor (r dt : R) : R := exp (- r * dt).

(** [calculate_lattices] (source lines 119-159).  The first statement,
    [dt = T / n], raises [ZeroDivisionError] when [n] is 0; nothing else in
    the function raises.  For [n < 0] every [range] is empty. *)
Definition calculate_lattices (V K T sigma delta r : R) (n : Z)
    (deltas_manual : option (list R)) : outcome lattices :=
  if bool_decide (n = 0)%Z then Raise ZeroDivisionError
  else
    let dt := T / IZR n in
    let sigma_effective := sigma in
    let u := up_factor sigma_effective dt in
    let d := 1 / u in
    let A := asset_lattice V u d n in
    let N := net_lattice A K n in
    let C := terminal_boundary N (zero_lattice n) n in
    let discount := discount_factor r dt in
    let times := range (n + 1) in
    let deltas := delay_schedule delta n deltas_manual times in
    let ps_for_export := probabilities r dt u d deltas times in
    let ps_for_induction := drop_last ps_for_export in
    let C := backward_induction N discount ps_for_induction C n in
    Return (Lattices A N C times deltas ps_for_export).

(** ** Instrumented evaluation

    [calculate_lattices] is pure.  To speak about which valuations a
    caller performs, callers run in [traced]: exceptions as in [outcome],
    plus the list of argument tuples handed to [calculate_lattices], in
    call order. *)

Record lattice_call : Type := LatticeCall {
  call_V : R;
  call_K : R;
  call_T : R;
  call_sigma : R;
  call_delta : R;
  call_r : R;
  call_n : Z;
  call_deltas_manual : option (list R)
}.

Definition run_call (c : lattice_call) : outcome lattices :=
  calculate_lattices (call_V c) (call_K c) (call_T c) (call_sigma c)
    (call_delta c) (call_r c) (call_n c) (call_deltas_manual c).

Definition traced (A : Type) : Type := (list lattice_call * outcome A)%type.

#[global] Instance traced_ret : MRet traced := fun A a => ([], Return a).
#[global] Instance traced_bind : MBind traced := fun A B f m =>
  match m with
  | (t, Return a) => let '(t', b) := f a in (t ++ t', b)
  | (t, Raise e) => (t, Raise e)
  end.

Definition lift {A : Type} (o : outcome A) : traced A := ([], o).

Definition call_lattices (c : lattice_call) : traced lattices := ([c], run_call c).

(** [M[i][j]] where the index may be out of range. *)
Definition index2 (M : list (list R)) (i j : nat) : outcome R :=
  match M !! i with
  | Some row =>
      match row !! j with
      | Some v => Return v
      | None => Raise IndexError
      end
  | None => Raise IndexError
  end.

(** ** Rounding and small library functions *)

(** Round half to even, the rule of Python's [round]. *)
Definition round_half_even (x : R) : Z :=
  let f := Int_part x in
  let frac := x - IZR f in
  if decide (frac < 1 / 2) then f
  else if decide (1 / 2 < frac) then (f + 1)%Z
  else if Z.even f then f else (f + 1)%Z.

(** [round(x)] *)
Definition py_round (x : R) : Z := round_half_even x.

(** [round(x, k)] for [k >= 0] *)
Definition py_round_ndigits (x : R) (k : nat) : R :=
  IZR (round_half_even (x * 10 ^ k)) / 10 ^ k.

(** [min(l)] and [max(l)] on a list. *)
Definition py_min_list (l : list R) : outcome R :=
  match l with
  | [] => Raise ValueError
  | x :: xs => Return (foldl py_min x xs)
  end.

Definition py_max_list (l : list R) : outcome R :=
  match l with
  | [] => Raise ValueError
  | x :: xs => Return (foldl py_max x xs)
  end.

(** [np.linspace(start, stop, num).tolist()] for [num >= 2]:
    [arange(num) * step + start] with the last entry set to [stop]. *)
Definition linspace (start stop : R) (num : nat) : list R :=
  let step := (stop - start) / INR (num - 1) in
  <[(num - 1)%nat := stop]> ((fun k : nat => INR k * step + start) <$> seq 0 num).

(** [d[k] = v] on a dictionary kept in insertion order. *)
Fixpoint dict_set {K V : Type} `{EqDecision K} (k : K) (v : V) (d : list (K * V))
    : list (K * V) :=
  match d with
  | [] => [(k, v)]
  | (k', v') :: d' =>
      if decide (k' = k) then (k, v) :: d' else (k', v') :: dict_set k v d'
  end.

(** ** [calculate_sensitivity_data] *)

(** The seventh argument of [get_C0]: callers pass the integer [n] or, when
    they perturb [T], the float [new_T]. *)
Inductive pynum : Type :=
| PyInt (z : Z)
| PyFloat (x : R).

Definition get_C0 (V K T sigma delta r : R) (n : pynum) : traced R :=
  let new_n := Z.max 1 (py_int T) in
  L ← call_lattices (LatticeCall V K T sigma delta r new_n None);
  c ← lift (index2 (out_C L) 0 0);
  mret (c / 1000).

Record tornado_entry : Type := TornadoEntry {
  tornado_min : R;
  tornado_max : R;
  tornado_base_value : R
}.

Record line_chart (L : Type) : Type := LineChart {
  x_labels : list R;
  chart_data : list (L * list R)
}.
Arguments LineChart {L} x_labels chart_data.
Arguments x_labels {L} l.
Arguments chart_data {L} l.

(** The dictionary returned by [calculate_sensitivity_data].  The keys of
    the two line charts are the numbers printed inside the series names
    [f'V={round(series_v/1000)}k'] and
    [f'Cost of Delay={round(series_delta*100, 1)}%']. *)
Record sensitivity : Type := Sensitivity {
  tornado : list (string * tornado_entry);
  spider : list (string * R);
  line_chart_v_sigma : line_chart Z;
  line_chart_delta_sigma : line_chart R;
  base_option_value : R
}.

Definition params_to_test (V K T sigma delta r : R) : list (string * R) :=
  [("Asset Value (V)"%string, V);
   ("Volatility"%string, sigma);
   ("Time to Maturity (T)"%string, T);
   ("Exercise Cost (K)"%string, K);
   ("Cost of Delay"%string, delta);
   ("Risk-free Rate (r)"%string, r)].

(** The [if]/[elif] chain of source lines 187-199.  A name outside the six
    leaves [new_C] unbound; [params_to_test] never supplies one. *)
Definition perturbed_C0 (V K T sigma delta r : R) (n : Z) (name : string)
    (factor : R) : traced R :=
  if decide (name = "Asset Value (V)"%string) then
    get_C0 (V * factor) K T sigma delta r (PyInt n)
  else if decide (name = "Volatility"%string) then
    get_C0 V K T (sigma * factor) delta r (PyInt n)
  else if decide (name = "Time to Maturity (T)"%string) then
    let new_T := T * factor in
    get_C0 V K new_T sigma delta r (PyFloat new_T)
  else if decide (name = "Exercise Cost (K)"%string) then
    get_C0 V (K * factor) T sigma delta r (PyInt n)
  else if decide (name = "Cost of Delay"%string) then
    get_C0 V K T sigma (delta * factor) r (PyInt n)
  else if decide (name = "Risk-free Rate (r)"%string) then
    get_C0 V K T sigma delta (r * factor) (PyInt n)
  else lift (Raise NameError).

(** Source lines 213-220.  The division is [py_div]: it is performed only
    where the code performs it, behind the test [base_option_value == 0]. *)
Definition spider_percent (base_option_value min_C max_C : R) : outcome R :=
  percent_change ←
    (if decide (base_option_value = 0) then Return 0
     else
       let abs_change :=
         py_max (Rabs (max_C - base_option_value)) (Rabs (min_C - base_option_value)) in
       quotient ← py_div abs_change base_option_value;
       Return (quotient * 100));
  Return (py_round_ndigits percent_change 2).

(** The body of [for name, base_val in params_to_test.items()]. *)
Definition tornado_step (V K T sigma delta r : R) (n : Z) (base_option_value : R)
    (acc : list (string * tornado_entry) * list (string * R))
    (item : string * R) : traced (list (string * tornado_entry) * list (string * R)) :=
  let '(tornado_data, spider_data) := acc in
  let name := item.1 in
  results ← mapM (perturbed_C0 V K T sigma delta r n name) [9 / 10; 11 / 10];
  min_C ← lift (py_min_list results);
  max_C ← lift (py_max_list results);
  let tornado_data :=
    dict_set name (TornadoEntry min_C max_C base_option_value) tornado_data in
  percent_change ← lift (spider_percent base_option_value min_C max_C);
  let spider_data := dict_set name percent_change spider_data in
  mret (tornado_data, spider_data).

Fixpoint foldlM {A B : Type} (f : A -> B -> traced A) (a : A) (l : list B) : traced A :=
  match l with
  | [] => mret a
  | b :: l' => a' ← f a b; foldlM f a' l'
  end.

(** One line-chart loop (source lines 227-231 and 237-241). *)
Definition chart_step {L : Type} `{EqDecision L} (label : R -> L)
    (series : R -> R -> traced R) (sigma_line_range : list R)
    (acc : list (L * list R)) (factor : R) : traced (list (L * list R)) :=
  c_values ← mapM (fun s => c ← series factor s; mret (py_round_ndigits c 2))
                  sigma_line_range;
  mret (dict_set (label factor) c_values acc).

(** The dictionary [base_params] built by the route. *)
Record base_params : Type := BaseParams {
  bp_V_calc : R;
  bp_K_calc : R;
  bp_T : R;
  bp_sigma : R;
  bp_delta_val : R;
  bp_r : R;
  bp_delta_t0 : R;
  bp_deltas_manual : option (list R)
}.

Definition calculate_sensitivity_data (bp : base_params) (n : Z)
    : traced sensitivity :=
  let V := bp_V_calc bp in
  let K := bp_K_calc bp in
  let T := bp_T bp in
  let sigma := bp_sigma bp in
  let delta := bp_delta_val bp in
  let r := bp_r bp in
  base_option_value ← get_C0 V K T sigma delta r (PyInt n);
  '(tornado_data, spider_data) ←
    foldlM (tornado_step V K T sigma delta r n base_option_value) ([], [])
           (params_to_test V K T sigma delta r);
  let sigma_line_range := linspace (sigma * (1 / 2)) (sigma * (3 / 2)) 7 in
  let v_series_factors := [8 / 10; 1; 12 / 10] in
  sigma_v_data ←
    foldlM (chart_step (fun factor => py_round (V * factor / 1000))
              (fun factor s => get_C0 (V * factor) K T s delta r (PyInt n))
              sigma_line_range)
           [] v_series_factors;
  let delta_series_factors := [1 / 2; 1; 3 / 2] in
  sigma_delta_data ←
    foldlM (chart_step (fun factor => py_round_ndigits (delta * factor * 100) 1)
              (fun factor s => get_C0 V K T s (delta * factor) r (PyInt n))
              sigma_line_range)
           [] delta_series_factors;
  let labels := (fun s => py_round_ndigits s 3) <$> sigma_line_range in
  mret (Sensitivity tornado_data spider_data
          (LineChart labels sigma_v_data)
          (LineChart labels sigma_delta_data)
          base_option_value).

(** ** The [/calculate] route

    The body of the route function, entered once [login_required] has let
    the request through.  The request body is a JSON object.  Two builtins
    of Python are taken as an interface: the parser behind [float(s)] on a
    string and [str.strip]. *)

#[warnings="-register-all"]
Inductive json : Type :=
| JNull
| JBool (b : bool)
| JNum (x : R)
| JStr (s : string)
| JArr (l : list json)
| JObj (l : list (string * json)).

Class Builtins : Type := {
  (** [float(s)]: [None] when Python raises [ValueError]. *)
  float_of_string : string -> option R;
  (** [s.strip()] *)
  py_strip : string -> string
}.

(** [float(v)] on a JSON value. *)
Definition py_float `{Builtins} (v : json) : outcome R :=
  match v with
  | JNum x => Return x
  | JBool b => Return (if b then 1 else 0)
  | JStr s =>
      match float_of_string s with
      | Some x => Return x
      | None => Raise ValueError
      end
  | JNull | JArr _ | JObj _ => Raise TypeError
  end.

(** Truth value of a JSON value in an [if]. *)
Definition truthy (v : json) : bool :=
  match v with
  | JNull => false
  | JBool b => b
  | JNum x => bool_decide (x <> 0)
  | JStr s => bool_decide (s <> ""%string)
  | JArr l => bool_decide (l <> [])
  | JObj l => bool_decide (l <> [])
  end.

(** [s.split(sep)] for a one-character separator. *)
Fixpoint py_split (sep : ascii) (s : string) : list string :=
  match s with
  | EmptyString => [EmptyString]
  | String c s' =>
      if Ascii.eqb c sep then EmptyString :: py_split sep s'
      else
        match py_split sep s' with
        | w :: ws => String c w :: ws
        | [] => [String c EmptyString]
        end
  end.

(** [data[key]] *)
Definition dict_get (data : gmap string json) (key : string) : outcome json :=
  match data !! key with
  | Some v => Return v
  | None => Raise KeyError
  end.

(** [float(d.strip())] on one entry of the sequence. *)
Definition parse_entry `{Builtins} (d : string) : outcome R :=
  py_float (JStr (py_strip d)).

(** The body of the inner [try] (source lines 498-501): only a string has
    [split]. *)
Definition parse_manual `{Builtins} (delta_input : json) : outcome (list R) :=
  if truthy delta_input then
    match delta_input with
    | JStr s => mapM parse_entry (py_split ","%char s)
    | _ => Raise AttributeError
    end
  else Return [].

(** What the route has computed when it reaches persistence, export and the
    JSON reply, none of which is embedded. *)
Record calculation : Type := Calculation {
  calc_n : Z;
  calc_delta_t0 : R;
  calc_deltas_manual : option (list R);
  calc_lattices : lattices;
  calc_initial_option_value_thousands : R;
  calc_A_thousands : list (list Z);
  calc_N_thousands : list (list Z);
  calc_C_thousands : list (list Z);
  calc_sensitivity : sensitivity
}.

Inductive response : Type :=
| Error400 (message : string)
| Error500 (e : exn)
| Computed (c : calculation).

Definition thousands (M : list (list R)) : list (list Z) :=
  (fun row : list R => (fun val : R => py_round (val / 1000)) <$> row) <$> M.

(** [n = int(T)] followed by [if n == 0: n = 1] (source lines 514-516). *)
Definition period_count (T : R) : Z :=
  let n := py_int T in
  if bool_decide (n = 0)%Z then 1%Z else n.

(** Source lines 508-548, after the cost of delay has been read. *)
Definition valuation `{Builtins} (data : gmap string json)
    (V_input_thousands K_input_thousands delta_val delta_t0 : R)
    (deltas_manual : option (list R)) : traced calculation :=
  let V_calc := V_input_thousands * 1000 in
  let K_calc := K_input_thousands * 1000 in
  T ← lift (dict_get data "T" ≫= py_float);
  sigma ← lift (dict_get data "sigma" ≫= py_float);
  r ← lift (dict_get data "r" ≫= py_float);
  let n := period_count T in
  L ← call_lattices (LatticeCall V_calc K_calc T sigma delta_val r n deltas_manual);
  initial_option_value_actual_units ← lift (index2 (out_C L) 0 0);
  let initial_option_value_thousands := initial_option_value_actual_units / 1000 in
  let bp := BaseParams V_calc K_calc T sigma delta_val r delta_t0 deltas_manual in
  sensitivity_data ← calculate_sensitivity_data bp n;
  mret (Calculation n delta_t0 deltas_manual L initial_option_value_thousands
          (thousands (out_A L)) (thousands (out_N L)) (thousands (out_C L))
          sensitivity_data).

(** The outer [try]/[except Exception]. *)
Definition catch_all (m : traced calculation) : traced response :=
  match m with
  | (t, Return c) => (t, Return (Computed c))
  | (t, Raise e) => (t, Return (Error500 e))
  end.

Definition is_auto (delta_mode : json) : bool :=
  match delta_mode with
  | JStr s => bool_decide (s = "auto"%string)
  | _ => false
  end.

Definition calculate `{Builtins} (data : gmap string json) : traced response :=
  match dict_get data "V" ≫= py_float with
  | Raise e => mret (Error500 e)
  | Return V_input_thousands =>
  match dict_get data "K" ≫= py_float with
  | Raise e => mret (Error500 e)
  | Return K_input_thousands =>
  let delta_mode := default (JStr "auto") (data !! "delta-mode"%string) in
  match dict_get data "delta" with
  | Raise e => mret (Error500 e)
  | Return delta_input =>
  if is_auto delta_mode then
    match py_float delta_input with
    | Raise e => mret (Error500 e)
    | Return delta_val =>
        catch_all (valuation data V_input_thousands K_input_thousands
                     delta_val delta_val None)
    end
  else
    match parse_manual delta_input with
    | Raise ValueError =>
        mret (Error400 "Manual Cost of Delay values must be valid numbers.")
    | Raise e => mret (Error500 e)
    | Return deltas_manual =>
        let delta_val := default 0 (head deltas_manual) in
        catch_all (valuation data V_input_thousands K_input_thousands
                     delta_val delta_val (Some deltas_manual))
    end
  end end end.

(** ** [binomial_parameters] (source lines 113-117)

    The helper is not called by the route; its three lines are the ones
    [calculate_lattices] repeats for every period, without the guard on
    [u = d]. *)
Definition binomial_parameters (sigma r delta dt : R) : R * R * R :=
  let u := exp (sigma * sqrt dt) in
  let d := 1 / u in
  let p := (exp ((r - delta) * dt) - d) / (u - d) in
  (u, d, p).

(** ** Notions used in the statements *)

(** The call to [calculate_lattices] made by [get_C0], and the value
    [get_C0] returns when that call returns. *)
Definition point_call (V K T sigma delta r : R) : lattice_call :=
  LatticeCall V K T sigma delta r (Z.max 1 (py_int T)) None.

Definition point_value (V K T sigma delta r : R) : R :=
  match run_call (point_call V K T sigma delta r) with
  | Return L => cell (out_C L) 0 0 / 1000
  | Raise _ => 0
  end.

(** A small runtime for the examples: [float] reads unsigned integer
    literals only and [strip] is the identity.  The theorems hold for every
    runtime. *)
Definition digit_value (c : ascii) : option Z :=
  let k := Z.of_nat (nat_of_ascii c) in
  if bool_decide (48 <= k <= 57)%Z then Some (k - 48)%Z else None.

Fixpoint digits_value (s : string) (acc : Z) : option Z :=
  match s with
  | EmptyString => Some acc
  | String c s' =>
      match digit_value c with
      | Some k => digits_value s' (10 * acc + k)
      | None => None
      end
  end.

Definition example_runtime : Builtins := {|
  float_of_string s :=
    match s with
    | EmptyString => None
    | _ => IZR <$> digits_value s 0
    end;
  py_strip s := s
|}.

(** The six keys of [params_to_test]. *)
Definition tornado_names : list string :=
  ["Asset Value (V)"; "Volatility"; "Time to Maturity (T)"; "Exercise Cost (K)";
   "Cost of Delay"; "Risk-free Rate (r)"]%string.

(** The number [spider_percent] returns (lemma [spider_percent_return]),
    to write the results of the loop down. *)
Definition spider_value (base min_C max_C : R) : R :=
  py_round_ndigits
    (if decide (base = 0) then 0
     else py_max (Rabs (max_C - base)) (Rabs (min_C - base)) / base * 100) 2.

(** The spider entry of a name is computed from its tornado entry. *)
Definition spider_of_tornado (te : string * tornado_entry) (sp : string * R) : Prop :=
  te.1 = sp.1 /\
  sp.2 = spider_value (tornado_base_value te.2) (tornado_min te.2) (tornado_max te.2).

(** A lattice of side [m]: [m] rows of [m] entries each. *)
Definition square (m : nat) (M : list (list R)) : Prop :=
  length M = m /\ Forall (fun row => length row = m) M.

(** ** [calculate_lattices] with NaN

    [np.sqrt] of a negative number is NaN, and NaN spreads through the
    arithmetic that follows.  That happens exactly when [dt = T / n] is
    negative.  The module [Float64] is [calculate_lattices] once more, line
    by line, over floats that are either a real number or NaN; lemma
    [calculate_lattices_refines] shows that for [dt >= 0] it returns the
    lattices of [calculate_lattices] above and no NaN.  Rounding and
    overflow stay outside the model, so there are no infinities. *)
Module Float64.

Inductive npfloat : Type :=
| Fin (x : R)
| NaN.

#[global] Instance npfloat_inhabited : Inhabited npfloat := populate (Fin 0).

(** [a + b], [a - b], [a * b]: NaN as soon as an operand is. *)
Definition fadd (a b : npfloat) : npfloat :=
  match a, b with
  | Fin x, Fin y => Fin (x + y)
  | _, _ => NaN
  end.

Definition fsub (a b : npfloat) : npfloat :=
  match a, b with
  | Fin x, Fin y => Fin (x - y)
  | _, _ => NaN
  end.

Definition fmul (a b : npfloat) : npfloat :=
  match a, b with
  | Fin x, Fin y => Fin (x * y)
  | _, _ => NaN
  end.

(** [a / b] on NumPy scalars.  For a zero divisor NumPy answers an
    infinity or NaN; no real number either way, and NaN stands for it. *)
Definition fdiv (a b : npfloat) : npfloat :=
  match a, b with
  | Fin x, Fin y => if decide (y = 0) then NaN else Fin (x / y)
  | _, _ => NaN
  end.

(** [np.exp(a)] *)
Definition np_exp (a : npfloat) : npfloat :=
  match a with
  | Fin x => Fin (exp x)
  | NaN => NaN
  end.

(** [np.sqrt(a)]: NaN for a negative argument. *)
Definition np_sqrt (a : npfloat) : npfloat :=
  match a with
  | Fin x => if decide (0 <= x) then Fin (sqrt x) else NaN
  | NaN => NaN
  end.

(** [a ** k] for a Python integer [k]: [nan ** 0] is [1.0]. *)
Definition fpow (a : npfloat) (k : Z) : npfloat :=
  if decide (k = 0%Z) then Fin 1
  else
    match a with
    | Fin x => Fin (powerRZ x k)
    | NaN => NaN
    end.

(** [a > b] and [a != b]: every ordered comparison with NaN is false, and
    NaN differs from everything, itself included. *)
Definition fgt (a b : npfloat) : bool :=
  match a, b with
  | Fin x, Fin y => bool_decide (y < x)
  | _, _ => false
  end.

Definition fne (a b : npfloat) : bool :=
  match a, b with
  | Fin x, Fin y => bool_decide (x <> y)
  | _, _ => true
  end.

(** [max(a, b)]: the first argument unless the second is strictly greater,
    so a NaN in first place is kept. *)
Definition fmax (a b : npfloat) : npfloat := if fgt b a then b else a.

(** [a >= 0] *)
Definition nonneg (a : npfloat) : Prop :=
  match a with
  | Fin x => 0 <= x
  | NaN => False
  end.

Definition cell (M : list (list npfloat)) (i j : nat) : npfloat := (M !!! i) !!! j.

Definition set_cell (M : list (list npfloat)) (i j : nat) (v : npfloat)
    : list (list npfloat) :=
  alter (fun row => <[j := v]> row) i M.

Record lattices : Type := Lattices {
  out_A : list (list npfloat);
  out_N : list (list npfloat);
  out_C : list (list npfloat);
  out_times : list nat;
  out_deltas : list R;
  out_ps_for_export : list npfloat
}.

(** [A = [[V * (u**(j-i)) * (d**i) for j in range(n+1)] for i in range(n+1)]] *)
Definition asset_lattice (V : R) (u d : npfloat) (n : Z) : list (list npfloat) :=
  (fun i : nat =>
     (fun j : nat =>
        fmul (fmul (Fin V) (fpow u (Z.of_nat j - Z.of_nat i))) (fpow d (Z.of_nat i)))
       <$> range (n + 1))
    <$> range (n + 1).

(** [N = [[max(A[i][j] - K, 0) for j in range(n+1)] for i in range(n+1)]] *)
Definition net_lattice (A : list (list npfloat)) (K : R) (n : Z)
    : list (list npfloat) :=
  (fun i : nat =>
     (fun j : nat => fmax (fsub (cell A i j) (Fin K)) (Fin 0)) <$> range (n + 1))
    <$> range (n + 1).

Definition zero_lattice (n : Z) : list (list npfloat) :=
  (fun _ : nat => replicate (Z.to_nat (n + 1)) (Fin 0)) <$> range (n + 1).

Definition terminal_boundary (N C : list (list npfloat)) (n : Z)
    : list (list npfloat) :=
  foldl (fun C i => set_cell C i (Z.to_nat n) (cell N i (Z.to_nat n)))
        C (range (n + 1)).

(** [ps_for_export = [(np.exp((r - deltas[t]) * dt) - d) / (u - d)
                      if u != d else 0 for t in times]] *)
Definition probabilities (r dt : R) (u d : npfloat) (deltas : list R)
    (times : list nat) : list npfloat :=
  (fun t : nat =>
     if fne u d then fdiv (fsub (np_exp (Fin ((r - deltas !!! t) * dt))) d) (fsub u d)
     else Fin 0)
    <$> times.

Definition induction_node (N : list (list npfloat)) (discount p : npfloat) (j : nat)
    (C : list (list npfloat)) (i : nat) : list (list npfloat) :=
  let intrinsic_value := cell N i j in
  let hold :=
    fmul discount
      (fadd (fmul p (cell C i (j + 1)))
            (fmul (fsub (Fin 1) p) (cell C (i + 1) (j + 1)))) in
  set_cell C i j (fmax hold intrinsic_value).

Definition induction_period (N : list (list npfloat)) (discount : npfloat)
    (ps_for_induction : list npfloat) (C : list (list npfloat)) (j : nat)
    : list (list npfloat) :=
  let p := ps_for_induction !!! j in
  foldl (induction_node N discount p j) C (range (Z.of_nat j + 1)).

Definition backward_induction (N : list (list npfloat)) (discount : npfloat)
    (ps_for_induction : list npfloat) (C : list (list npfloat)) (n : Z)
    : list (list npfloat) :=
  foldl (induction_period N discount ps_for_induction) C (reverse (range n)).

(** [calculate_lattices] (source lines 119-159).  [T / n] divides two
    Python numbers and raises for [n = 0]; the cost-of-delay schedule is
    computed on Python floats as before. *)
Definition calculate_lattices (V K T sigma delta r : R) (n : Z)
    (deltas_manual : option (list R)) : outcome lattices :=
  if bool_decide (n = 0)%Z then Raise ZeroDivisionError
  else
    let dt := T / IZR n in
    let sigma_effective := sigma in
    let u := np_exp (fmul (Fin sigma_effective) (np_sqrt (Fin dt))) in
    let d := fdiv (Fin 1) u in
    let A := asset_lattice V u d n in
    let N := net_lattice A K n in
    let C := terminal_boundary N (zero_lattice n) n in
    let discount := np_exp (Fin (- r * dt)) in
    let times := range (n + 1) in
    let deltas := delay_schedule delta n deltas_manual times in
    let ps_for_export := probabilities r dt u d deltas times in
    let ps_for_induction := drop_last ps_for_export in
    let C := backward_induction N discount ps_for_induction C n in
    Return (Lattices A N C times deltas ps_for_export).

(** The lattices of the engine above, read as floats. *)
Definition embed (M : list (list R)) : list (list npfloat) :=
  (fun row : list R => Fin <$> row) <$> M.

End Float64.

(** The result of [calculate_lattices] read as a result of
    [Float64.calculate_lattices]. *)
Definition embed_lattices (L : lattices) : Float64.lattices :=
  Float64.Lattices (Float64.embed (out_A L)) (Float64.embed (out_N L))
    (Float64.embed (out_C L)) (out_times L) (out_deltas L)
    (Float64.Fin <$> out_ps_for_export L).

(** The valuation [c] meets no NaN: the engine with NaN returns for it
    what the engine on the reals returns. *)
Definition nan_free (c : lattice_call) : Prop :=
  Float64.calculate_lattices (call_V c) (call_K c) (call_T c) (call_sigma c)
    (call_delta c) (call_r c) (call_n c) (call_deltas_manual c)
  = L ← run_call c; mret (embed_lattices L).

(** ** Stored calculations (source lines 78-87 and 556-576)

    The table [Calculation] is a finite map from primary key to row.  The
    JSON texts are opaque strings; [timestamp] is the value [db.func.now()]
    gave at insertion. *)
Record stored_calculation : Type := StoredCalculation {
  sc_user_id : Z;
  sc_timestamp : Z;
  sc_input_params_json : string;
  sc_output_summary_json : string
}.

(** [Calculation.query.filter_by(user_id=...)] *)
Definition user_calculations (uid : Z) (t : gmap Z stored_calculation)
    : gmap Z stored_calculation :=
  filter (fun kv => sc_user_id kv.2 = uid) t.

(** A row of least timestamp in a list of rows; among equal timestamps the
    choice is the database's, here the first in the list. *)
Fixpoint earliest (l : list (Z * stored_calculation))
    : option (Z * stored_calculation) :=
  match l with
  | [] => None
  | x :: l' =>
      match earliest l' with
      | None => Some x
      | Some y =>
          if bool_decide (sc_timestamp x.2 <= sc_timestamp y.2)%Z then Some x
          else Some y
      end
  end.

(** [current_user.calculations.first()]: the relationship is ordered by
    [Calculation.timestamp.asc()]. *)
Definition oldest_calculation (uid : Z) (t : gmap Z stored_calculation)
    : option (Z * stored_calculation) :=
  earliest (map_to_list (user_calculations uid t)).

(** Source lines 557-575, when the commit succeeds: [uid] is
    [current_user.id], [now] the timestamp and [new_id] the primary key the
    database gives the new row. *)
Definition save_calculation (uid now new_id : Z) (input_params_json
    output_summary_json : string) (t : gmap Z stored_calculation)
    : gmap Z stored_calculation :=
  let calc_count := size (user_calculations uid t) in
  let t :=
    if bool_decide (15 <= calc_count)%nat then
      match oldest_calculation uid t with
      | Some (id, _) => delete id t
      | None => t
      end
    else t in
  <[new_id := StoredCalculation uid now input_params_json output_summary_json]> t.

(** ** Accounts (source lines 30-109 and 285-445)

    The table [User] is a finite map from primary key to row; the session
    holds the id of the logged-in user, if any, and [current_user] is that
    row of the table ([load_user]).  A commit either succeeds or raises
    with some text; the request carries which ([None] for success).  The
    [user_id] form field is taken as the key it denotes. *)
Definition SUPER_ADMIN_USERNAME : string := "Grid.Thoma".

Record user : Type := User {
  username : string;
  email : string;
  password_hash : string;
  is_admin : bool;
  is_super_admin : bool
}.

Class Hashing : Type := {
  (** [werkzeug.security.generate_password_hash] *)
  generate_password_hash : string -> string
}.

Record world : Type := World {
  users : gmap Z user;
  session : option Z
}.

Definition current_user (w : world) : option (Z * user) :=
  id ← session w; u ← users w !! id; Some (id, u).

Definition logout_user (w : world) : world := World (users w) None.

Inductive page : Type :=
| Redirect (endpoint : string)
| Render (template : string).

(** The reply: the messages flashed, each with its category, and the page. *)
Record reply : Type := Reply {
  flashed : list (string * string);
  shown : page
}.

(** [@login_required]: Flask-Login flashes its default message with the
    configured category ['info'] and redirects to the login view. *)
Definition login_required (w : world) (view : Z -> user -> world * reply)
    : world * reply :=
  match current_user w with
  | Some (id, u) => view id u
  | None =>
      (w, Reply [("Please log in to access this page.", "info")]%string
                (Redirect "login"))
  end.

(** [admin_required] (source lines 36-44) *)
Definition admin_required (w : world) (view : Z -> user -> world * reply)
    : world * reply :=
  login_required w (fun id u =>
    if is_admin u then view id u
    else (w, Reply [("You do not have permission to access this page.", "danger")]%string
                   (Redirect "dashboard"))).

(** [User.query.filter((User.username == name) | (User.email == mail))] *)
Definition users_with_name_or_email (name mail : string) (us : gmap Z user)
    : gmap Z user :=
  filter (fun kv => username kv.2 = name \/ email kv.2 = mail) us.

(** [User.query.filter_by(is_super_admin=True)] *)
Definition super_admins (us : gmap Z user) : gmap Z user :=
  filter (fun kv => is_super_admin kv.2 = true) us.

(** [db.session.add(u); db.session.commit()]: the columns [username] and
    [email] are unique, and the key is one not in use. *)
Definition insert_user (commit : option string) (u : user) (us : gmap Z user)
    : string + gmap Z user :=
  match commit with
  | Some e => inl e
  | None =>
      if bool_decide (size (users_with_name_or_email (username u) (email u) us) = 0%nat)
      then inr (<[fresh (dom us) := u]> us)
      else inl "IntegrityError"%string
  end.

(** [create_default_admin] (source lines 91-109) *)
Definition create_default_admin `{Hashing} (commit : option string) (us : gmap Z user)
    : string + gmap Z user :=
  if bool_decide (size (filter (fun kv => username kv.2 = SUPER_ADMIN_USERNAME) us) = 0%nat)
  then
    insert_user commit
      (User SUPER_ADMIN_USERNAME "grid.thoma@unicam.it"
         (generate_password_hash "gridthoma123") true true) us
  else inr us.

(** [delete_account] (source lines 285-308) *)
Definition delete_account (commit : option string) (w : world) : world * reply :=
  login_required w (fun id user =>
    if is_super_admin user
       && bool_decide (username user = SUPER_ADMIN_USERNAME)
       && bool_decide (size (filter (fun kv => is_super_admin kv.2 = true /\ kv.1 <> id)
                                    (users w)) = 0%nat)
    then
      (w, Reply [("CRITICAL: You are the last Super Admin. Transfer the Super Admin role before deleting your account.", "danger")]%string
                (Redirect "dashboard"))
    else
      let w := logout_user w in
      match commit with
      | None =>
          (World (delete id (users w)) (session w),
           Reply [("Your account has been successfully deleted.", "success")]%string
                 (Redirect "login"))
      | Some e =>
          (w, Reply [("An error occurred during account deletion: " +:+ e, "danger")]%string
                    (Redirect "login"))
      end).

(** The form of the admin portal. *)
Record admin_form : Type := AdminForm {
  f_action : option string;
  f_username : option string;
  f_email : option string;
  f_password : option string;
  f_is_admin : option string;
  f_is_super_admin : option string;
  f_user_id : option Z
}.

Inductive http_method : Type := GET | POST.

(** Truth value of a form field: [None] and the empty string are false. *)
Definition field_given (f : option string) : bool :=
  match f with
  | Some s => bool_decide (s <> ""%string)
  | None => false
  end.

(** [str(b)] inside an f-string *)
Definition py_bool_str (b : bool) : string := if b then "True" else "False".

Definition dquote : string := String (ascii_of_nat 34) EmptyString.

(** The last two lines of [admin_manage_users]: the page of the portal. *)
Definition portal (w : world) (messages : list (string * string)) : world * reply :=
  (w, Reply messages (Render "admin_add_user.html")).

(** Source lines 317-343. *)
Definition add_user_action `{Hashing} (cur : user) (form : admin_form)
    (commit : option string) (w : world) : world * reply :=
  let is_admin_flag := bool_decide (f_is_admin form = Some "on"%string) in
  let is_super_flag := bool_decide (f_is_super_admin form = Some "on"%string) in
  if negb (field_given (f_username form) && field_given (f_email form)
           && field_given (f_password form))
  then portal w [("All fields are required.", "danger")]%string
  else
    let name := default ""%string (f_username form) in
    let mail := default ""%string (f_email form) in
    let password := default ""%string (f_password form) in
    if negb (bool_decide (size (users_with_name_or_email name mail (users w)) = 0%nat))
    then portal w [("Username or Email already exists.", "danger")]%string
    else if is_super_flag && negb (is_super_admin cur)
    then portal w [("Only the Super Admin can create another Super Admin.", "danger")]%string
    else
      let is_admin_flag := if is_super_flag then true else is_admin_flag in
      let new_user :=
        User name mail (generate_password_hash password) is_admin_flag is_super_flag in
      match insert_user commit new_user (users w) with
      | inr us =>
          portal (World us (session w))
            [("User " +:+ dquote +:+ name +:+ dquote
              +:+ " created successfully (Admin: " +:+ py_bool_str is_admin_flag +:+ ")!",
              "success")]%string
      | inl e =>
          portal w [("An error occurred while creating the user: " +:+ e, "danger")]%string
      end.

(** Source lines 345-378. *)
Definition delete_user_action (cid : Z) (cur : user) (form : admin_form)
    (commit : option string) (w : world) : world * reply :=
  match f_user_id form ≫= (fun id => (fun u => (id, u)) <$> users w !! id) with
  | Some (tid, target) =>
      if is_super_admin target
         && bool_decide (username target = SUPER_ADMIN_USERNAME)
         && bool_decide (size (super_admins (users w)) <= 1)%nat
      then
        (w, Reply [("Cannot delete the last remaining primary Super Admin.", "danger")]%string
                  (Redirect "admin_manage_users"))
      else if is_super_admin target && negb (is_super_admin cur)
      then
        (w, Reply [("Only the Super Admin can delete Super Admin accounts.", "danger")]%string
                  (Redirect "admin_manage_users"))
      else if bool_decide (tid = cid) then
        match commit with
        | None =>
            (World (delete tid (users w)) None,
             Reply [("Your admin account was deleted.", "success")]%string
                   (Redirect "login"))
        | Some e =>
            portal (logout_user w)
              [("Your admin account was deleted.", "success");
               ("Error deleting user: " +:+ e, "danger")]%string
        end
      else
        match commit with
        | None =>
            portal (World (delete tid (users w)) (session w))
              [("User " +:+ username target +:+ " deleted.", "success")]%string
        | Some e => portal w [("Error deleting user: " +:+ e, "danger")]%string
        end
  | None => portal w [("User not found.", "danger")]%string
  end.

(** Source lines 380-406. *)
Definition toggle_admin_action (cur : user) (form : admin_form)
    (commit : option string) (w : world) : world * reply :=
  match f_user_id form ≫= (fun id => (fun u => (id, u)) <$> users w !! id) with
  | Some (tid, target) =>
      if is_admin cur then
        if is_super_admin target && negb (is_super_admin cur)
        then portal w [("Only the Super Admin can modify Super Admin roles.", "danger")]%string
        else if bool_decide (username target = SUPER_ADMIN_USERNAME) && is_admin target
        then portal w [("The primary Super Admin role cannot be modified via this toggle.", "danger")]%string
        else
          let new_admin := negb (is_admin target) in
          let new_super := if new_admin then is_super_admin target else false in
          match commit with
          | None =>
              portal (World (<[tid := User (username target) (email target)
                                        (password_hash target) new_admin new_super]>
                               (users w))
                            (session w))
                [("Role for " +:+ username target
                  +:+ " updated. Super Admin role revoked if admin privileges were removed.",
                  "success")]%string
          | Some e => portal w [("Error updating role: " +:+ e, "danger")]%string
          end
      else portal w []
  | None => portal w []
  end.

(** Source lines 409-440. *)
Definition set_super_admin_action (cid : Z) (cur : user) (form : admin_form)
    (commit : option string) (w : world) : world * reply :=
  let user_to_promote :=
    f_user_id form ≫= (fun id => (fun u => (id, u)) <$> users w !! id) in
  if negb (is_super_admin cur)
  then portal w [("Only the Super Admin can assign the Super Admin role.", "danger")]%string
  else
    match user_to_promote with
    | Some (tid, target) =>
        if bool_decide (tid = cid) then
          (w, Reply [("Cannot transfer the role to yourself.", "danger")]%string
                    (Redirect "admin_manage_users"))
        else
          match commit with
          | None =>
              let demoted :=
                User (username cur) (email cur) (password_hash cur) (is_admin cur) false in
              let promoted :=
                User (username target) (email target) (password_hash target) true true in
              (World (<[tid := promoted]> (<[cid := demoted]> (users w))) None,
               Reply [("Super Admin role transferred from " +:+ username cur +:+ " to "
                       +:+ username target
                       +:+ ". You are now a regular admin/user. Please log in again.",
                       "success")]%string
                     (Redirect "login"))
          | Some e =>
              portal w [("Error transferring Super Admin role: " +:+ e, "danger")]%string
          end
    | None => portal w [("User not found for promotion.", "danger")]%string
    end.

(** [admin_manage_users] (source lines 311-445) *)
Definition admin_manage_users `{Hashing} (method : http_method) (form : admin_form)
    (commit : option string) (w : world) : world * reply :=
  admin_required w (fun cid cur =>
    match method with
    | GET => portal w []
    | POST =>
        if bool_decide (f_action form = Some "add_user"%string)
        then add_user_action cur form commit w
        else if bool_decide (f_action form = Some "delete_user"%string)
        then delete_user_action cid cur form commit w
        else if bool_decide (f_action form = Some "toggle_admin"%string)
        then toggle_admin_action cur form commit w
        else if bool_decide (f_action form = Some "set_super_admin"%string)
        then set_super_admin_action cid cur form commit w
        else portal w []
    end).

(** Every super admin is an admin. *)
Definition super_implies_admin (us : gmap Z user) : Prop :=
  forall id u, us !! id = Some u -> is_super_admin u = true -> is_admin u = true.

(** No two rows share a user name, and no two share an e-mail address. *)
Definition unique_accounts (us : gmap Z user) : Prop :=
  forall i j u1 u2,
    us !! i = Some u1 -> us !! j = Some u2 ->
    username u1 = username u2 \/ email u1 = email u2 -> i = j.

(** What a request to the admin portal by the user [cur] with key [cid]
    can do to the table of users. *)
Inductive portal_change (cur : user) (cid : Z) (us : gmap Z user)
    : gmap Z user -> Prop :=
| change_none : portal_change cur cid us us
| change_add id u :
    us !! id = None ->
    (forall j v, us !! j = Some v -> username v <> username u /\ email v <> email u) ->
    (is_super_admin u = true -> is_admin u = true /\ is_super_admin cur = true) ->
    portal_change cur cid us (<[id := u]> us)
| change_delete tid target :
    us !! tid = Some target ->
    (is_super_admin target = true ->
       is_super_admin cur = true /\
       (username target = SUPER_ADMIN_USERNAME -> (2 <= size (super_admins us))%nat)) ->
    portal_change cur cid us (delete tid us)
| change_toggle tid target :
    us !! tid = Some target ->
    (is_super_admin target = true -> is_super_admin cur = true) ->
    (username target = SUPER_ADMIN_USERNAME -> is_admin target = false) ->
    portal_change cur cid us
      (<[tid := User (username target) (email target) (password_hash target)
                     (negb (is_admin target))
                     (if negb (is_admin target) then is_super_admin target else false)]>
         us)
| change_transfer tid target :
    is_super_admin cur = true ->
    us !! tid = Some target ->
    tid <> cid ->
    portal_change cur cid us
      (<[tid := User (username target) (email target) (password_hash target) true true]>
         (<[cid := User (username cur) (email cur) (password_hash cur)
                        (is_admin cur) false]> us)).

(** Some super admin is left. *)
Definition has_super_admin (us : gmap Z user) : Prop :=
  exists id u, us !! id = Some u /\ is_super_admin u = true.

(** A hashing function to evaluate the account routes on examples. *)
Definition example_hashing : Hashing := {|
  generate_password_hash := fun s => ("hash:" +:+ s)%string
|}.

(** Example accounts and requests. *)
Definition grid_thoma : user :=
  User SUPER_ADMIN_USERNAME "grid.thoma@unicam.it" "h1" true true.

Definition bob : user := User "bob" "bob@unicam.it" "h2" true false.

Definition eve : user := User "eve" "eve@unicam.it" "h3" true true.

Definition example_users : gmap Z user := <[2%Z := bob]> {[ 1%Z := grid_thoma ]}.

Definition add_form : admin_form :=
  AdminForm (Some "add_user") (Some "carol") (Some "carol@unicam.it")
    (Some "secret") (Some "on") None None.

Definition toggle_form (id : Z) : admin_form :=
  AdminForm (Some "toggle_admin") None None None None None (Some id).

Definition delete_form (id : Z) : admin_form :=
  AdminForm (Some "delete_user") None None None None None (Some id).

Definition transfer_form (id : Z) : admin_form :=
  AdminForm (Some "set_super_admin") None None None None None (Some id).

(** * Properties *)

(** ** Arithmetic helpers *)

Lemma py_max_Rmax (a b : R) : py_max a b = Rmax a b.
Proof.
  unfold py_max, Rmax. destruct (decide (a < b)), (Rle_dec a b); lra.
Qed.

Lemma py_min_Rmin (a b : R) : py_min a b = Rmin a b.
Proof.
  unfold py_min, Rmin. destruct (decide (b < a)), (Rle_dec a b); lra.
Qed.

Lemma py_max_nonneg (a : R) : 0 <= py_max a 0.
Proof. rewrite py_max_Rmax. apply Rmax_r. Qed.

Lemma range_succ (m : nat) : range (Z.of_nat m + 1) = seq 0 (S m).
Proof. unfold range. f_equal. lia. Qed.

Lemma range_of_nat (m : nat) : range (Z.of_nat m) = seq 0 m.
Proof. unfold range. f_equal. lia. Qed.

(** ** Reading and writing cells *)

Lemma square_row (m : nat) (M : list (list R)) (i : nat) :
  square m M -> (i < m)%nat -> length (M !!! i) = m.
Proof.
  intros [Hlen Hrows] Hi.
  apply (Forall_lookup_total_1 (fun row => length row = m)); [done | lia].
Qed.

Lemma square_set_cell (m : nat) (M : list (list R)) (i j : nat) (v : R) :
  square m M -> square m (set_cell M i j v).
Proof.
  intros [Hlen Hrows]. split.
  - unfold set_cell. by rewrite length_alter.
  - unfold set_cell. apply Forall_alter; [done |].
    intros row _ Hrow. by rewrite length_insert.
Qed.

Lemma cell_set_cell_eq (m : nat) (M : list (list R)) (i j : nat) (v : R) :
  square m M -> (i < m)%nat -> (j < m)%nat -> cell (set_cell M i j v) i j = v.
Proof.
  intros HM Hi Hj. unfold cell, set_cell.
  rewrite list_lookup_total_alter_eq by (destruct HM; lia).
  apply list_lookup_total_insert_eq. rewrite (square_row m); done.
Qed.

Lemma cell_set_cell_ne (M : list (list R)) (i j i' j' : nat) (v : R) :
  (i, j) <> (i', j') -> cell (set_cell M i j v) i' j' = cell M i' j'.
Proof.
  intros Hne. unfold cell, set_cell.
  destruct (decide (i = i')) as [<- | Hi].
  - rewrite list_lookup_total_alter.
    case_decide; [| done].
    apply list_lookup_total_insert_ne. congruence.
  - by rewrite list_lookup_total_alter_ne.
Qed.

Lemma square_foldl {B : Type} (m : nat) (f : list (list R) -> B -> list (list R))
    (l : list B) (M : list (list R)) :
  (forall M b, square m M -> square m (f M b)) ->
  square m M -> square m (foldl f M l).
Proof.
  intros Hf. revert M. induction l as [| b l IH]; intros M HM; simpl; auto.
Qed.

(** ** The asset, exercise and zero lattices *)

Lemma cell_fmap_seq (m : nat) (f : nat -> nat -> R) (i j : nat) :
  (i < m)%nat -> (j < m)%nat ->
  cell ((fun i : nat => (fun j : nat => f i j) <$> seq 0 m) <$> seq 0 m) i j = f i j.
Proof.
  intros Hi Hj. unfold cell.
  rewrite (list_lookup_total_fmap (fun i : nat => (fun j : nat => f i j) <$> seq 0 m))
    by (rewrite length_seq; lia).
  rewrite lookup_total_seq_lt by done.
  rewrite (list_lookup_total_fmap (fun j : nat => f (0 + i)%nat j))
    by (rewrite length_seq; lia).
  by rewrite lookup_total_seq_lt.
Qed.

Lemma square_fmap_seq (m : nat) (f : nat -> nat -> R) :
  square m ((fun i : nat => (fun j : nat => f i j) <$> seq 0 m) <$> seq 0 m).
Proof.
  split.
  - by rewrite length_fmap, length_seq.
  - apply Forall_fmap, Forall_forall. intros i _. simpl.
    by rewrite length_fmap, length_seq.
Qed.

Lemma cell_asset (V u d : R) (m i j : nat) :
  (i <= m)%nat -> (j <= m)%nat ->
  cell (asset_lattice V u d (Z.of_nat m)) i j
  = V * powerRZ u (Z.of_nat j - Z.of_nat i) * d ^ i.
Proof.
  intros Hi Hj. unfold asset_lattice. rewrite range_succ.
  rewrite (cell_fmap_seq (S m)
             (fun i j => V * powerRZ u (Z.of_nat j - Z.of_nat i) * d ^ i)); [done | lia | lia].
Qed.

Lemma cell_net (A : list (list R)) (K : R) (m i j : nat) :
  (i <= m)%nat -> (j <= m)%nat ->
  cell (net_lattice A K (Z.of_nat m)) i j = py_max (cell A i j - K) 0.
Proof.
  intros Hi Hj. unfold net_lattice. rewrite range_succ.
  rewrite (cell_fmap_seq (S m) (fun i j => py_max (cell A i j - K) 0)); [done | lia | lia].
Qed.

Lemma cell_zero (m i j : nat) :
  (i <= m)%nat -> (j <= m)%nat -> cell (zero_lattice (Z.of_nat m)) i j = 0.
Proof.
  intros Hi Hj. unfold zero_lattice. rewrite range_succ.
  replace (Z.to_nat (Z.of_nat m + 1)) with (S m) by lia.
  unfold cell.
  rewrite (list_lookup_total_fmap (fun _ : nat => replicate (S m) 0))
    by (rewrite length_seq; lia).
  apply lookup_total_replicate_2. lia.
Qed.

Lemma square_zero (m : nat) : square (S m) (zero_lattice (Z.of_nat m)).
Proof.
  unfold zero_lattice. rewrite range_succ.
  replace (Z.to_nat (Z.of_nat m + 1)) with (S m) by lia.
  split.
  - by rewrite length_fmap, length_seq.
  - apply Forall_fmap, Forall_forall. intros i _. simpl.
    by rewrite length_replicate.
Qed.

(** ** The terminal boundary *)

Lemma terminal_boundary_prefix (N C : list (list R)) (m k : nat) :
  square (S m) C -> (k <= S m)%nat ->
  let C' := foldl (fun C i => set_cell C i m (cell N i m)) C (seq 0 k) in
  square (S m) C' /\
  forall i j, cell C' i j = if decide (j = m /\ (i < k)%nat) then cell N i m else cell C i j.
Proof.
  intros HC. cbv zeta. induction k as [| k IH]; intros Hk.
  - split; [done |]. intros i j. simpl. case_decide; [lia | done].
  - rewrite seq_S, foldl_snoc. simpl "+".
    destruct IH as [Hsq Hcells]; [lia |].
    split; [by apply square_set_cell |].
    intros i j. destruct (decide ((k, m) = (i, j))) as [Heq | Hne].
    + injection Heq as <- <-.
      rewrite (cell_set_cell_eq (S m)) by (done || lia).
      case_decide; [done | lia].
    + rewrite cell_set_cell_ne by done. rewrite Hcells.
      repeat case_decide; try done; try lia.
      * exfalso. apply Hne. f_equal; lia.
Qed.

Lemma terminal_boundary_spec (N C : list (list R)) (m : nat) :
  square (S m) C ->
  square (S m) (terminal_boundary N C (Z.of_nat m)) /\
  forall i j,
    cell (terminal_boundary N C (Z.of_nat m)) i j
    = if decide (j = m /\ (i <= m)%nat) then cell N i m else cell C i j.
Proof.
  intros HC. unfold terminal_boundary.
  rewrite range_succ, Nat2Z.id.
  destruct (terminal_boundary_prefix N C m (S m) HC) as [Hsq Hcells]; [lia |].
  split; [done |]. intros i j. rewrite Hcells.
  repeat case_decide; try done; lia.
Qed.

(** ** One period of the backward induction *)

Section period.
Variables (N : list (list R)) (discount p : R) (m j : nat).
Hypothesis Hj : (j < m)%nat.

Lemma induction_period_prefix (C : list (list R)) (k : nat) :
  square (S m) C -> (k <= S j)%nat ->
  let C' := foldl (induction_node N discount p j) C (seq 0 k) in
  square (S m) C' /\
  forall i' j',
    cell C' i' j'
    = if decide (j' = j /\ (i' < k)%nat)
      then py_max (discount * (p * cell C i' (j + 1) + (1 - p) * cell C (i' + 1) (j + 1)))
                  (cell N i' j)
      else cell C i' j'.
Proof.
  intros HC. cbv zeta. induction k as [| k IH]; intros Hk.
  - split; [done |]. intros i' j'. simpl. case_decide; [lia | done].
  - rewrite seq_S, foldl_snoc. simpl "+".
    destruct IH as [Hsq Hcells]; [lia |].
    unfold induction_node at 1 3.
    split; [by apply square_set_cell |].
    intros i' j'. destruct (decide ((k, j) = (i', j'))) as [Heq | Hne].
    + injection Heq as <- <-.
      rewrite (cell_set_cell_eq (S m)) by (done || lia).
      rewrite !Hcells.
      repeat case_decide; try done; lia.
    + rewrite cell_set_cell_ne by done. rewrite Hcells.
      repeat case_decide; try done; try lia.
      exfalso. apply Hne. f_equal; lia.
Qed.
End period.

Lemma induction_period_spec (N : list (list R)) (discount : R) (ps : list R)
    (m j : nat) (C : list (list R)) :
  (j < m)%nat -> square (S m) C ->
  let C' := induction_period N discount ps C j in
  square (S m) C' /\
  forall i' j',
    cell C' i' j'
    = if decide (j' = j /\ (i' <= j)%nat)
      then py_max (discount * (ps !!! j * cell C i' (j + 1)
                               + (1 - ps !!! j) * cell C (i' + 1) (j + 1)))
                  (cell N i' j)
      else cell C i' j'.
Proof.
  intros Hj HC. unfold induction_period. rewrite range_succ.
  destruct (induction_period_prefix N discount (ps !!! j) m j Hj C (S j) HC)
    as [Hsq Hcells]; [lia |].
  split; [done |]. intros i' j'. rewrite Hcells.
  repeat case_decide; try done; lia.
Qed.

(** ** All periods *)

Lemma backward_induction_prefix (N : list (list R)) (discount : R) (ps : list R)
    (m m' : nat) :
  (m' <= m)%nat ->
  forall C, square (S m) C ->
  let C' := foldl (induction_period N discount ps) C (reverse (seq 0 m')) in
  square (S m) C' /\
  (forall i j, (m' <= j)%nat -> cell C' i j = cell C i j) /\
  (forall i j, (j < m')%nat -> (i <= j)%nat ->
     cell C' i j
     = py_max (discount * (ps !!! j * cell C' i (j + 1)
                           + (1 - ps !!! j) * cell C' (i + 1) (j + 1)))
              (cell N i j)) /\
  (forall i j, (j < m')%nat -> (j < i)%nat -> cell C' i j = cell C i j).
Proof.
  cbv zeta. induction m' as [| m' IH]; intros Hm C HC.
  - simpl. split; [done |]. split; [done |]. split; intros; lia.
  - rewrite seq_S, reverse_snoc. simpl "+". simpl foldl.
    destruct (induction_period_spec N discount ps m m' C) as [Hsq1 Hcells1];
      [lia | done |].
    set (C1 := induction_period N discount ps C m') in *.
    destruct (IH ltac:(lia) C1 Hsq1) as (Hsq & Hkeep & Hrec & Hzero).
    set (C' := foldl (induction_period N discount ps) C1 (reverse (seq 0 m'))) in *.
    split; [done |]. split; [| split].
    + intros i j Hj. rewrite Hkeep by lia. rewrite Hcells1.
      case_decide; [lia | done].
    + intros i j Hj Hi. destruct (decide (j = m')) as [-> | Hne].
      * rewrite (Hkeep i m') by lia. rewrite Hcells1.
        rewrite decide_True by (split; [done | lia]).
        rewrite !(Hkeep _ (m' + 1)%nat) by lia.
        rewrite !Hcells1.
        rewrite !decide_False by lia. done.
      * apply Hrec; lia.
    + intros i j Hj Hi. destruct (decide (j = m')) as [-> | Hne].
      * rewrite Hkeep by lia. rewrite Hcells1.
        case_decide; [lia | done].
      * rewrite Hzero by lia. rewrite Hcells1.
        case_decide; [lia | done].
Qed.

Lemma length_probabilities (r dt u d : R) (deltas : list R) (times : list nat) :
  length (probabilities r dt u d deltas times) = length times.
Proof. unfold probabilities. by rewrite length_fmap. Qed.

Lemma drop_last_lookup (l : list R) (j : nat) :
  (S j < length l)%nat -> drop_last l !!! j = l !!! j.
Proof. intros Hj. unfold drop_last. apply lookup_total_take_lt. lia. Qed.

(** What [calculate_lattices] returns for [n >= 1], cell by cell. *)
Lemma calculate_lattices_cells (V K T sigma delta r : R) (m : nat)
    (deltas_manual : option (list R)) :
  (1 <= m)%nat ->
  let n := Z.of_nat m in
  let dt := T / IZR n in
  let u := up_factor sigma dt in
  let d := 1 / u in
  let discount := discount_factor r dt in
  exists L,
    calculate_lattices V K T sigma delta r n deltas_manual = Return L /\
    out_times L = seq 0 (S m) /\
    out_deltas L = delay_schedule delta n deltas_manual (seq 0 (S m)) /\
    out_ps_for_export L = probabilities r dt u d (out_deltas L) (seq 0 (S m)) /\
    square (S m) (out_A L) /\ square (S m) (out_N L) /\ square (S m) (out_C L) /\
    (forall i j, (i <= m)%nat -> (j <= m)%nat ->
       cell (out_A L) i j = V * powerRZ u (Z.of_nat j - Z.of_nat i) * d ^ i) /\
    (forall i j, (i <= m)%nat -> (j <= m)%nat ->
       cell (out_N L) i j = py_max (cell (out_A L) i j - K) 0) /\
    (forall i, (i <= m)%nat -> cell (out_C L) i m = cell (out_N L) i m) /\
    (forall i j, (j < m)%nat -> (i <= j)%nat ->
       cell (out_C L) i j
       = py_max (discount * (out_ps_for_export L !!! j * cell (out_C L) i (j + 1)
                             + (1 - out_ps_for_export L !!! j)
                               * cell (out_C L) (i + 1) (j + 1)))
                (cell (out_N L) i j)) /\
    (forall i j, (j < m)%nat -> (j < i)%nat -> (i <= m)%nat -> cell (out_C L) i j = 0).
Proof.
  intros Hm n dt u d discount. unfold calculate_lattices.
  rewrite bool_decide_eq_false_2 by (subst n; lia).
  fold dt. fold u. fold d. fold discount.
  eexists. split; [reflexivity |].
  cbn [out_A out_N out_C out_times out_deltas out_ps_for_export].
  set (A := asset_lattice V u d n).
  set (N := net_lattice A K n).
  set (deltas := delay_schedule delta n deltas_manual (range (n + 1))).
  set (ps := probabilities r dt u d deltas (range (n + 1))).
  assert (Hrange : range (n + 1) = seq 0 (S m)) by apply range_succ.
  assert (HsqA : square (S m) A).
  { subst A. unfold asset_lattice. rewrite Hrange. apply square_fmap_seq. }
  assert (HsqN : square (S m) N).
  { subst N. unfold net_lattice. rewrite Hrange. apply square_fmap_seq. }
  destruct (terminal_boundary_spec N (zero_lattice n) m (square_zero m))
    as [HsqT HcellT].
  fold n in HsqT, HcellT.
  set (C0 := terminal_boundary N (zero_lattice n) n) in *.
  unfold backward_induction. subst n. rewrite range_of_nat.
  destruct (backward_induction_prefix N discount (drop_last ps) m m (le_n m) C0 HsqT)
    as (HsqC & Hkeep & Hrec & Hzero).
  set (C := foldl _ C0 _) in *.
  assert (Hps : forall j, (j < m)%nat -> drop_last ps !!! j = ps !!! j).
  { intros j Hj. apply drop_last_lookup. subst ps.
    rewrite length_probabilities, Hrange, length_seq. lia. }
  split; [done |]. split; [by subst deltas; rewrite Hrange |].
  split; [by subst ps deltas; rewrite Hrange |].
  do 3 (split; [done |]).
  split; [| split; [| split; [| split]]].
  - intros i j Hi Hj. by apply cell_asset.
  - intros i j Hi Hj. by apply cell_net.
  - intros i Hi. rewrite Hkeep by lia. rewrite HcellT.
    rewrite decide_True by done. done.
  - intros i j Hj Hi. rewrite Hrec by done. by rewrite Hps.
  - intros i j Hj Hi Him. rewrite Hzero by done. rewrite HcellT.
    rewrite decide_False by lia. apply cell_zero; lia.
Qed.

(** ** Backward induction *)

Lemma length_auto_deltas (delta : R) (n : Z) :
  n <> 0%Z -> length (auto_deltas delta n (range (n + 1))) = Z.to_nat (n + 1).
Proof.
  intros Hn. unfold auto_deltas.
  destruct (bool_decide (0 < n)%Z && bool_decide (0 < delta)).
  - rewrite length_insert, length_fmap. unfold range. by rewrite length_seq.
  - rewrite bool_decide_eq_false_2 by done. by rewrite length_replicate.
Qed.

Lemma length_delay_schedule (delta : R) (n : Z) (deltas_manual : option (list R)) :
  n <> 0%Z ->
  length (delay_schedule delta n deltas_manual (range (n + 1))) = Z.to_nat (n + 1).
Proof.
  intros Hn. unfold delay_schedule. destruct deltas_manual as [dm |].
  - case_bool_decide as Hlen.
    + rewrite length_app. cbn [length]. lia.
    + by apply length_auto_deltas.
  - by apply length_auto_deltas.
Qed.

Lemma index2_cell (m : nat) (M : list (list R)) (i j : nat) :
  square m M -> (i < m)%nat -> (j < m)%nat -> index2 M i j = Return (cell M i j).
Proof.
  intros HM Hi Hj. unfold index2, cell.
  destruct (M !! i) as [row |] eqn:Hrow.
  - rewrite (list_lookup_total_correct M i row Hrow).
    assert (Hlen : length row = m).
    { rewrite <- (square_row m M i HM Hi).
      by rewrite (list_lookup_total_correct M i row Hrow). }
    destruct (row !! j) as [v |] eqn:Hv.
    + by rewrite (list_lookup_total_correct row j v Hv).
    + apply lookup_ge_None in Hv. lia.
  - apply lookup_ge_None in Hrow. destruct HM. lia.
Qed.

(** C1.  For every input and every period count [n >= 1],
    [calculate_lattices] returns lattices [N] and [C] of [n+1] rows of
    [n+1] entries and schedules [ps_for_export] and [deltas] of [n+1]
    entries, so that every read below is of a cell that exists, and its
    option lattice [C]
    satisfies: the terminal column equals the exercise lattice,
    [C[i][n] = N[i][n]] for [i] in [0..n]; every cell with [j < n] and
    [i <= j] is
    [max(discount * (p[j]*C[i][j+1] + (1-p[j])*C[i+1][j+1]), N[i][j])] with
    [discount = exp(-r*dt)], [dt = T/n]; and every cell with [j < n] and
    [j < i <= n] still holds its zero default.  Here [p[j]] is the entry of
    the returned probability schedule: 0 when [u = d], and otherwise
    [(exp((r - deltas[j])*dt) - d) / (u - d)]. *)
Theorem calculate_lattices_backward_induction (V K T sigma delta r : R) (n : Z)
    (deltas_manual : option (list R)) :
  (1 <= n)%Z ->
  exists L,
    calculate_lattices V K T sigma delta r n deltas_manual = Return L /\
    let C := out_C L in
    let N := out_N L in
    let p := fun j : nat => out_ps_for_export L !!! j in
    let discount := discount_factor r (T / IZR n) in
    (forall i : nat, (Z.of_nat i <= n)%Z ->
       cell C i (Z.to_nat n) = cell N i (Z.to_nat n)) /\
    (forall i j : nat, (Z.of_nat j < n)%Z -> (i <= j)%nat ->
       cell C i j
       = Rmax (discount * (p j * cell C i (j + 1) + (1 - p j) * cell C (i + 1) (j + 1)))
              (cell N i j)) /\
    (forall i j : nat, (Z.of_nat j < n)%Z -> (j < i)%nat -> (Z.of_nat i <= n)%Z ->
       cell C i j = 0) /\
    (forall j : nat, (Z.of_nat j <= n)%Z ->
       let dt := T / IZR n in
       let u := up_factor sigma dt in
       let d := 1 / u in
       p j = if decide (u = d) then 0
             else (exp ((r - out_deltas L !!! j) * dt) - d) / (u - d)) /\
    square (S (Z.to_nat n)) C /\
    square (S (Z.to_nat n)) N /\
    length (out_ps_for_export L) = S (Z.to_nat n) /\
    length (out_deltas L) = S (Z.to_nat n) /\
    (forall i j : nat, (Z.of_nat i <= n)%Z -> (Z.of_nat j <= n)%Z ->
       index2 C i j = Return (cell C i j) /\ index2 N i j = Return (cell N i j)) /\
    (forall j : nat, (Z.of_nat j <= n)%Z -> out_ps_for_export L !! j = Some (p j)).
Proof.
  intros Hn.
  destruct (calculate_lattices_cells V K T sigma delta r (Z.to_nat n) deltas_manual)
    as (L & HL & _ & Hd & Hp & _ & HsqN & HsqC & _ & _ & Hterm & Hrec & Hzero); [lia |].
  rewrite Z2Nat.id in HL, Hrec, Hp, Hd by lia.
  assert (Hlen : length (out_ps_for_export L) = S (Z.to_nat n)).
  { by rewrite Hp, length_probabilities, length_seq. }
  assert (Hlend : length (out_deltas L) = S (Z.to_nat n)).
  { rewrite Hd. rewrite <- (range_succ (Z.to_nat n)). rewrite Z2Nat.id by lia.
    rewrite length_delay_schedule by lia. lia. }
  exists L. split; [done |]. cbv zeta.
  split; [| split; [| split; [| split; [| split; [| split; [| split; [| split;
    [| split]]]]]]]]; [| | | | done | done | done | done | |].
  - intros i Hi. apply Hterm. lia.
  - intros i j Hj Hi. rewrite <- py_max_Rmax. apply Hrec; lia.
  - intros i j Hj Hi Him. apply Hzero; lia.
  - intros j Hj. rewrite Hp at 1. unfold probabilities.
    rewrite (list_lookup_total_fmap _ (seq 0 (S (Z.to_nat n))))
      by (rewrite length_seq; lia).
    rewrite lookup_total_seq_lt by lia. done.
  - intros i j Hi Hj.
    split; apply (index2_cell (S (Z.to_nat n))); first [done | lia].
  - intros j Hj. apply list_lookup_lookup_total_lt. lia.
Qed.

Lemma calculate_lattices_backward_induction_witness :
  exists L,
    calculate_lattices 1000 900 1 0 0 0 1 None = Return L /\
    (forall i : nat, (Z.of_nat i <= 1)%Z -> cell (out_C L) i 1 = cell (out_N L) i 1) /\
    (forall i j : nat, (Z.of_nat j < 1)%Z -> (i <= j)%nat ->
       cell (out_C L) i j
       = Rmax (discount_factor 0 (1 / 1)
               * (out_ps_for_export L !!! j * cell (out_C L) i (j + 1)
                  + (1 - out_ps_for_export L !!! j) * cell (out_C L) (i + 1) (j + 1)))
              (cell (out_N L) i j)) /\
    (forall i j : nat, (Z.of_nat j < 1)%Z -> (j < i)%nat -> (Z.of_nat i <= 1)%Z ->
       cell (out_C L) i j = 0) /\
    (forall j : nat, (Z.of_nat j <= 1)%Z ->
       out_ps_for_export L !!! j
       = if decide (up_factor 0 (1 / 1) = 1 / up_factor 0 (1 / 1)) then 0
         else (exp ((0 - out_deltas L !!! j) * (1 / 1)) - 1 / up_factor 0 (1 / 1))
              / (up_factor 0 (1 / 1) - 1 / up_factor 0 (1 / 1))) /\
    square 2 (out_C L) /\
    square 2 (out_N L) /\
    length (out_ps_for_export L) = 2%nat /\
    length (out_deltas L) = 2%nat /\
    (forall i j : nat, (Z.of_nat i <= 1)%Z -> (Z.of_nat j <= 1)%Z ->
       index2 (out_C L) i j = Return (cell (out_C L) i j) /\
       index2 (out_N L) i j = Return (cell (out_N L) i j)) /\
    (forall j : nat, (Z.of_nat j <= 1)%Z ->
       out_ps_for_export L !! j = Some (out_ps_for_export L !!! j)).
Proof.
  apply (calculate_lattices_backward_induction 1000 900 1 0 0 0 1 None). lia.
Defined.

(** ** Nonnegativity *)

Lemma Forall_cells (m : nat) (M : list (list R)) (P : R -> Prop) :
  square m M ->
  (forall i j, (i < m)%nat -> (j < m)%nat -> P (cell M i j)) ->
  Forall (Forall P) M.
Proof.
  intros HM HP. apply Forall_lookup. intros i row Hrow.
  assert (Him : (i < m)%nat).
  { apply lookup_lt_Some in Hrow. destruct HM. lia. }
  apply Forall_lookup. intros j x Hx.
  assert (Hjm : (j < m)%nat).
  { apply lookup_lt_Some in Hx.
    rewrite <- (square_row m M i HM Him).
    by rewrite (list_lookup_total_correct M i row). }
  specialize (HP i j Him Hjm). unfold cell in HP.
  rewrite (list_lookup_total_correct M i row Hrow) in HP.
  by rewrite (list_lookup_total_correct row j x Hx) in HP.
Qed.

(** On the reals every entry of the option lattice is [>= 0], whatever
    the per-period probabilities are. *)
Lemma option_cells_nonneg (V K T sigma delta r : R) (n : Z)
    (deltas_manual : option (list R)) :
  (1 <= n)%Z ->
  exists L,
    calculate_lattices V K T sigma delta r n deltas_manual = Return L /\
    Forall (Forall (fun c => 0 <= c)) (out_C L).
Proof.
  intros Hn.
  destruct (calculate_lattices_cells V K T sigma delta r (Z.to_nat n) deltas_manual)
    as (L & HL & _ & _ & _ & _ & _ & HsqC & _ & HN & Hterm & Hrec & Hzero); [lia |].
  rewrite Z2Nat.id in HL by lia.
  exists L. split; [done |].
  apply (Forall_cells (S (Z.to_nat n))); [done |].
  intros i j Hi Hj.
  destruct (decide (j = Z.to_nat n)) as [-> | Hjn].
  - rewrite Hterm, HN by lia. apply py_max_nonneg.
  - destruct (decide (i <= j)%nat) as [Hij | Hij].
    + rewrite Hrec by lia. rewrite py_max_Rmax.
      eapply Rle_trans; [| apply Rmax_r].
      rewrite HN by lia. apply py_max_nonneg.
    + rewrite Hzero by lia. lra.
Qed.

(** ** The engine with NaN against the engine on the reals *)

Lemma lookup_total_fmap_Fin (l : list R) (j : nat) :
  (Float64.Fin <$> l) !!! j = Float64.Fin (l !!! j).
Proof.
  rewrite !list_lookup_total_alt, list_lookup_fmap. by destruct (l !! j).
Qed.

Lemma cell_embed (M : list (list R)) (i j : nat) :
  Float64.cell (Float64.embed M) i j = Float64.Fin (cell M i j).
Proof.
  unfold Float64.cell, cell, Float64.embed.
  rewrite <- lookup_total_fmap_Fin. f_equal.
  rewrite !list_lookup_total_alt, list_lookup_fmap. by destruct (M !! i).
Qed.

Lemma set_cell_embed (M : list (list R)) (i j : nat) (v : R) :
  Float64.set_cell (Float64.embed M) i j (Float64.Fin v)
  = Float64.embed (set_cell M i j v).
Proof.
  unfold Float64.set_cell, set_cell, Float64.embed. symmetry.
  apply list_fmap_alter. apply Forall_forall. intros row _.
  apply list_fmap_insert.
Qed.

Lemma foldl_embed {B : Type} (f : list (list R) -> B -> list (list R))
    (g : list (list Float64.npfloat) -> B -> list (list Float64.npfloat))
    (l : list B) (C : list (list R)) :
  (forall C b, g (Float64.embed C) b = Float64.embed (f C b)) ->
  foldl g (Float64.embed C) l = Float64.embed (foldl f C l).
Proof.
  intros Hfg. revert C. induction l as [| b l IH]; intros C; [done |].
  cbn. by rewrite Hfg, IH.
Qed.

Lemma fmax_Fin (a b : R) :
  Float64.fmax (Float64.Fin a) (Float64.Fin b) = Float64.Fin (py_max a b).
Proof.
  unfold Float64.fmax, py_max. cbn. case_bool_decide; case_decide; done.
Qed.

Lemma fpow_Fin (x : R) (k : Z) :
  Float64.fpow (Float64.Fin x) k = Float64.Fin (powerRZ x k).
Proof. unfold Float64.fpow. case_decide as Hk; [by rewrite Hk |]. done. Qed.

Lemma asset_lattice_embed (V u d : R) (n : Z) :
  Float64.asset_lattice V (Float64.Fin u) (Float64.Fin d) n
  = Float64.embed (asset_lattice V u d n).
Proof.
  unfold Float64.asset_lattice, asset_lattice, Float64.embed.
  rewrite <- list_fmap_compose. apply list_fmap_ext. intros _ i _. cbn.
  rewrite <- list_fmap_compose. apply list_fmap_ext. intros _ j _. cbn.
  rewrite !fpow_Fin. cbn. by rewrite pow_powerRZ.
Qed.

Lemma net_lattice_embed (A : list (list R)) (K : R) (n : Z) :
  Float64.net_lattice (Float64.embed A) K n = Float64.embed (net_lattice A K n).
Proof.
  unfold Float64.net_lattice, net_lattice, Float64.embed.
  rewrite <- list_fmap_compose. apply list_fmap_ext. intros _ i _. cbn.
  rewrite <- list_fmap_compose. apply list_fmap_ext. intros _ j _. cbn.
  fold (Float64.embed A). rewrite cell_embed. cbn. apply fmax_Fin.
Qed.

Lemma zero_lattice_embed (n : Z) :
  Float64.zero_lattice n = Float64.embed (zero_lattice n).
Proof.
  unfold Float64.zero_lattice, zero_lattice, Float64.embed.
  rewrite <- list_fmap_compose. apply list_fmap_ext. intros _ i _. cbn.
  by rewrite fmap_replicate.
Qed.

Lemma terminal_boundary_embed (N C : list (list R)) (n : Z) :
  Float64.terminal_boundary (Float64.embed N) (Float64.embed C) n
  = Float64.embed (terminal_boundary N C n).
Proof.
  unfold Float64.terminal_boundary, terminal_boundary.
  apply foldl_embed. intros C' i. by rewrite cell_embed, set_cell_embed.
Qed.

Lemma probabilities_embed (r dt u d : R) (deltas : list R) (times : list nat) :
  Float64.probabilities r dt (Float64.Fin u) (Float64.Fin d) deltas times
  = Float64.Fin <$> probabilities r dt u d deltas times.
Proof.
  unfold Float64.probabilities, probabilities.
  rewrite <- list_fmap_compose. apply list_fmap_ext. intros _ t _. cbn.
  destruct (decide (u = d)) as [Heq | Hne].
  - by rewrite bool_decide_eq_false_2 by (intros Hn; by apply Hn).
  - rewrite bool_decide_eq_true_2 by done. rewrite decide_False by lra. done.
Qed.

Lemma induction_node_embed (N : list (list R)) (discount p : R) (j : nat)
    (C : list (list R)) (i : nat) :
  Float64.induction_node (Float64.embed N) (Float64.Fin discount) (Float64.Fin p) j
    (Float64.embed C) i
  = Float64.embed (induction_node N discount p j C i).
Proof.
  unfold Float64.induction_node, induction_node. cbv zeta.
  rewrite !cell_embed. cbn. by rewrite fmax_Fin, set_cell_embed.
Qed.

Lemma induction_period_embed (N : list (list R)) (discount : R) (ps : list R)
    (C : list (list R)) (j : nat) :
  Float64.induction_period (Float64.embed N) (Float64.Fin discount)
    (Float64.Fin <$> ps) (Float64.embed C) j
  = Float64.embed (induction_period N discount ps C j).
Proof.
  unfold Float64.induction_period, induction_period. cbv zeta.
  rewrite lookup_total_fmap_Fin.
  apply foldl_embed. intros C' i. apply induction_node_embed.
Qed.

Lemma backward_induction_embed (N : list (list R)) (discount : R) (ps : list R)
    (C : list (list R)) (n : Z) :
  Float64.backward_induction (Float64.embed N) (Float64.Fin discount)
    (Float64.Fin <$> ps) (Float64.embed C) n
  = Float64.embed (backward_induction N discount ps C n).
Proof.
  unfold Float64.backward_induction, backward_induction.
  apply foldl_embed. intros C' j. apply induction_period_embed.
Qed.

Lemma drop_last_fmap {A B : Type} (f : A -> B) (l : list A) :
  drop_last (f <$> l) = f <$> drop_last l.
Proof. unfold drop_last. by rewrite length_fmap, fmap_take. Qed.

Lemma np_sqrt_Fin (x : R) :
  0 <= x -> Float64.np_sqrt (Float64.Fin x) = Float64.Fin (sqrt x).
Proof. intros Hx. cbn. by rewrite decide_True. Qed.

Lemma np_sqrt_NaN (x : R) : x < 0 -> Float64.np_sqrt (Float64.Fin x) = Float64.NaN.
Proof. intros Hx. cbn. rewrite decide_False by lra. done. Qed.

(** For [dt >= 0] the engine with NaN returns the lattices of the engine
    on the reals: no NaN arises. *)
Lemma calculate_lattices_refines (V K T sigma delta r : R) (n : Z)
    (deltas_manual : option (list R)) :
  0 <= T / IZR n ->
  Float64.calculate_lattices V K T sigma delta r n deltas_manual
  = L ← calculate_lattices V K T sigma delta r n deltas_manual;
    mret (embed_lattices L).
Proof.
  intros Hdt. unfold Float64.calculate_lattices, calculate_lattices.
  case_bool_decide; [done |]. cbv zeta. cbn [mbind outcome_bind mret outcome_ret].
  unfold embed_lattices. cbn [out_A out_N out_C out_times out_deltas out_ps_for_export].
  rewrite (np_sqrt_Fin _ Hdt). cbn [Float64.fmul Float64.np_exp].
  fold (up_factor sigma (T / IZR n)). fold (discount_factor r (T / IZR n)).
  set (u := up_factor sigma (T / IZR n)).
  assert (Hu : 0 < u) by apply exp_pos.
  assert (Hd : Float64.fdiv (Float64.Fin 1) (Float64.Fin u) = Float64.Fin (1 / u)).
  { cbn. rewrite decide_False by lra. done. }
  rewrite Hd.
  rewrite asset_lattice_embed, net_lattice_embed, zero_lattice_embed,
    terminal_boundary_embed, probabilities_embed, drop_last_fmap,
    backward_induction_embed.
  done.
Qed.

Lemma calculate_lattices_nan_one_period (V K T sigma delta r : R)
    (deltas_manual : option (list R)) :
  T < 0 ->
  exists L,
    Float64.calculate_lattices V K T sigma delta r 1 deltas_manual = Return L /\
    Float64.out_A L
    = [[Float64.Fin (V * 1 * 1); Float64.NaN]; [Float64.NaN; Float64.NaN]] /\
    Float64.out_C L
    = [[Float64.NaN; Float64.NaN]; [Float64.Fin 0; Float64.NaN]].
Proof.
  intros HT. unfold Float64.calculate_lattices.
  rewrite bool_decide_eq_false_2 by lia. cbv zeta.
  rewrite np_sqrt_NaN by lra.
  eexists. split; [reflexivity |].
  cbn [Float64.out_A Float64.out_C].
  split; vm_compute; [reflexivity |].
  destruct (Rlt_dec _ _); reflexivity.
Qed.

Lemma period_length_nonneg (T : R) (n : Z) : (1 <= n)%Z -> 0 <= T -> 0 <= T / IZR n.
Proof.
  intros Hn HT. assert (0 < IZR n) by (apply IZR_lt; lia).
  apply Rmult_le_pos; [done |]. left. by apply Rinv_0_lt_compat.
Qed.

(** For [T >= 0] and [n >= 1] the call returns the same lattices in both
    engines. *)
Lemma calculate_lattices_no_nan (V K T sigma delta r : R) (n : Z)
    (deltas_manual : option (list R)) (L : lattices) :
  (1 <= n)%Z -> 0 <= T ->
  calculate_lattices V K T sigma delta r n deltas_manual = Return L ->
  Float64.calculate_lattices V K T sigma delta r n deltas_manual
  = Return (embed_lattices L).
Proof.
  intros Hn HT HL.
  rewrite calculate_lattices_refines by (by apply period_length_nonneg).
  by rewrite HL.
Qed.

(** C9, as amended.  For every real input with [T >= 0] and every
    [n >= 1], [calculate_lattices] returns, no entry of its option lattice
    [C] is NaN and every entry is [>= 0], whatever the per-period
    probabilities are.  The lattices are those of the engine on the
    reals. *)
Theorem option_lattice_nonnegative (V K T sigma delta r : R) (n : Z)
    (deltas_manual : option (list R)) :
  (1 <= n)%Z ->
  0 <= T ->
  exists L,
    Float64.calculate_lattices V K T sigma delta r n deltas_manual = Return L /\
    Forall (Forall Float64.nonneg) (Float64.out_C L) /\
    exists L0,
      calculate_lattices V K T sigma delta r n deltas_manual = Return L0 /\
      L = embed_lattices L0 /\
      Forall (Forall (fun c => 0 <= c)) (out_C L0).
Proof.
  intros Hn HT.
  destruct (option_cells_nonneg V K T sigma delta r n deltas_manual Hn)
    as (L0 & HL0 & Hpos).
  exists (embed_lattices L0).
  split; [by apply calculate_lattices_no_nan |].
  split; [| by exists L0].
  cbn [embed_lattices Float64.out_C]. unfold Float64.embed.
  apply Forall_fmap. eapply Forall_impl; [apply Hpos |].
  intros row Hrow. cbn. apply Forall_fmap.
  eapply Forall_impl; [apply Hrow |]. by intros c Hc.
Qed.

Lemma option_lattice_nonnegative_witness :
  exists L,
    Float64.calculate_lattices 1000 900 2 (1 / 5) (1 / 20) (1 / 20) 2 None = Return L /\
    Forall (Forall Float64.nonneg) (Float64.out_C L) /\
    exists L0,
      calculate_lattices 1000 900 2 (1 / 5) (1 / 20) (1 / 20) 2 None = Return L0 /\
      L = embed_lattices L0 /\
      Forall (Forall (fun c => 0 <= c)) (out_C L0).
Proof.
  apply (option_lattice_nonnegative 1000 900 2 (1 / 5) (1 / 20) (1 / 20) 2 None).
  - lia.
  - lra.
Defined.

(** ** The cost-of-delay schedule *)

Lemma calculate_lattices_deltas (V K T sigma delta r : R) (n : Z)
    (deltas_manual : option (list R)) :
  n <> 0%Z ->
  exists L,
    calculate_lattices V K T sigma delta r n deltas_manual = Return L /\
    out_deltas L = delay_schedule delta n deltas_manual (range (n + 1)).
Proof.
  intros Hn. unfold calculate_lattices.
  rewrite bool_decide_eq_false_2 by done.
  eexists. split; reflexivity.
Qed.

Lemma auto_deltas_zero (n : Z) (times : list nat) :
  (1 <= n)%Z -> auto_deltas 0 n times = replicate (Z.to_nat (n + 1)) 0.
Proof.
  intros Hn. unfold auto_deltas.
  rewrite (bool_decide_eq_false_2 (0 < 0)) by lra.
  rewrite andb_false_r.
  rewrite bool_decide_eq_false_2 by lia. done.
Qed.

(** C3.  For every [n >= 1]: (a) with a manual sequence of exactly [n]
    entries the returned schedule is that sequence followed by 1.0, so it
    has length [n+1] and [deltas[n] = 1.0]; (b) when no manual sequence
    applies (none given, or one whose length is not [n]) and the scalar
    delta is 0, the returned schedule is [n+1] zeros, so [deltas[n] = 0]. *)
Theorem terminal_delta_asymmetry (V K T sigma delta r : R) (n : Z) :
  (1 <= n)%Z ->
  (forall dm : list R,
     Z.of_nat (length dm) = n ->
     exists L,
       calculate_lattices V K T sigma delta r n (Some dm) = Return L /\
       out_deltas L = dm ++ [1] /\
       length (out_deltas L) = Z.to_nat (n + 1) /\
       out_deltas L !! Z.to_nat n = Some 1) /\
  (forall deltas_manual : option (list R),
     (forall dm, deltas_manual = Some dm -> Z.of_nat (length dm) <> n) ->
     exists L,
       calculate_lattices V K T sigma 0 r n deltas_manual = Return L /\
       out_deltas L = replicate (Z.to_nat (n + 1)) 0 /\
       out_deltas L !! Z.to_nat n = Some 0).
Proof.
  intros Hn. split.
  - intros dm Hlen.
    destruct (calculate_lattices_deltas V K T sigma delta r n (Some dm))
      as (L & HL & Hd); [lia |].
    exists L. split; [done |].
    unfold delay_schedule in Hd. rewrite bool_decide_eq_true_2 in Hd by done.
    rewrite Hd. split; [done |]. split.
    + rewrite length_app. simpl. lia.
    + rewrite lookup_app_r by lia.
      replace (Z.to_nat n - length dm)%nat with 0%nat by lia. done.
  - intros deltas_manual Hdm.
    destruct (calculate_lattices_deltas V K T sigma 0 r n deltas_manual)
      as (L & HL & Hd); [lia |].
    exists L. split; [done |].
    assert (Hd' : out_deltas L = replicate (Z.to_nat (n + 1)) 0).
    { rewrite Hd. unfold delay_schedule. destruct deltas_manual as [dm |].
      - rewrite bool_decide_eq_false_2 by (by apply Hdm).
        by apply auto_deltas_zero.
      - by apply auto_deltas_zero. }
    split; [done |]. rewrite Hd'. apply lookup_replicate_2. lia.
Qed.

Lemma terminal_delta_asymmetry_witness :
  (forall dm : list R,
     Z.of_nat (length dm) = 2%Z ->
     exists L,
       calculate_lattices 1000 900 2 (1 / 5) (1 / 20) (1 / 20) 2 (Some dm) = Return L /\
       out_deltas L = dm ++ [1] /\
       length (out_deltas L) = Z.to_nat (2 + 1) /\
       out_deltas L !! Z.to_nat 2 = Some 1) /\
  (forall deltas_manual : option (list R),
     (forall dm, deltas_manual = Some dm -> Z.of_nat (length dm) <> 2%Z) ->
     exists L,
       calculate_lattices 1000 900 2 (1 / 5) 0 (1 / 20) 2 deltas_manual = Return L /\
       out_deltas L = replicate (Z.to_nat (2 + 1)) 0 /\
       out_deltas L !! Z.to_nat 2 = Some 0).
Proof.
  apply (terminal_delta_asymmetry 1000 900 2 (1 / 5) (1 / 20) (1 / 20) 2). lia.
Defined.

(** ** The worked scenario *)

Lemma up_factor_zero_sigma (dt : R) : up_factor 0 dt = 1.
Proof. unfold up_factor. rewrite Rmult_0_l. apply exp_0. Qed.

Lemma discount_factor_zero_rate (dt : R) : discount_factor 0 dt = 1.
Proof.
  unfold discount_factor. replace (- 0 * dt) with 0 by lra. apply exp_0.
Qed.

Lemma py_max_left (a b : R) : b <= a -> py_max a b = a.
Proof. intros H. unfold py_max. destruct (decide (a < b)); lra. Qed.

Lemma py_max_right (a b : R) : a <= b -> py_max a b = b.
Proof. intros H. unfold py_max. destruct (decide (a < b)); lra. Qed.

(** The lattices of V=1000, K=900, T=1, sigma=0, delta=0, r=0, n=1. *)
Lemma scenario_lattices (V : R) :
  900 <= V ->
  calculate_lattices V 900 1 0 0 0 1 None
  = Return (Lattices [[V; V]; [V; V]]
                     [[V - 900; V - 900]; [V - 900; V - 900]]
                     [[V - 900; V - 900]; [0; V - 900]]
                     [0%nat; 1%nat] [0; 0] [0; 0]).
Proof.
  intros HV. unfold calculate_lattices.
  rewrite bool_decide_eq_false_2 by lia.
  rewrite up_factor_zero_sigma, discount_factor_zero_rate.
  assert (HA : asset_lattice V 1 (1 / 1) 1 = [[V; V]; [V; V]]).
  { unfold asset_lattice, range. change (Z.to_nat (1 + 1)) with 2%nat.
    cbn [seq fmap list_fmap]. rewrite !powerRZ_R1. repeat f_equal; simpl; lra. }
  rewrite HA.
  assert (HN : net_lattice [[V; V]; [V; V]] 900 1
               = [[V - 900; V - 900]; [V - 900; V - 900]]).
  { unfold net_lattice, range. change (Z.to_nat (1 + 1)) with 2%nat.
    cbn [seq fmap list_fmap]. unfold cell. cbn [lookup_total list_lookup_total].
    rewrite !py_max_left by lra. done. }
  rewrite HN.
  assert (Hd : delay_schedule 0 1 None (range (1 + 1)) = [0; 0]).
  { unfold delay_schedule. by rewrite auto_deltas_zero by lia. }
  rewrite Hd.
  assert (Hp : probabilities 0 (1 / 1) 1 (1 / 1) [0; 0] (range (1 + 1)) = [0; 0]).
  { unfold probabilities, range. change (Z.to_nat (1 + 1)) with 2%nat.
    cbn [seq fmap list_fmap]. by rewrite !decide_True by lra. }
  rewrite Hp.
  unfold range. change (Z.to_nat (1 + 1)) with 2%nat.
  do 2 f_equal.
  unfold backward_induction, terminal_boundary, zero_lattice, range.
  change (Z.to_nat (1 + 1)) with 2%nat. change (Z.to_nat 1) with 1%nat.
  cbn [seq reverse rev_append fmap list_fmap foldl replicate drop_last length
       Nat.sub take].
  unfold induction_period, range. change (Z.to_nat (Z.of_nat 0 + 1)) with 1%nat.
  cbn [seq foldl]. unfold induction_node, set_cell, cell.
  cbn [lookup_total list_lookup_total alter list_alter insert list_insert Nat.add].
  rewrite py_max_right by lra. done.
Qed.

(** ** Truncation, floor and the period count *)

Lemma Int_part_IZR (z : Z) : Int_part (IZR z) = z.
Proof. symmetry. apply Int_part_spec. lra. Qed.

Lemma py_int_IZR (z : Z) : py_int (IZR z) = z.
Proof.
  unfold py_int. destruct (decide (0 <= IZR z)).
  - apply Int_part_IZR.
  - rewrite <- opp_IZR, Int_part_IZR. lia.
Qed.

Lemma Int_part_bounds (x : R) : IZR (Int_part x) <= x < IZR (Int_part x) + 1.
Proof. destruct (base_Int_part x). lra. Qed.

Lemma py_int_nonneg (x : R) : 0 <= x -> py_int x = floor x /\ (0 <= floor x)%Z.
Proof.
  intros Hx. unfold py_int, floor. rewrite decide_True by done.
  split; [done |].
  destruct (Int_part_bounds x) as [_ Hlt].
  apply le_IZR. apply IZR_le. 
  assert (H : (-1 < Int_part x)%Z) by (apply lt_IZR; lra). lia.
Qed.

Lemma py_int_neg (x : R) : x < 0 -> (py_int x <= 0)%Z /\ (floor x < 0)%Z.
Proof.
  intros Hx. unfold py_int, floor. rewrite decide_False by lra. split.
  - destruct (Int_part_bounds (- x)) as [_ Hlt].
    assert (H : (-1 < Int_part (- x))%Z) by (apply lt_IZR; lra). lia.
  - destruct (Int_part_bounds x) as [Hle _].
    apply lt_IZR. lra.
Qed.

(** [max(1, int(T))] and [max(1, floor(T))] agree for every [T]. *)
Lemma max_py_int_floor (T : R) : Z.max 1 (py_int T) = Z.max 1 (floor T).
Proof.
  destruct (Rle_lt_dec 0 T) as [H | H].
  - by destruct (py_int_nonneg T H) as [-> _].
  - destruct (py_int_neg T H). lia.
Qed.

(** For [T > -1] the route's period count is [max(1, floor(T))]. *)
Lemma period_count_floor (T : R) : -1 < T -> period_count T = Z.max 1 (floor T).
Proof.
  intros HT. unfold period_count.
  destruct (Rle_lt_dec 0 T) as [H | H].
  - destruct (py_int_nonneg T H) as [-> Hf]. case_bool_decide; lia.
  - destruct (py_int_neg T H) as [_ Hf].
    assert (Hi : py_int T = 0%Z).
    { unfold py_int. rewrite decide_False by lra.
      assert (Int_part (- T) = 0%Z); [| lia].
      symmetry. apply Int_part_spec. lra. }
    rewrite Hi. rewrite bool_decide_eq_true_2 by done. lia.
Qed.

(** C9 fails as stated: at [T = -1/2], for which the route chooses one
    period, [dt = -1/2] and [np.sqrt(dt)] is NaN; the root [C[0][0]] and the
    terminal column are NaN, and NaN is not [>= 0]. *)
Lemma option_lattice_nan_counterexample :
  period_count (- (1 / 2)) = 1%Z /\
  exists L,
    Float64.calculate_lattices 1000 900 (- (1 / 2)) (1 / 5) (1 / 20) (1 / 20) 1 None
    = Return L /\
    Float64.out_C L
    = [[Float64.NaN; Float64.NaN]; [Float64.Fin 0; Float64.NaN]] /\
    ~ Forall (Forall Float64.nonneg) (Float64.out_C L).
Proof.
  split.
  - rewrite period_count_floor by lra.
    destruct (py_int_neg (- (1 / 2))) as [_ Hf]; [lra | lia].
  - destruct (calculate_lattices_nan_one_period 1000 900 (- (1 / 2)) (1 / 5) (1 / 20)
                (1 / 20) None) as (L & HL & _ & HC); [lra |].
    exists L. split; [done |]. split; [done |].
    rewrite HC. intros Hall.
    apply Forall_cons in Hall as [Hrow _].
    apply Forall_cons in Hrow as [Hnan _]. exact Hnan.
Qed.

(** C5.  V=1000, K=900, T=1, sigma=0, scalar delta 0 in auto mode, r=0:
    the period count is 1, [u = d = 1], [discount = 1], the asset lattice
    is 1000 at [A[0][0]], [A[0][1]], [A[1][1]], the exercise value is 100
    at every node, the probability is the fallback 0 at every period,
    [C[0][1] = C[1][1] = 100] and the root [C[0][0]] is 100, that is 0.1
    after division by 1000. *)
Theorem worked_scenario :
  period_count 1 = 1%Z /\
  up_factor 0 (1 / IZR 1) = 1 /\
  1 / up_factor 0 (1 / IZR 1) = 1 /\
  discount_factor 0 (1 / IZR 1) = 1 /\
  exists L,
    calculate_lattices 1000 900 1 0 0 0 1 None = Return L /\
    cell (out_A L) 0 0 = 1000 /\ cell (out_A L) 0 1 = 1000 /\
    cell (out_A L) 1 1 = 1000 /\
    Forall (Forall (fun v => v = 100)) (out_N L) /\
    out_deltas L = [0; 0] /\
    out_ps_for_export L = [0; 0] /\
    cell (out_C L) 0 1 = 100 /\ cell (out_C L) 1 1 = 100 /\
    cell (out_C L) 0 0 = 100 /\
    cell (out_C L) 0 0 / 1000 = 1 / 10.
Proof.
  split; [| split; [| split; [| split]]].
  - unfold period_count. rewrite py_int_IZR. done.
  - apply up_factor_zero_sigma.
  - rewrite up_factor_zero_sigma. lra.
  - apply discount_factor_zero_rate.
  - eexists. split; [apply scenario_lattices; lra |].
    cbn [out_A out_N out_C out_deltas out_ps_for_export].
    unfold cell. cbn [lookup_total list_lookup_total].
    repeat split; try lra.
    repeat constructor; lra.
Qed.

(** With a negative period count every [range] is empty. *)
Lemma calculate_lattices_negative (V K T sigma delta r : R) (n : Z)
    (deltas_manual : option (list R)) :
  (n < 0)%Z ->
  calculate_lattices V K T sigma delta r n deltas_manual
  = Return (Lattices [] [] [] [] [] []).
Proof.
  intros Hn. unfold calculate_lattices.
  rewrite bool_decide_eq_false_2 by lia.
  assert (Hr : range (n + 1) = []).
  { unfold range. by replace (Z.to_nat (n + 1)) with 0%nat by lia. }
  assert (Hr' : range n = []).
  { unfold range. by replace (Z.to_nat n) with 0%nat by lia. }
  assert (Hd : delay_schedule delta n deltas_manual [] = []).
  { unfold delay_schedule, auto_deltas.
    rewrite (bool_decide_eq_false_2 (0 < n)%Z) by lia.
    rewrite (bool_decide_eq_false_2 (n = 0)%Z) by lia.
    replace (Z.to_nat (n + 1)) with 0%nat by lia.
    destruct deltas_manual as [dm |]; [| done].
    by rewrite bool_decide_eq_false_2 by lia. }
  unfold asset_lattice, net_lattice, backward_induction, terminal_boundary,
    zero_lattice, probabilities.
  rewrite Hr, Hr', Hd. done.
Qed.

(** C4 at the input T = -2: the route's period count is -2, while
    [max(1, floor(T))] is 1.  With that count [calculate_lattices] returns
    empty lattices, the read of [C[0][0]] raises and the request ends in
    the generic error reply. *)
Theorem period_count_negative_T `{Builtins} (v k dv sigma r : R) :
  let data : gmap string json :=
    {[ "V"%string := JNum v; "K"%string := JNum k; "delta"%string := JNum dv;
       "T"%string := JNum (-2); "sigma"%string := JNum sigma;
       "r"%string := JNum r ]} in
  period_count (-2) = (-2)%Z /\
  Z.max 1 (floor (-2)) = 1%Z /\
  calculate data
  = ([LatticeCall (v * 1000) (k * 1000) (-2) sigma dv r (-2) None],
     Return (Error500 IndexError)).
Proof.
  assert (Hp : period_count (-2) = (-2)%Z).
  { unfold period_count. rewrite py_int_IZR. done. }
  intros data. split; [done |]. split.
  - unfold floor. rewrite Int_part_IZR. done.
  - unfold calculate, dict_get. subst data. simplify_map_eq.
    unfold valuation, dict_get. simplify_map_eq.
    rewrite Hp. unfold run_call.
    cbn [call_V call_K call_T call_sigma call_delta call_r call_n
         call_deltas_manual].
    rewrite calculate_lattices_negative by lia. done.
Qed.

(** ** Monotonicity in the asset value *)

Lemma up_factor_pos (sigma dt : R) : 0 < up_factor sigma dt.
Proof. apply exp_pos. Qed.

Lemma discount_factor_pos (r dt : R) : 0 < discount_factor r dt.
Proof. apply exp_pos. Qed.

Lemma py_max_mono (a1 a2 b1 b2 : R) :
  a1 <= a2 -> b1 <= b2 -> py_max a1 b1 <= py_max a2 b2.
Proof.
  intros Ha Hb. rewrite !py_max_Rmax. apply Rmax_lub.
  - eapply Rle_trans; [exact Ha | apply Rmax_l].
  - eapply Rle_trans; [exact Hb | apply Rmax_r].
Qed.

Lemma hold_mono (discount p a1 a2 b1 b2 : R) :
  0 <= discount -> 0 <= p <= 1 -> a1 <= a2 -> b1 <= b2 ->
  discount * (p * a1 + (1 - p) * b1) <= discount * (p * a2 + (1 - p) * b2).
Proof.
  intros Hd [Hp0 Hp1] Ha Hb.
  apply Rmult_le_compat_l; [done |].
  apply Rplus_le_compat; apply Rmult_le_compat_l; lra.
Qed.

Lemma asset_cell_mono (V1 V2 u : R) (i j : nat) :
  0 < u -> V1 <= V2 ->
  V1 * powerRZ u (Z.of_nat j - Z.of_nat i) * (1 / u) ^ i
  <= V2 * powerRZ u (Z.of_nat j - Z.of_nat i) * (1 / u) ^ i.
Proof.
  intros Hu HV.
  assert (Hpow : 0 < powerRZ u (Z.of_nat j - Z.of_nat i)) by by apply powerRZ_lt.
  assert (Hd : 0 < (1 / u) ^ i).
  { apply pow_lt. apply Rdiv_lt_0_compat; lra. }
  apply Rmult_le_compat_r; [lra |].
  apply Rmult_le_compat_r; lra.
Qed.

(** For V1 <= V2 the two runs share the schedule of probabilities, and if
    the probabilities used by the induction lie in [0, 1] the option value
    at every node [i <= j] grows with V. *)
Lemma option_lattice_mono (V1 V2 K T sigma delta r : R) (m : nat)
    (deltas_manual : option (list R)) :
  (1 <= m)%nat -> V1 <= V2 ->
  exists L1 L2,
    calculate_lattices V1 K T sigma delta r (Z.of_nat m) deltas_manual = Return L1 /\
    calculate_lattices V2 K T sigma delta r (Z.of_nat m) deltas_manual = Return L2 /\
    out_ps_for_export L2 = out_ps_for_export L1 /\
    ((forall j : nat, (j < m)%nat -> 0 <= out_ps_for_export L1 !!! j <= 1) ->
     forall k i : nat, (k <= m)%nat -> (i <= m - k)%nat ->
       cell (out_C L1) i (m - k) <= cell (out_C L2) i (m - k)).
Proof.
  intros Hm HV.
  destruct (calculate_lattices_cells V1 K T sigma delta r m deltas_manual Hm)
    as (L1 & HL1 & _ & Hd1 & Hp1 & _ & _ & _ & HA1 & HN1 & Ht1 & Hr1 & _).
  destruct (calculate_lattices_cells V2 K T sigma delta r m deltas_manual Hm)
    as (L2 & HL2 & _ & Hd2 & Hp2 & _ & _ & _ & HA2 & HN2 & Ht2 & Hr2 & _).
  exists L1, L2. split; [done |]. split; [done |].
  assert (Hps : out_ps_for_export L2 = out_ps_for_export L1).
  { rewrite Hp1, Hp2, Hd1, Hd2. done. }
  split; [done |]. intros Hprob.
  assert (HN : forall i j, (i <= m)%nat -> (j <= m)%nat ->
                 cell (out_N L1) i j <= cell (out_N L2) i j).
  { intros i j Hi Hj. rewrite HN1, HN2, HA1, HA2 by done.
    apply py_max_mono; [| lra].
    apply Rplus_le_compat_r. apply asset_cell_mono; [apply up_factor_pos | done]. }
  induction k as [| k IH]; intros i Hk Hi.
  - rewrite Nat.sub_0_r in *. rewrite Ht1, Ht2 by done. by apply HN.
  - assert (Hj : (m - S k < m)%nat) by lia.
    rewrite Hr1, Hr2 by done. rewrite Hps.
    replace (m - S k + 1)%nat with (m - k)%nat by lia.
    apply py_max_mono; [| apply HN; lia].
    apply hold_mono.
    + left. apply discount_factor_pos.
    + by apply Hprob.
    + apply IH; lia.
    + apply IH; lia.
Qed.

(** C7, as amended.  For [n >= 1] and V1 <= V2, with everything else
    fixed: if the probabilities [p[0..n-1]] used by the induction all lie in
    [0, 1], the root option value [C[0][0]] for V1 is at most the one for
    V2. *)
Theorem root_value_monotone_in_V (V1 V2 K T sigma delta r : R) (n : Z)
    (deltas_manual : option (list R)) (L1 : lattices) :
  (1 <= n)%Z -> V1 <= V2 ->
  calculate_lattices V1 K T sigma delta r n deltas_manual = Return L1 ->
  (forall j : nat, (Z.of_nat j < n)%Z -> 0 <= out_ps_for_export L1 !!! j <= 1) ->
  exists L2,
    calculate_lattices V2 K T sigma delta r n deltas_manual = Return L2 /\
    out_ps_for_export L2 = out_ps_for_export L1 /\
    cell (out_C L1) 0 0 <= cell (out_C L2) 0 0.
Proof.
  intros Hn HV HL1 Hprob.
  destruct (option_lattice_mono V1 V2 K T sigma delta r (Z.to_nat n) deltas_manual)
    as (L1' & L2 & HL1' & HL2 & Hps & Hmono); [lia | done |].
  rewrite Z2Nat.id in HL1', HL2 by lia.
  assert (L1' = L1) as -> by congruence.
  exists L2. split; [done |]. split; [done |].
  specialize (Hmono ltac:(intros j Hj; apply Hprob; lia) (Z.to_nat n) 0%nat).
  rewrite Nat.sub_diag in Hmono. apply Hmono; lia.
Qed.

Lemma root_value_monotone_in_V_witness :
  exists L2,
    calculate_lattices 1100 900 1 0 0 0 1 None = Return L2 /\
    out_ps_for_export L2 = [0; 0] /\
    100 <= cell (out_C L2) 0 0.
Proof.
  destruct (root_value_monotone_in_V 1000 1100 900 1 0 0 0 1 None
              (Lattices [[1000; 1000]; [1000; 1000]]
                 [[1000 - 900; 1000 - 900]; [1000 - 900; 1000 - 900]]
                 [[1000 - 900; 1000 - 900]; [0; 1000 - 900]]
                 [0%nat; 1%nat] [0; 0] [0; 0]))
    as (L2 & HL2 & Hps & Hroot).
  - lia.
  - lra.
  - apply scenario_lattices. lra.
  - intros j Hj. assert (j = 0%nat) as -> by lia.
    cbn [out_ps_for_export lookup_total list_lookup_total]. lra.
  - exists L2. split; [done |]. split; [done |].
    cbn [out_C] in Hroot. unfold cell at 1 in Hroot.
    cbn [lookup_total list_lookup_total] in Hroot. lra.
Defined.

(** *** Probabilities above 1: a two-period run

    sigma = ln 1.01 and r = ln 1.05 with T = 2, n = 2, delta = 0 give
    u = 1.01, d = 1/1.01, discount = 1/1.05 and, at both periods,
    p = (1.05 - d) / (u - d), about 3.01. *)

Lemma two_period_factors :
  let dt := 2 / IZR 2 in
  up_factor (ln (101 / 100)) dt = 101 / 100 /\
  discount_factor (ln (21 / 20)) dt = 20 / 21 /\
  exp ((ln (21 / 20) - 0) * dt) = 21 / 20.
Proof.
  cbv zeta. replace (2 / 2) with 1 by lra.
  unfold up_factor, discount_factor. rewrite sqrt_1, !Rmult_1_r, Rminus_0_r.
  rewrite exp_Ropp, !exp_ln by lra. split; [done |]. split; [lra | done].
Qed.

Lemma two_period_root (V : R) :
  let u := 101 / 100 in
  let d := 100 / 101 in
  let discount := 20 / 21 in
  let p := (21 / 20 - d) / (u - d) in
  let N := fun a : R => py_max (a - 1000) 0 in
  exists L,
    calculate_lattices V 1000 2 (ln (101 / 100)) 0 (ln (21 / 20)) 2 None = Return L /\
    out_ps_for_export L !!! 0%nat = p /\
    cell (out_C L) 0 0
    = py_max
        (discount
         * (p * py_max (discount * (p * N (V * u * u) + (1 - p) * N (V * u * d)))
                       (N (V * u))
            + (1 - p) * py_max (discount * (p * N (V * u * d) + (1 - p) * N (V * d * d)))
                               (N (V * d))))
        (N V).
Proof.
  intros u d discount p N.
  destruct (calculate_lattices_cells V 1000 2 (ln (101 / 100)) 0 (ln (21 / 20)) 2 None)
    as (L & HL & _ & Hd & Hp & _ & _ & _ & HA & HN & Ht & Hr & _); [lia |].
  destruct two_period_factors as (Hu & Hdisc & Hexp).
  change (Z.of_nat 2) with 2%Z in *. cbv zeta in Hu, Hdisc, Hexp.
  rewrite Hu in HA, Hp. rewrite Hdisc in Hr.
  replace (1 / (101 / 100)) with d in HA, Hp by (subst d; lra).
  fold u in HA, Hp. fold discount in Hr.
  assert (Hdeltas : out_deltas L = [0; 0; 0]).
  { rewrite Hd. unfold delay_schedule. by rewrite auto_deltas_zero by lia. }
  assert (Hps : forall t : nat, (t < 2)%nat -> out_ps_for_export L !!! t = p).
  { intros t Ht2. rewrite Hp, Hdeltas. unfold probabilities.
    assert (Hud : u <> d) by (subst u d; lra).
    destruct t as [| [| t]]; [| | lia];
      cbn [seq fmap list_fmap lookup_total list_lookup_total];
      rewrite decide_False by done; rewrite Hexp; done. }
  exists L. split; [done |]. split; [apply Hps; lia |].
  assert (HNA : forall i j : nat, (i <= 2)%nat -> (j <= 2)%nat ->
            cell (out_N L) i j
            = N (V * powerRZ u (Z.of_nat j - Z.of_nat i) * d ^ i)).
  { intros i j Hi Hj. rewrite HN, HA by done. done. }
  rewrite (Hr 0%nat 0%nat) by lia. cbn [Nat.add].
  rewrite (Hr 0%nat 1%nat), (Hr 1%nat 1%nat) by lia. cbn [Nat.add].
  rewrite !Hps by lia.
  rewrite !Ht by lia. rewrite !HNA by lia.
  change (Z.of_nat 2 - Z.of_nat 0)%Z with 2%Z.
  change (Z.of_nat 2 - Z.of_nat 1)%Z with 1%Z.
  change (Z.of_nat 1 - Z.of_nat 0)%Z with 1%Z.
  change (Z.of_nat 2 - Z.of_nat 2)%Z with 0%Z.
  change (Z.of_nat 1 - Z.of_nat 1)%Z with 0%Z.
  change (Z.of_nat 0 - Z.of_nat 0)%Z with 0%Z.
  change (powerRZ u 2) with (u * (u * 1)).
  change (powerRZ u 1) with (u * 1).
  change (powerRZ u 0) with 1.
  cbn [pow].
  replace (V * (u * (u * 1)) * 1) with (V * u * u) by ring.
  replace (V * (u * 1) * (d * 1)) with (V * u * d) by ring.
  replace (V * (u * 1) * 1) with (V * u) by ring.
  replace (V * 1 * (d * (d * 1))) with (V * d * d) by ring.
  replace (V * 1 * (d * 1)) with (V * d) by ring.
  replace (V * 1 * 1) with V by ring.
  reflexivity.
Qed.

Ltac eval_py_max H :=
  repeat match type of H with
         | context [py_max ?a ?b] =>
             first [ rewrite (py_max_left a b) in H by lra
                   | rewrite (py_max_right a b) in H by lra ]
         end.

(** C7 fails as stated: with V1 = 1000 <= V2 = 1010 and the parameters
    above, the root option value drops from about 165.17 to about 139.25. *)
Lemma monotonicity_counterexample :
  exists L1 L2,
    calculate_lattices 1000 1000 2 (ln (101 / 100)) 0 (ln (21 / 20)) 2 None = Return L1 /\
    calculate_lattices 1010 1000 2 (ln (101 / 100)) 0 (ln (21 / 20)) 2 None = Return L2 /\
    1000 <= 1010 /\
    3 < out_ps_for_export L1 !!! 0%nat /\
    cell (out_C L2) 0 0 < 140 /\
    165 < cell (out_C L1) 0 0 /\
    ~ cell (out_C L1) 0 0 <= cell (out_C L2) 0 0.
Proof.
  destruct (two_period_root 1000) as (L1 & HL1 & Hp1 & Hroot1).
  destruct (two_period_root 1010) as (L2 & HL2 & Hp2 & Hroot2).
  exists L1, L2. split; [done |]. split; [done |]. split; [lra |].
  cbv zeta in *.
  replace ((21 / 20 - 100 / 101) / (101 / 100 - 100 / 101)) with (605 / 201)
    in * by (field; lra).
  split; [rewrite Hp1; lra |].
  eval_py_max Hroot1. eval_py_max Hroot2.
  rewrite Hroot1, Hroot2. lra.
Qed.

(** ** Traced computations *)

Lemma traced_bind_return {A B : Type} (t : list lattice_call) (a : A)
    (f : A -> traced B) :
  ((t, Return a) : traced A) ≫= f = (t ++ (f a).1, (f a).2).
Proof. unfold mbind, traced_bind. by destruct (f a). Qed.

Lemma traced_bind_lift {A B : Type} (a : A) (f : A -> traced B) :
  lift (Return a) ≫= f = f a.
Proof. unfold lift. rewrite traced_bind_return. by destruct (f a). Qed.

Lemma traced_bind_run {A B : Type} (m : traced A) (f : A -> traced B)
    (t t' : list lattice_call) (a : A) (b : outcome B) :
  m = (t, Return a) -> f a = (t', b) -> m ≫= f = (t ++ t', b).
Proof. intros -> Hf. rewrite traced_bind_return, Hf. done. Qed.

Lemma mapM_traced {A B : Type} (f : A -> traced B) (c : A -> lattice_call)
    (g : A -> B) (l : list A) :
  (forall x, f x = ([c x], Return (g x))) ->
  mapM f l = (c <$> l, Return (g <$> l)).
Proof.
  intros Hf. induction l as [| x l IH]; [done |].
  cbn [mapM]. rewrite Hf, traced_bind_return. cbn [fst snd].
  rewrite IH, traced_bind_return.
  unfold mret, traced_ret. cbn [fst snd]. by rewrite app_nil_r.
Qed.

Lemma foldlM_traced {A B : Type} (f : A -> B -> traced A)
    (tr : B -> list lattice_call) (h : A -> B -> A) (l : list B) (a : A) :
  (forall a b, f a b = (tr b, Return (h a b))) ->
  foldlM f a l = (concat (tr <$> l), Return (foldl h a l)).
Proof.
  intros Hf. revert a. induction l as [| b l IH]; intros a; [done |].
  cbn [foldlM]. rewrite Hf, traced_bind_return. cbn [fst snd].
  rewrite IH. done.
Qed.

(** ** [get_C0] *)

Lemma get_C0_run (V K T sigma delta r : R) (n : pynum) :
  get_C0 V K T sigma delta r n
  = ([point_call V K T sigma delta r], Return (point_value V K T sigma delta r)).
Proof.
  unfold get_C0, point_value, call_lattices. fold (point_call V K T sigma delta r).
  unfold run_call, point_call.
  cbn [call_V call_K call_T call_sigma call_delta call_r call_n call_deltas_manual].
  destruct (calculate_lattices_cells V K T sigma delta r
              (Z.to_nat (Z.max 1 (py_int T))) None)
    as (L & HL & _ & _ & _ & _ & _ & HsqC & _); [lia |].
  rewrite Z2Nat.id in HL by lia. rewrite HL.
  rewrite traced_bind_return.
  rewrite (index2_cell _ _ _ _ HsqC) by lia.
  rewrite traced_bind_lift. done.
Qed.

Lemma point_call_n (V K T sigma delta r : R) :
  call_n (point_call V K T sigma delta r)
  = Z.max 1 (floor (call_T (point_call V K T sigma delta r))).
Proof. unfold point_call. cbn [call_n call_T]. apply max_py_int_floor. Qed.

(** ** The tornado and spider loop *)

(** The division of [spider_percent] is never made with a zero divisor, so
    [spider_percent] always returns. *)
Lemma spider_percent_return (base mn mx : R) :
  spider_percent base mn mx = Return (spider_value base mn mx).
Proof.
  unfold spider_percent, spider_value, py_div.
  by destruct (decide (base = 0)).
Qed.

Lemma perturbed_C0_run (V K T sigma delta r : R) (name : string) (factor : R) :
  name ∈ tornado_names ->
  exists c v,
    (forall n, perturbed_C0 V K T sigma delta r n name factor = ([c], Return v)) /\
    call_n c = Z.max 1 (floor (call_T c)) /\
    call_T c = if decide (name = "Time to Maturity (T)"%string) then T * factor else T.
Proof.
  intros Hname. unfold tornado_names in Hname.
  repeat (apply elem_of_cons in Hname as [-> | Hname]);
    [ exists (point_call (V * factor) K T sigma delta r),
             (point_value (V * factor) K T sigma delta r)
    | exists (point_call V K T (sigma * factor) delta r),
             (point_value V K T (sigma * factor) delta r)
    | exists (point_call V K (T * factor) sigma delta r),
             (point_value V K (T * factor) sigma delta r)
    | exists (point_call V (K * factor) T sigma delta r),
             (point_value V (K * factor) T sigma delta r)
    | exists (point_call V K T sigma (delta * factor) r),
             (point_value V K T sigma (delta * factor) r)
    | exists (point_call V K T sigma delta (r * factor)),
             (point_value V K T sigma delta (r * factor))
    | by apply elem_of_nil in Hname ];
    (split; [| split; [apply point_call_n | by cbn [call_T point_call]]]);
    intros n; unfold perturbed_C0;
    repeat (case_decide; [try discriminate | try done]);
    apply get_C0_run.
Qed.

Lemma tornado_step_run (V K T sigma delta r base : R)
    (td : list (string * tornado_entry)) (sd : list (string * R))
    (name : string) (bv : R) :
  name ∈ tornado_names ->
  exists c1 c2 mn mx,
    (forall n,
       tornado_step V K T sigma delta r n base (td, sd) (name, bv)
       = ([c1; c2],
          Return (dict_set name (TornadoEntry mn mx base) td,
                  dict_set name (spider_value base mn mx) sd))) /\
    call_n c1 = Z.max 1 (floor (call_T c1)) /\
    call_n c2 = Z.max 1 (floor (call_T c2)) /\
    call_T c1 = (if decide (name = "Time to Maturity (T)"%string)
                 then T * (9 / 10) else T) /\
    call_T c2 = (if decide (name = "Time to Maturity (T)"%string)
                 then T * (11 / 10) else T).
Proof.
  intros Hname.
  destruct (perturbed_C0_run V K T sigma delta r name (9 / 10) Hname)
    as (c1 & v1 & Hrun1 & Hn1 & HT1).
  destruct (perturbed_C0_run V K T sigma delta r name (11 / 10) Hname)
    as (c2 & v2 & Hrun2 & Hn2 & HT2).
  exists c1, c2, (py_min v1 v2), (py_max v1 v2).
  split; [| done].
  intros n. unfold tornado_step. cbn [fst mapM].
  rewrite Hrun1.
  rewrite Hrun2.
  cbn [mbind traced_bind mret traced_ret app py_min_list py_max_list lift foldl].
  rewrite spider_percent_return. reflexivity.
Qed.

(** ** The line charts *)

Lemma chart_step_run {L : Type} `{EqDecision L} (label : R -> L)
    (series : R -> R -> traced R) (cf : R -> R -> lattice_call) (vf : R -> R -> R)
    (rng : list R) (acc : list (L * list R)) (factor : R) :
  (forall f s, series f s = ([cf f s], Return (vf f s))) ->
  chart_step label series rng acc factor
  = (cf factor <$> rng,
     Return (dict_set (label factor)
               ((fun s => py_round_ndigits (vf factor s) 2) <$> rng) acc)).
Proof.
  intros Hs. unfold chart_step.
  rewrite (mapM_traced _ (cf factor) (fun s => py_round_ndigits (vf factor s) 2)).
  - rewrite traced_bind_return. unfold mret, traced_ret. cbn [fst snd].
    by rewrite app_nil_r.
  - intros s. by rewrite Hs.
Qed.

Lemma dict_set_fresh {K V : Type} `{EqDecision K} (k : K) (v : V) (d : list (K * V)) :
  k ∉ d.*1 -> dict_set k v d = d ++ [(k, v)].
Proof.
  induction d as [| [k' v'] d IH]; intros Hk; [done |].
  cbn [dict_set]. cbn [fmap list_fmap fst] in Hk.
  apply not_elem_of_cons in Hk as [Hne Hk].
  rewrite decide_False by done. by rewrite IH.
Qed.

(** ** The whole of [calculate_sensitivity_data] *)

Lemma calculate_sensitivity_data_run (bp : base_params) :
  let V := bp_V_calc bp in
  let K := bp_K_calc bp in
  let T := bp_T bp in
  let sigma := bp_sigma bp in
  let delta := bp_delta_val bp in
  let r := bp_r bp in
  let rng := linspace (sigma * (1 / 2)) (sigma * (3 / 2)) 7 in
  exists tcalls S,
    (forall n,
       calculate_sensitivity_data bp n
       = (point_call V K T sigma delta r :: tcalls
          ++ concat ((fun f => (fun s => point_call (V * f) K T s delta r) <$> rng)
                       <$> [8 / 10; 1; 12 / 10])
          ++ concat ((fun f => (fun s => point_call V K T s (delta * f) r) <$> rng)
                       <$> [1 / 2; 1; 3 / 2]),
          Return S)) /\
    Forall (fun c => call_n c = Z.max 1 (floor (call_T c))) tcalls /\
    call_T <$> tcalls
    = [T; T; T; T; T * (9 / 10); T * (11 / 10); T; T; T; T; T; T] /\
    base_option_value S = point_value V K T sigma delta r /\
    (tornado S).*1 = tornado_names /\
    Forall (fun te => tornado_base_value te.2 = base_option_value S) (tornado S) /\
    Forall2 spider_of_tornado (tornado S) (spider S).
Proof.
  intros V K T sigma delta r rng.
  set (base := point_value V K T sigma delta r).
  assert (Hnames : forall name, name ∈ tornado_names <->
            name = "Asset Value (V)"%string \/ name = "Volatility"%string \/
            name = "Time to Maturity (T)"%string \/
            name = "Exercise Cost (K)"%string \/
            name = "Cost of Delay"%string \/ name = "Risk-free Rate (r)"%string).
  { intros name. unfold tornado_names.
    rewrite !elem_of_cons, elem_of_nil. tauto. }
  destruct (tornado_step_run V K T sigma delta r base [] [] "Asset Value (V)" V)
    as (a1 & a2 & mn1 & mx1 & H1 & Pa1 & Pa2 & Ta1 & Ta2);
    [apply Hnames; tauto |].
  set (td1 := dict_set _ _ _) in H1. set (sd1 := dict_set _ _ _) in H1.
  destruct (tornado_step_run V K T sigma delta r base td1 sd1 "Volatility" sigma)
    as (b1 & b2 & mn2 & mx2 & H2 & Pb1 & Pb2 & Tb1 & Tb2);
    [apply Hnames; tauto |].
  set (td2 := dict_set _ _ _) in H2. set (sd2 := dict_set _ _ _) in H2.
  destruct (tornado_step_run V K T sigma delta r base td2 sd2 "Time to Maturity (T)" T)
    as (c1 & c2 & mn3 & mx3 & H3 & Pc1 & Pc2 & Tc1 & Tc2);
    [apply Hnames; tauto |].
  set (td3 := dict_set _ _ _) in H3. set (sd3 := dict_set _ _ _) in H3.
  destruct (tornado_step_run V K T sigma delta r base td3 sd3 "Exercise Cost (K)" K)
    as (d1 & d2 & mn4 & mx4 & H4 & Pd1 & Pd2 & Td1 & Td2);
    [apply Hnames; tauto |].
  set (td4 := dict_set _ _ _) in H4. set (sd4 := dict_set _ _ _) in H4.
  destruct (tornado_step_run V K T sigma delta r base td4 sd4 "Cost of Delay" delta)
    as (e1 & e2 & mn5 & mx5 & H5 & Pe1 & Pe2 & Te1 & Te2);
    [apply Hnames; tauto |].
  set (td5 := dict_set _ _ _) in H5. set (sd5 := dict_set _ _ _) in H5.
  destruct (tornado_step_run V K T sigma delta r base td5 sd5 "Risk-free Rate (r)" r)
    as (f1 & f2 & mn6 & mx6 & H6 & Pf1 & Pf2 & Tf1 & Tf2);
    [apply Hnames; tauto |].
  set (td6 := dict_set _ _ _) in H6. set (sd6 := dict_set _ _ _) in H6.
  eassert (Hrun : forall n, calculate_sensitivity_data bp n = (_, Return _)).
  { intros n. unfold calculate_sensitivity_data.
    fold V K T sigma delta r. cbv zeta. fold rng.
    eapply traced_bind_run; [apply get_C0_run |]. fold base.
    eapply traced_bind_run.
    { cbn [foldlM params_to_test].
      eapply traced_bind_run; [apply H1 |].
      eapply traced_bind_run; [apply H2 |].
      eapply traced_bind_run; [apply H3 |].
      eapply traced_bind_run; [apply H4 |].
      eapply traced_bind_run; [apply H5 |].
      eapply traced_bind_run; [apply H6 |].
      reflexivity. }
    cbv beta iota.
    eapply traced_bind_run.
    { apply (foldlM_traced _
               (fun f => (fun s => point_call (V * f) K T s delta r) <$> rng)
               (fun acc f =>
                  dict_set (py_round (V * f / 1000))
                    ((fun s => py_round_ndigits
                                 (point_value (V * f) K T s delta r) 2) <$> rng) acc)).
      intros acc f.
      apply (chart_step_run (fun factor => py_round (V * factor / 1000)) _
               (fun f s => point_call (V * f) K T s delta r)
               (fun f s => point_value (V * f) K T s delta r)).
      intros f' s. apply get_C0_run. }
    eapply traced_bind_run.
    { apply (foldlM_traced _
               (fun f => (fun s => point_call V K T s (delta * f) r) <$> rng)
               (fun acc f =>
                  dict_set (py_round_ndigits (delta * f * 100) 1)
                    ((fun s => py_round_ndigits
                                 (point_value V K T s (delta * f) r) 2) <$> rng) acc)).
      intros acc f.
      apply (chart_step_run
               (fun factor => py_round_ndigits (delta * factor * 100) 1) _
               (fun f s => point_call V K T s (delta * f) r)
               (fun f s => point_value V K T s (delta * f) r)).
      intros f' s. apply get_C0_run. }
    reflexivity. }
  exists [a1; a2; b1; b2; c1; c2; d1; d2; e1; e2; f1; f2].
  eexists. split; [| split; [| split; [| split; [| split; [| split]]]]].
  - intros n. by rewrite Hrun.
  - repeat (apply Forall_cons; split; [done |]). apply Forall_nil_2.
  - cbn [fmap list_fmap]. rewrite Ta1, Ta2, Tb1, Tb2, Tc1, Tc2, Td1, Td2, Te1, Te2, Tf1, Tf2.
    repeat (case_decide; try discriminate); done.
  - done.
  - cbn [tornado]. subst td6 td5 td4 td3 td2 td1.
    repeat (rewrite dict_set_fresh;
            [| cbn [app fmap list_fmap fst]; rewrite ?elem_of_cons, elem_of_nil;
               intros Hk; repeat destruct Hk as [Hk | Hk]; done]).
    done.
  - cbn [tornado base_option_value]. subst td6 td5 td4 td3 td2 td1.
    repeat (rewrite dict_set_fresh;
            [| cbn [app fmap list_fmap fst]; rewrite ?elem_of_cons, elem_of_nil;
               intros Hk; repeat destruct Hk as [Hk | Hk]; done]).
    repeat (apply Forall_cons; split; [done |]). apply Forall_nil_2.
  - cbn [tornado spider]. subst td6 td5 td4 td3 td2 td1 sd6 sd5 sd4 sd3 sd2 sd1.
    repeat (rewrite dict_set_fresh;
            [| cbn [app fmap list_fmap fst]; rewrite ?elem_of_cons, elem_of_nil;
               intros Hk; repeat destruct Hk as [Hk | Hk]; done]).
    repeat (apply Forall2_cons; split; [done |]). apply Forall2_nil_2.
Qed.

Lemma length_linspace (start stop : R) (num : nat) :
  length (linspace start stop num) = num.
Proof. unfold linspace. by rewrite length_insert, length_fmap, length_seq. Qed.

Lemma chart_calls_T (T : R) (c : R -> lattice_call) (l : list R) :
  (forall s, call_T (c s) = T) ->
  call_T <$> (c <$> l) = replicate (length l) T.
Proof.
  intros Hc. induction l as [| s l IH]; [done |].
  cbn [fmap list_fmap length replicate]. rewrite Hc. f_equal. exact IH.
Qed.

Lemma chart_calls_n (c : R -> lattice_call) (l : list R) :
  (forall s, call_n (c s) = Z.max 1 (floor (call_T (c s)))) ->
  Forall (fun c => call_n c = Z.max 1 (floor (call_T c))) (c <$> l).
Proof. intros Hc. apply Forall_fmap, Forall_forall. intros s _. apply Hc. Qed.

(** C2.  [get_C0] ignores the period count (or float) passed by its caller:
    its one call to [calculate_lattices] uses [max(1, floor(T))] computed
    from its own [T].  Hence [calculate_sensitivity_data] does not depend on
    its argument [n]; it returns after 55 valuations, each with period
    count [max(1, floor(T'))] for its own time to maturity [T']; that time
    is the base [T] in every valuation (so the period count is that of the
    base valuation) except the two of the tornado entry of T, which use
    [0.9*T] and [1.1*T].  For [T > -1] the base period count is also the
    one the route uses for the main valuation. *)
Theorem sensitivity_period_counts (bp : base_params) (n : Z) :
  let T := bp_T bp in
  (forall (V K T' sigma delta r : R) (m1 m2 : pynum),
     get_C0 V K T' sigma delta r m1 = get_C0 V K T' sigma delta r m2 /\
     (get_C0 V K T' sigma delta r m1).1
     = [LatticeCall V K T' sigma delta r (Z.max 1 (floor T')) None]) /\
  exists tr S,
    calculate_sensitivity_data bp n = (tr, Return S) /\
    (forall n', calculate_sensitivity_data bp n' = (tr, Return S)) /\
    Forall (fun c => call_n c = Z.max 1 (floor (call_T c))) tr /\
    call_T <$> tr
    = replicate 5 T ++ [T * (9 / 10); T * (11 / 10)] ++ replicate 48 T /\
    (-1 < T -> Z.max 1 (floor T) = period_count T).
Proof.
  intros T. split.
  - intros V K T' sigma delta r m1 m2. rewrite !get_C0_run. split; [done |].
    cbn [fst]. unfold point_call. by rewrite max_py_int_floor.
  - destruct (calculate_sensitivity_data_run bp)
      as (tcalls & S & Hrun & Hn & HT & _).
    cbv zeta in Hrun. fold T in Hrun, HT.
    eexists _, S. split; [apply Hrun |]. split; [apply Hrun |].
    split; [| split; [| by intros HT1; rewrite period_count_floor]].
    + apply Forall_cons. split; [apply point_call_n |].
      apply Forall_app. split; [done |].
      apply Forall_app. split.
      * cbn [fmap list_fmap concat]. rewrite app_nil_r.
        repeat (apply Forall_app; split);
          apply chart_calls_n; intros s; apply point_call_n.
      * cbn [fmap list_fmap concat]. rewrite app_nil_r.
        repeat (apply Forall_app; split);
          apply chart_calls_n; intros s; apply point_call_n.
    + rewrite fmap_cons, !fmap_app, HT.
      cbn [fmap list_fmap concat]. rewrite !app_nil_r, !fmap_app.
      rewrite !(chart_calls_T T) by done.
      rewrite !length_linspace. reflexivity.
Qed.

(** ** The spider percentage *)

Lemma py_round_ndigits_zero (k : nat) : py_round_ndigits 0 k = 0.
Proof.
  unfold py_round_ndigits, round_half_even. rewrite Rmult_0_l.
  change 0 with (IZR 0) at 1 2 3. rewrite Int_part_IZR.
  rewrite decide_True by (simpl; lra). simpl. lra.
Qed.

(** C6.  The spider percentage of lines 213-220 is computed without ever
    dividing by zero: for a base option value of exactly 0 it is exactly 0
    and no division is made, and for any other base value it is
    [max(|max_C - base|, |min_C - base|) / base * 100] rounded to 2
    decimals.  Hence [calculate_sensitivity_data] returns for every
    parameter set; its tornado and spider dictionaries have the six
    parameter names as keys; and the spider entry of each name is that
    percentage for the [min_C] and [max_C] of its tornado entry. *)
Theorem spider_percentage_guarded (bp : base_params) (n : Z) :
  (forall min_C max_C : R, spider_percent 0 min_C max_C = Return 0) /\
  (forall base min_C max_C : R, base <> 0 ->
     py_div (Rmax (Rabs (max_C - base)) (Rabs (min_C - base))) base
     = Return (Rmax (Rabs (max_C - base)) (Rabs (min_C - base)) / base) /\
     spider_percent base min_C max_C
     = Return (py_round_ndigits
                 (Rmax (Rabs (max_C - base)) (Rabs (min_C - base)) / base * 100) 2)) /\
  exists tr S,
    calculate_sensitivity_data bp n = (tr, Return S) /\
    (tornado S).*1 = tornado_names /\
    (spider S).*1 = tornado_names /\
    Forall2
      (fun (te : string * tornado_entry) (sp : string * R) =>
         te.1 = sp.1 /\
         let base := base_option_value S in
         let max_C := tornado_max te.2 in
         let min_C := tornado_min te.2 in
         tornado_base_value te.2 = base /\
         spider_percent base min_C max_C = Return sp.2 /\
         (base = 0 -> sp.2 = 0) /\
         (base <> 0 ->
          sp.2 = py_round_ndigits
                   (Rmax (Rabs (max_C - base)) (Rabs (min_C - base)) / base * 100) 2))
      (tornado S) (spider S).
Proof.
  assert (Hzero : forall mn mx : R, spider_value 0 mn mx = 0).
  { intros mn mx. unfold spider_value. rewrite decide_True by done.
    apply py_round_ndigits_zero. }
  assert (Hother : forall base mn mx : R, base <> 0 ->
            spider_value base mn mx
            = py_round_ndigits
                (Rmax (Rabs (mx - base)) (Rabs (mn - base)) / base * 100) 2).
  { intros base mn mx Hb. unfold spider_value. rewrite decide_False by done.
    by rewrite py_max_Rmax. }
  split; [| split].
  - intros mn mx. by rewrite spider_percent_return, Hzero.
  - intros base mn mx Hb. split.
    + unfold py_div. by rewrite decide_False.
    + by rewrite spider_percent_return, Hother.
  - destruct (calculate_sensitivity_data_run bp)
      as (tcalls & S & Hrun & _ & _ & _ & Hnames & Hbase & Hrel).
    eexists _, S. split; [apply Hrun |]. split; [done |].
    assert (Hkeys : (tornado S).*1 = (spider S).*1).
    { clear -Hrel. induction Hrel as [| te sp td sd [Hk _] _ IH]; [done |].
      cbn [fmap list_fmap]. by rewrite Hk, IH. }
    split; [by rewrite <- Hkeys |].
    clear -Hbase Hrel Hzero Hother.
    induction Hrel as [| te sp td sd [Hk Hsp] Hrest IH]; [done |].
    apply Forall_cons in Hbase as [Hb Hbase].
    apply Forall2_cons. split; [| by apply IH].
    split; [done |]. cbv zeta. split; [done |].
    rewrite Hsp, Hb. split; [by rewrite spider_percent_return |]. split.
    + intros H0. rewrite H0. apply Hzero.
    + intros H0. by apply Hother.
Qed.

(** ** The [/calculate] route: the manual cost-of-delay sequence *)

Section manual.
Context `{Builtins}.

Lemma parse_entry_unfold (d : string) :
  parse_entry d
  = match float_of_string (py_strip d) with
    | Some x => Return x
    | None => Raise ValueError
    end.
Proof. reflexivity. Qed.

Lemma parse_entries_error (l : list string) (e : string) :
  e ∈ l -> float_of_string (py_strip e) = None ->
  mapM parse_entry l = Raise ValueError.
Proof.
  intros He Hnone. induction l as [| d l IH]; [by apply elem_of_nil in He |].
  cbn [mapM]. rewrite (parse_entry_unfold d).
  destruct (float_of_string (py_strip d)) as [x |] eqn:Hd; [| reflexivity].
  apply elem_of_cons in He as [-> | He]; [congruence |].
  rewrite (IH He). reflexivity.
Qed.

Lemma parse_manual_non_numeric (s e : string) :
  s <> ""%string -> e ∈ py_split "," s -> float_of_string (py_strip e) = None ->
  parse_manual (JStr s) = Raise ValueError.
Proof.
  intros Hs He Hnone. unfold parse_manual. cbn [truthy].
  rewrite bool_decide_eq_true_2 by done.
  by apply (parse_entries_error _ e).
Qed.
End manual.

(** C8, as amended.  For every request whose [V] and [K] fields convert to
    floats, whose mode is not ['auto'] and whose [delta] field is a
    non-empty string with a comma-separated entry that [float] rejects, the
    route replies 400 with the message below, and no call to
    [calculate_lattices] has been made. *)
Theorem manual_non_numeric_entry_400 `{Builtins} (data : gmap string json)
    (v k : R) (s e : string) :
  dict_get data "V" ≫= py_float = Return v ->
  dict_get data "K" ≫= py_float = Return k ->
  is_auto (default (JStr "auto") (data !! "delta-mode"%string)) = false ->
  data !! "delta"%string = Some (JStr s) ->
  s <> ""%string ->
  e ∈ py_split "," s ->
  float_of_string (py_strip e) = None ->
  calculate data
  = ([], Return (Error400 "Manual Cost of Delay values must be valid numbers.")).
Proof.
  intros HV HK Hmode Hdelta Hs He Hnone. unfold calculate.
  rewrite HV, HK, Hmode. unfold dict_get at 1. rewrite Hdelta.
  by rewrite (parse_manual_non_numeric s e).
Qed.

Lemma manual_non_numeric_entry_400_witness :
  @calculate example_runtime
    {[ "V"%string := JNum 1000; "K"%string := JNum 900;
       "delta-mode"%string := JStr "manual"; "delta"%string := JStr "1,x";
       "T"%string := JNum 2; "sigma"%string := JNum (1 / 5);
       "r"%string := JNum (1 / 20) ]}
  = ([], Return (Error400 "Manual Cost of Delay values must be valid numbers.")).
Proof.
  apply (@manual_non_numeric_entry_400 example_runtime _ 1000 900 "1,x" "x").
  - reflexivity.
  - reflexivity.
  - reflexivity.
  - reflexivity.
  - discriminate.
  - cbn. set_solver.
  - reflexivity.
Defined.

(** C8 fails as stated: a request in manual mode whose sequence has the
    non-numeric entry [x], but whose [V] field is [null], gets the generic
    reply and not the 400. *)
Lemma manual_non_numeric_counterexample :
  let data : gmap string json :=
    {[ "V"%string := JNull; "K"%string := JNum 900;
       "delta-mode"%string := JStr "manual"; "delta"%string := JStr "1,x";
       "T"%string := JNum 2; "sigma"%string := JNum (1 / 5);
       "r"%string := JNum (1 / 20) ]} in
  is_auto (default (JStr "auto") (data !! "delta-mode"%string)) = false /\
  data !! "delta"%string = Some (JStr "1,x") /\
  py_split "," "1,x" = ["1"; "x"]%string /\
  @float_of_string example_runtime (@py_strip example_runtime "x") = None /\
  @calculate example_runtime data = ([], Return (Error500 TypeError)) /\
  @calculate example_runtime data
  <> ([], Return (Error400 "Manual Cost of Delay values must be valid numbers.")).
Proof.
  cbv zeta. repeat split; try reflexivity. discriminate.
Qed.

(** ** The [/calculate] route: a manual sequence of the wrong length *)

Lemma period_count_nonzero (T : R) : period_count T <> 0%Z.
Proof. unfold period_count. case_bool_decide; lia. Qed.

Lemma calculate_lattices_ignores_manual (V K T sigma delta r : R) (n : Z)
    (dm : list R) :
  Z.of_nat (length dm) <> n ->
  calculate_lattices V K T sigma delta r n (Some dm)
  = calculate_lattices V K T sigma delta r n None.
Proof.
  intros Hlen. unfold calculate_lattices, delay_schedule.
  by rewrite (bool_decide_eq_false_2 (Z.of_nat (length dm) = n)) by done.
Qed.

(** C10.  A request in manual mode whose sequence [dm] parses but whose
    length differs from the period count [n]: the route calls
    [calculate_lattices] with the scalar delta set to the first entry of
    [dm] (0 if [dm] is empty) and with [dm] as the manual sequence; that
    call returns what it returns without any manual sequence, its schedule
    is the auto-mode schedule of the scalar delta, and it is not [dm] with
    1.0 appended. *)
Theorem manual_length_mismatch_falls_back `{Builtins} (data : gmap string json)
    (v k T sigma r : R) (delta_input : json) (dm : list R) :
  dict_get data "V" ≫= py_float = Return v ->
  dict_get data "K" ≫= py_float = Return k ->
  is_auto (default (JStr "auto") (data !! "delta-mode"%string)) = false ->
  data !! "delta"%string = Some delta_input ->
  parse_manual delta_input = Return dm ->
  dict_get data "T" ≫= py_float = Return T ->
  dict_get data "sigma" ≫= py_float = Return sigma ->
  dict_get data "r" ≫= py_float = Return r ->
  Z.of_nat (length dm) <> period_count T ->
  let n := period_count T in
  let delta_val := default 0 (head dm) in
  let c := LatticeCall (v * 1000) (k * 1000) T sigma delta_val r n (Some dm) in
  exists tr resp L,
    calculate data = (c :: tr, Return resp) /\
    run_call c = Return L /\
    calculate_lattices (v * 1000) (k * 1000) T sigma delta_val r n None = Return L /\
    out_deltas L = auto_deltas delta_val n (range (n + 1)) /\
    out_deltas L <> dm ++ [1].
Proof.
  intros HV HK Hmode Hdelta Hparse HT Hsigma Hr Hlen n delta_val c.
  assert (Hn : n <> 0%Z) by apply period_count_nonzero.
  destruct (calculate_lattices_deltas (v * 1000) (k * 1000) T sigma delta_val r n
              (Some dm) Hn) as (L & HL & Hd).
  assert (Hrun : run_call c = Return L) by exact HL.
  assert (Hauto : out_deltas L = auto_deltas delta_val n (range (n + 1))).
  { rewrite Hd. unfold delay_schedule.
    by rewrite (bool_decide_eq_false_2 (Z.of_nat (length dm) = n)) by done. }
  assert (Hcalc : exists tr resp, calculate data = (c :: tr, Return resp)).
  { unfold calculate. rewrite HV, HK, Hmode. unfold dict_get at 1.
    rewrite Hdelta, Hparse. fold delta_val.
    unfold valuation. rewrite HT, Hsigma, Hr, !traced_bind_lift.
    fold n. fold c. unfold call_lattices. rewrite Hrun, traced_bind_return.
    cbn [app]. set (rest := _ ≫= _). destruct rest as [t [res | e]]; cbn [fst snd catch_all];
      eauto. }
  destruct Hcalc as (tr & resp & Hcalc).
  exists tr, resp, L. split; [done |]. split; [done |]. split; [| split; [done |]].
  - rewrite <- (calculate_lattices_ignores_manual _ _ _ _ _ _ _ dm) by done.
    exact HL.
  - intros Heq. apply (f_equal length) in Heq.
    rewrite Hauto, length_auto_deltas, length_app in Heq by done.
    cbn [length] in Heq. lia.
Qed.

Lemma manual_length_mismatch_falls_back_witness :
  let data : gmap string json :=
    {[ "V"%string := JNum 1000; "K"%string := JNum 900;
       "delta-mode"%string := JStr "manual"; "delta"%string := JStr "1,2,3";
       "T"%string := JNum 2; "sigma"%string := JNum (1 / 5);
       "r"%string := JNum (1 / 20) ]} in
  let c := LatticeCall (1000 * 1000) (900 * 1000) 2 (1 / 5) 1 (1 / 20)
             (period_count 2) (Some [1; 2; 3]) in
  exists tr resp L,
    @calculate example_runtime data = (c :: tr, Return resp) /\
    run_call c = Return L /\
    calculate_lattices (1000 * 1000) (900 * 1000) 2 (1 / 5) 1 (1 / 20)
      (period_count 2) None = Return L /\
    out_deltas L = auto_deltas 1 (period_count 2) (range (period_count 2 + 1)) /\
    out_deltas L <> [1; 2; 3] ++ [1].
Proof.
  cbv zeta.
  apply (@manual_length_mismatch_falls_back example_runtime _ 1000 900 2 (1 / 5)
           (1 / 20) (JStr "1,2,3") [1; 2; 3]).
  - reflexivity.
  - reflexivity.
  - reflexivity.
  - reflexivity.
  - reflexivity.
  - reflexivity.
  - reflexivity.
  - reflexivity.
  - unfold period_count. rewrite py_int_IZR.
    rewrite bool_decide_eq_false_2 by lia. cbn [length]. lia.
Defined.

(** * Further properties of the engine *)

(** ** Shapes of the returned values *)

(** X1.  For every [n >= 1] and every manual sequence (or none), the three
    lattices returned by [calculate_lattices] are [(n+1) x (n+1)], [times]
    is [0, 1, ..., n], and the schedules [deltas] and [ps_for_export] both
    have [n+1] entries, as the export of the route needs. *)
Theorem calculate_lattices_shapes (V K T sigma delta r : R) (n : Z)
    (deltas_manual : option (list R)) :
  (1 <= n)%Z ->
  exists L,
    calculate_lattices V K T sigma delta r n deltas_manual = Return L /\
    square (Z.to_nat (n + 1)) (out_A L) /\
    square (Z.to_nat (n + 1)) (out_N L) /\
    square (Z.to_nat (n + 1)) (out_C L) /\
    out_times L = seq 0 (Z.to_nat (n + 1)) /\
    length (out_deltas L) = Z.to_nat (n + 1) /\
    length (out_ps_for_export L) = Z.to_nat (n + 1).
Proof.
  intros Hn.
  destruct (calculate_lattices_cells V K T sigma delta r (Z.to_nat n) deltas_manual)
    as (L & HL & Ht & Hd & Hp & HA & HN & HC & _); [lia |].
  rewrite Z2Nat.id in HL, Hd, Hp by lia.
  replace (Z.to_nat (n + 1)) with (S (Z.to_nat n)) by lia.
  exists L. split; [done |]. do 4 (split; [done |]). split.
  - rewrite Hd. rewrite <- (range_succ (Z.to_nat n)), Z2Nat.id by lia.
    rewrite length_delay_schedule by lia. lia.
  - rewrite Hp, length_probabilities, length_seq. done.
Qed.

Lemma calculate_lattices_shapes_witness :
  exists L,
    calculate_lattices 1000 900 3 (1 / 5) (1 / 20) (1 / 20) 3 (Some [1 / 10; 1 / 5])
    = Return L /\
    square (Z.to_nat (3 + 1)) (out_A L) /\
    square (Z.to_nat (3 + 1)) (out_N L) /\
    square (Z.to_nat (3 + 1)) (out_C L) /\
    out_times L = seq 0 (Z.to_nat (3 + 1)) /\
    length (out_deltas L) = Z.to_nat (3 + 1) /\
    length (out_ps_for_export L) = Z.to_nat (3 + 1).
Proof.
  apply (calculate_lattices_shapes 1000 900 3 (1 / 5) (1 / 20) (1 / 20) 3
           (Some [1 / 10; 1 / 5])).
  lia.
Defined.

(** ** Early exercise *)

(** X2.  For [T >= 0] and every [n >= 1], where no NaN arises (the engine
    with NaN returns the same lattices), every node [i <= j <= n] of the
    option lattice is worth at least its exercise value,
    [C[i][j] >= N[i][j]]; in particular the root value is at least
    [max(V - K, 0)]. *)
Theorem early_exercise_dominance (V K T sigma delta r : R) (n : Z)
    (deltas_manual : option (list R)) :
  (1 <= n)%Z ->
  0 <= T ->
  exists L,
    calculate_lattices V K T sigma delta r n deltas_manual = Return L /\
    Float64.calculate_lattices V K T sigma delta r n deltas_manual
    = Return (embed_lattices L) /\
    (forall i j : nat, (i <= j)%nat -> (Z.of_nat j <= n)%Z ->
       cell (out_N L) i j <= cell (out_C L) i j) /\
    Rmax (V - K) 0 <= cell (out_C L) 0 0.
Proof.
  intros Hn HT.
  destruct (calculate_lattices_cells V K T sigma delta r (Z.to_nat n) deltas_manual)
    as (L & HL & _ & _ & _ & _ & _ & _ & HA & HN & Hterm & Hrec & _); [lia |].
  rewrite Z2Nat.id in HL by lia.
  exists L. split; [done |]. split; [by apply calculate_lattices_no_nan |].
  assert (Hdom : forall i j : nat, (i <= j)%nat -> (Z.of_nat j <= n)%Z ->
            cell (out_N L) i j <= cell (out_C L) i j).
  { intros i j Hij Hj. destruct (decide (j = Z.to_nat n)) as [-> | Hne].
    - rewrite Hterm by lia. lra.
    - rewrite Hrec by lia. rewrite py_max_Rmax. apply Rmax_r. }
  split; [done |].
  eapply Rle_trans; [| apply (Hdom 0%nat 0%nat); lia].
  rewrite HN, HA by lia. rewrite py_max_Rmax.
  change (Z.of_nat 0 - Z.of_nat 0)%Z with 0%Z. cbn [powerRZ pow].
  replace (V * 1 * 1 - K) with (V - K) by ring. lra.
Qed.

Lemma early_exercise_dominance_witness :
  exists L,
    calculate_lattices 1000 900 2 (1 / 5) (1 / 20) (1 / 20) 2 None = Return L /\
    Float64.calculate_lattices 1000 900 2 (1 / 5) (1 / 20) (1 / 20) 2 None
    = Return (embed_lattices L) /\
    (forall i j : nat, (i <= j)%nat -> (Z.of_nat j <= 2)%Z ->
       cell (out_N L) i j <= cell (out_C L) i j) /\
    Rmax (1000 - 900) 0 <= cell (out_C L) 0 0.
Proof.
  apply (early_exercise_dominance 1000 900 2 (1 / 5) (1 / 20) (1 / 20) 2 None).
  - lia.
  - lra.
Defined.

(** ** The recombining asset lattice *)

Lemma up_down_factor (sigma dt : R) : up_factor sigma dt * (1 / up_factor sigma dt) = 1.
Proof. pose proof (up_factor_pos sigma dt). field. lra. Qed.

(** X3.  For [T >= 0] and every [n >= 1], where no NaN arises (the engine
    with NaN returns the same lattices), the asset lattice recombines: with
    [u = exp(sigma*sqrt(dt))] and [d = 1/u], one more period at the same
    state multiplies the value by [u], one more period and one more
    down-move multiplies it by [d], and an up-move followed by a down-move
    returns to the value two periods earlier, [A[i+1][j+2] = A[i][j]]. *)
Theorem asset_lattice_recombines (V K T sigma delta r : R) (n : Z)
    (deltas_manual : option (list R)) :
  (1 <= n)%Z ->
  0 <= T ->
  let u := up_factor sigma (T / IZR n) in
  let d := 1 / u in
  exists L,
    calculate_lattices V K T sigma delta r n deltas_manual = Return L /\
    Float64.calculate_lattices V K T sigma delta r n deltas_manual
    = Return (embed_lattices L) /\
    u * d = 1 /\
    cell (out_A L) 0 0 = V /\
    (forall i j : nat, (Z.of_nat i <= n)%Z -> (Z.of_nat j + 1 <= n)%Z ->
       cell (out_A L) i (j + 1) = cell (out_A L) i j * u) /\
    (forall i j : nat, (Z.of_nat i + 1 <= n)%Z -> (Z.of_nat j + 1 <= n)%Z ->
       cell (out_A L) (i + 1) (j + 1) = cell (out_A L) i j * d) /\
    (forall i j : nat, (Z.of_nat i + 1 <= n)%Z -> (Z.of_nat j + 2 <= n)%Z ->
       cell (out_A L) (i + 1) (j + 2) = cell (out_A L) i j).
Proof.
  intros Hn HT u d.
  destruct (calculate_lattices_cells V K T sigma delta r (Z.to_nat n) deltas_manual)
    as (L & HL & _ & _ & _ & _ & _ & _ & HA & _); [lia |].
  rewrite Z2Nat.id in HL, HA by lia. fold u d in HA.
  assert (Hu : 0 < u) by apply up_factor_pos.
  assert (Hud : u * d = 1) by apply up_down_factor.
  exists L. split; [done |]. split; [by apply calculate_lattices_no_nan |].
  split; [done |]. split; [| split; [| split]].
  - rewrite HA by lia. change (Z.of_nat 0 - Z.of_nat 0)%Z with 0%Z.
    cbn [powerRZ pow]. ring.
  - intros i j Hi Hj. rewrite !HA by lia.
    replace (Z.of_nat (j + 1) - Z.of_nat i)%Z with ((Z.of_nat j - Z.of_nat i) + 1)%Z
      by lia.
    rewrite powerRZ_add by lra. rewrite powerRZ_1. ring.
  - intros i j Hi Hj. rewrite !HA by lia.
    replace (Z.of_nat (j + 1) - Z.of_nat (i + 1))%Z with (Z.of_nat j - Z.of_nat i)%Z
      by lia.
    replace (i + 1)%nat with (S i) by lia. cbn [pow]. ring.
  - intros i j Hi Hj. rewrite !HA by lia.
    replace (Z.of_nat (j + 2) - Z.of_nat (i + 1))%Z with ((Z.of_nat j - Z.of_nat i) + 1)%Z
      by lia.
    rewrite powerRZ_add by lra. rewrite powerRZ_1.
    replace (i + 1)%nat with (S i) by lia. cbn [pow].
    transitivity (V * powerRZ u (Z.of_nat j - Z.of_nat i) * d ^ i * (u * d)); [ring |].
    rewrite Hud. ring.
Qed.

Lemma asset_lattice_recombines_witness :
  exists L,
    calculate_lattices 1000 900 2 (1 / 5) (1 / 20) (1 / 20) 2 None = Return L /\
    Float64.calculate_lattices 1000 900 2 (1 / 5) (1 / 20) (1 / 20) 2 None
    = Return (embed_lattices L) /\
    up_factor (1 / 5) (2 / 2) * (1 / up_factor (1 / 5) (2 / 2)) = 1 /\
    cell (out_A L) 0 0 = 1000 /\
    (forall i j : nat, (Z.of_nat i <= 2)%Z -> (Z.of_nat j + 1 <= 2)%Z ->
       cell (out_A L) i (j + 1) = cell (out_A L) i j * up_factor (1 / 5) (2 / 2)) /\
    (forall i j : nat, (Z.of_nat i + 1 <= 2)%Z -> (Z.of_nat j + 1 <= 2)%Z ->
       cell (out_A L) (i + 1) (j + 1)
       = cell (out_A L) i j * (1 / up_factor (1 / 5) (2 / 2))) /\
    (forall i j : nat, (Z.of_nat i + 1 <= 2)%Z -> (Z.of_nat j + 2 <= 2)%Z ->
       cell (out_A L) (i + 1) (j + 2) = cell (out_A L) i j).
Proof.
  apply (asset_lattice_recombines 1000 900 2 (1 / 5) (1 / 20) (1 / 20) 2 None).
  - lia.
  - lra.
Defined.

(** ** The auto-mode schedule *)

Lemma Rpower_pow_nat (a b : R) (t : nat) : Rpower a b ^ t = Rpower a (b * INR t).
Proof.
  rewrite <- Rpower_pow by apply exp_pos. apply Rpower_mult.
Qed.

Lemma auto_deltas_lookup (delta : R) (m t : nat) :
  (1 <= m)%nat -> 0 < delta -> (t <= m)%nat ->
  auto_deltas delta (Z.of_nat m) (seq 0 (S m)) !!! t
  = delta * Rpower (1 / delta) (INR t / IZR (Z.of_nat m)).
Proof.
  intros Hm Hdelta Ht. unfold auto_deltas.
  rewrite !bool_decide_eq_true_2 by (done || lia). cbn [andb].
  rewrite Nat2Z.id.
  assert (Hn : IZR (Z.of_nat m) <> 0) by (apply not_0_IZR; lia).
  destruct (decide (t = m)) as [-> | Hne].
  - rewrite list_lookup_total_insert_eq by (rewrite length_fmap, length_seq; lia).
    rewrite <- INR_IZR_INZ.
    replace (INR m / INR m) with 1 by (field; rewrite INR_IZR_INZ; done).
    rewrite Rpower_1 by (apply Rdiv_lt_0_compat; lra). field. lra.
  - rewrite list_lookup_total_insert_ne by done.
    rewrite (list_lookup_total_fmap _ (seq 0 (S m))) by (rewrite length_seq; lia).
    rewrite lookup_total_seq_lt by lia. cbn [Nat.add].
    replace (1 + (Rpower (1 / delta) (1 / IZR (Z.of_nat m)) - 1))
      with (Rpower (1 / delta) (1 / IZR (Z.of_nat m))) by ring.
    rewrite Rpower_pow_nat. do 2 f_equal. field. done.
Qed.

(** X4.  Auto mode with a positive scalar [delta] and [n >= 1] (no manual
    sequence of length [n]): the schedule is the geometric interpolation
    [deltas[t] = delta * (1/delta)^(t/n)] for every [t] in [0..n]; it starts
    at [delta] and ends at 1, so the forced terminal 1.0 is the value the
    formula gives anyway; and when [delta <= 1] it never decreases. *)
Theorem auto_schedule_interpolates (V K T sigma delta r : R) (n : Z)
    (deltas_manual : option (list R)) :
  (1 <= n)%Z -> 0 < delta ->
  (forall dm, deltas_manual = Some dm -> Z.of_nat (length dm) <> n) ->
  exists L,
    calculate_lattices V K T sigma delta r n deltas_manual = Return L /\
    (forall t : nat, (Z.of_nat t <= n)%Z ->
       out_deltas L !!! t = delta * Rpower (1 / delta) (INR t / IZR n)) /\
    out_deltas L !!! 0%nat = delta /\
    out_deltas L !!! Z.to_nat n = 1 /\
    (delta <= 1 ->
     forall t s : nat, (t <= s)%nat -> (Z.of_nat s <= n)%Z ->
       out_deltas L !!! t <= out_deltas L !!! s).
Proof.
  intros Hn Hdelta Hdm.
  destruct (calculate_lattices_deltas V K T sigma delta r n deltas_manual)
    as (L & HL & Hd); [lia |].
  exists L. split; [done |].
  assert (Hauto : out_deltas L
                  = auto_deltas delta (Z.of_nat (Z.to_nat n)) (seq 0 (S (Z.to_nat n)))).
  { rewrite Hd. rewrite <- range_succ. rewrite Z2Nat.id by lia.
    unfold delay_schedule. destruct deltas_manual as [dm |]; [| done].
    by rewrite bool_decide_eq_false_2 by (by apply Hdm). }
  assert (Hlk : forall t : nat, (Z.of_nat t <= n)%Z ->
            out_deltas L !!! t = delta * Rpower (1 / delta) (INR t / IZR n)).
  { intros t Ht. rewrite Hauto, auto_deltas_lookup by (done || lia).
    by rewrite Z2Nat.id by lia. }
  assert (Hn0 : IZR n <> 0) by (apply not_0_IZR; lia).
  assert (Hnpos : 0 < IZR n) by (apply IZR_lt; lia).
  split; [done |]. split; [| split].
  - rewrite Hlk by lia. cbn [INR].
    replace (0 / IZR n) with 0 by (field; done).
    rewrite Rpower_O by (apply Rdiv_lt_0_compat; lra). ring.
  - rewrite Hlk by lia. rewrite INR_IZR_INZ, Z2Nat.id by lia.
    replace (IZR n / IZR n) with 1 by (field; done).
    rewrite Rpower_1 by (apply Rdiv_lt_0_compat; lra). field. lra.
  - intros Hle t s Hts Hs. rewrite !Hlk by lia.
    apply Rmult_le_compat_l; [lra |].
    apply Rle_Rpower.
    + apply Rmult_le_reg_r with delta; [done |]. field_simplify; lra.
    + apply Rmult_le_compat_r; [left; by apply Rinv_0_lt_compat |].
      by apply le_INR.
Qed.

Lemma auto_schedule_interpolates_witness :
  exists L,
    calculate_lattices 1000 900 2 (1 / 5) (1 / 4) (1 / 20) 2 None = Return L /\
    (forall t : nat, (Z.of_nat t <= 2)%Z ->
       out_deltas L !!! t = 1 / 4 * Rpower (1 / (1 / 4)) (INR t / 2)) /\
    out_deltas L !!! 0%nat = 1 / 4 /\
    out_deltas L !!! Z.to_nat 2 = 1 /\
    (1 / 4 <= 1 ->
     forall t s : nat, (t <= s)%nat -> (Z.of_nat s <= 2)%Z ->
       out_deltas L !!! t <= out_deltas L !!! s).
Proof.
  apply (auto_schedule_interpolates 1000 900 2 (1 / 5) (1 / 4) (1 / 20) 2 None).
  - lia.
  - lra.
  - discriminate.
Defined.

(** ** When the probabilities are probabilities *)

Lemma exp_le_iff (a b : R) : exp a <= exp b <-> a <= b.
Proof.
  split; intros H.
  - destruct (Rle_lt_dec a b) as [Hab | Hab]; [done |].
    apply exp_increasing in Hab. lra.
  - destruct H as [H | ->]; [left; by apply exp_increasing | lra].
Qed.

Lemma unit_fraction_iff (a c : R) : 0 < c -> (0 <= a / c <= 1 <-> 0 <= a <= c).
Proof.
  intros Hc. assert (Hinv : 0 < / c) by by apply Rinv_0_lt_compat.
  assert (Hac : a = a / c * c) by (field; lra).
  unfold Rdiv in *. split; intros [H1 H2]; split; nra.
Qed.

Lemma down_factor_exp (sigma dt : R) : 1 / up_factor sigma dt = exp (- (sigma * sqrt dt)).
Proof. unfold up_factor. rewrite exp_Ropp. lra. Qed.

Lemma probabilities_lookup (r dt u d : R) (deltas : list R) (m t : nat) :
  (t <= m)%nat ->
  probabilities r dt u d deltas (seq 0 (S m)) !!! t
  = if decide (u = d) then 0 else (exp ((r - deltas !!! t) * dt) - d) / (u - d).
Proof.
  intros Ht. unfold probabilities.
  rewrite (list_lookup_total_fmap _ (seq 0 (S m))) by (rewrite length_seq; lia).
  by rewrite lookup_total_seq_lt by lia.
Qed.

(** X5.  For [n >= 1], [sigma > 0] and [T > 0] the entry [p[t]] of the
    probability schedule lies in [0, 1] exactly when the drift of period
    [t] stays within one volatility step:
    [-sigma*sqrt(dt) <= (r - deltas[t])*dt <= sigma*sqrt(dt)]. *)
Theorem probability_valid_iff (V K T sigma delta r : R) (n : Z)
    (deltas_manual : option (list R)) :
  (1 <= n)%Z -> 0 < sigma -> 0 < T ->
  let dt := T / IZR n in
  exists L,
    calculate_lattices V K T sigma delta r n deltas_manual = Return L /\
    forall t : nat, (Z.of_nat t <= n)%Z ->
      0 <= out_ps_for_export L !!! t <= 1
      <-> - (sigma * sqrt dt) <= (r - out_deltas L !!! t) * dt <= sigma * sqrt dt.
Proof.
  intros Hn Hsigma HT dt.
  destruct (calculate_lattices_cells V K T sigma delta r (Z.to_nat n) deltas_manual)
    as (L & HL & _ & _ & Hp & _); [lia |].
  rewrite Z2Nat.id in HL, Hp by lia. fold dt in Hp.
  exists L. split; [done |]. intros t Ht.
  assert (Hdt : 0 < dt).
  { apply Rdiv_lt_0_compat; [done | apply IZR_lt; lia]. }
  assert (Hx : 0 < sigma * sqrt dt).
  { apply Rmult_lt_0_compat; [done | by apply sqrt_lt_R0]. }
  rewrite Hp, probabilities_lookup by lia.
  rewrite down_factor_exp. unfold up_factor.
  assert (Hud : exp (- (sigma * sqrt dt)) < exp (sigma * sqrt dt)).
  { apply exp_increasing. lra. }
  rewrite decide_False by lra.
  rewrite unit_fraction_iff by lra.
  rewrite <- (exp_le_iff (- (sigma * sqrt dt))).
  rewrite <- (exp_le_iff _ (sigma * sqrt dt)).
  split; intros [H1 H2]; split; lra.
Qed.

Lemma probability_valid_iff_witness :
  exists L,
    calculate_lattices 1000 900 2 (1 / 5) (1 / 20) (1 / 20) 2 None = Return L /\
    forall t : nat, (Z.of_nat t <= 2)%Z ->
      0 <= out_ps_for_export L !!! t <= 1
      <-> - (1 / 5 * sqrt (2 / 2)) <= (1 / 20 - out_deltas L !!! t) * (2 / 2)
          <= 1 / 5 * sqrt (2 / 2).
Proof.
  apply (probability_valid_iff 1000 900 2 (1 / 5) (1 / 20) (1 / 20) 2 None).
  - lia.
  - lra.
  - lra.
Defined.

(** ** Zero volatility *)

(** X6.  With [sigma = 0], [n >= 1], [T >= 0] and [r >= 0]: every entry of
    the asset lattice is [V], every probability is the fallback 0, and
    every node [i <= j] of the option lattice, the root included, is worth
    [max(V - K, 0)]: waiting adds nothing. *)
Theorem zero_volatility_value (V K T delta r : R) (n : Z)
    (deltas_manual : option (list R)) :
  (1 <= n)%Z -> 0 <= T -> 0 <= r ->
  exists L,
    calculate_lattices V K T 0 delta r n deltas_manual = Return L /\
    (forall i j : nat, (Z.of_nat i <= n)%Z -> (Z.of_nat j <= n)%Z ->
       cell (out_A L) i j = V) /\
    (forall t : nat, (Z.of_nat t <= n)%Z -> out_ps_for_export L !!! t = 0) /\
    (forall i j : nat, (i <= j)%nat -> (Z.of_nat j <= n)%Z ->
       cell (out_C L) i j = Rmax (V - K) 0).
Proof.
  intros Hn HT Hr.
  destruct (calculate_lattices_cells V K T 0 delta r (Z.to_nat n) deltas_manual)
    as (L & HL & _ & _ & Hp & _ & _ & _ & HA & HN & Hterm & Hrec & _); [lia |].
  rewrite Z2Nat.id in HL, HA, Hp, Hrec by lia.
  rewrite up_factor_zero_sigma in HA, Hp.
  exists L. split; [done |].
  assert (HA' : forall i j : nat, (Z.of_nat i <= n)%Z -> (Z.of_nat j <= n)%Z ->
            cell (out_A L) i j = V).
  { intros i j Hi Hj. rewrite HA by lia.
    replace (1 / 1) with 1 by lra. rewrite powerRZ_R1, pow1. ring. }
  assert (Hps : forall t : nat, (Z.of_nat t <= n)%Z -> out_ps_for_export L !!! t = 0).
  { intros t Ht. rewrite Hp, probabilities_lookup by lia.
    rewrite decide_True by lra. done. }
  split; [done |]. split; [done |].
  assert (HN' : forall i j : nat, (Z.of_nat i <= n)%Z -> (Z.of_nat j <= n)%Z ->
            cell (out_N L) i j = Rmax (V - K) 0).
  { intros i j Hi Hj. rewrite HN, HA' by lia. apply py_max_Rmax. }
  assert (Hdisc : discount_factor r (T / IZR n) <= 1).
  { unfold discount_factor. rewrite <- exp_0. apply exp_le_iff.
    assert (0 <= T / IZR n).
    { apply Rmult_le_pos; [done |]. left. apply Rinv_0_lt_compat, IZR_lt. lia. }
    nra. }
  assert (Hdpos : 0 < discount_factor r (T / IZR n)) by apply discount_factor_pos.
  assert (Hall : forall k i : nat, (k <= Z.to_nat n)%nat -> (i <= Z.to_nat n - k)%nat ->
            cell (out_C L) i (Z.to_nat n - k) = Rmax (V - K) 0).
  { induction k as [| k IH]; intros i Hk Hi.
    - rewrite Nat.sub_0_r in *. rewrite Hterm by lia. apply HN'; lia.
    - rewrite Hrec by lia. rewrite Hps by lia.
      replace (Z.to_nat n - S k + 1)%nat with (Z.to_nat n - k)%nat by lia.
      rewrite !IH, HN' by lia.
      pose proof (Rmax_r (V - K) 0).
      apply py_max_right. nra. }
  intros i j Hij Hj.
  replace j with (Z.to_nat n - (Z.to_nat n - j))%nat by lia.
  apply Hall; lia.
Qed.

Lemma zero_volatility_value_witness :
  exists L,
    calculate_lattices 1000 900 3 0 (1 / 20) (1 / 20) 3 None = Return L /\
    (forall i j : nat, (Z.of_nat i <= 3)%Z -> (Z.of_nat j <= 3)%Z ->
       cell (out_A L) i j = 1000) /\
    (forall t : nat, (Z.of_nat t <= 3)%Z -> out_ps_for_export L !!! t = 0) /\
    (forall i j : nat, (i <= j)%nat -> (Z.of_nat j <= 3)%Z ->
       cell (out_C L) i j = Rmax (1000 - 900) 0).
Proof.
  apply (zero_volatility_value 1000 900 3 (1 / 20) (1 / 20) 3 None).
  - lia.
  - lra.
  - lra.
Defined.

(** ** Scaling of the currency unit *)

Lemma py_max_scale (c a b : R) : 0 <= c -> py_max (c * a) (c * b) = c * py_max a b.
Proof. intros Hc. rewrite !py_max_Rmax. by apply RmaxRmult. Qed.

(** X7.  For [n >= 1] and a factor [c >= 0], multiplying both the asset
    value and the exercise cost by [c] leaves the two schedules unchanged
    and multiplies every entry of the three lattices by [c].  So the
    route's conversion to units and back (times 1000, then divided by 1000)
    does not change the reported option value. *)
Theorem lattices_scale_with_currency (c V K T sigma delta r : R) (n : Z)
    (deltas_manual : option (list R)) :
  (1 <= n)%Z -> 0 <= c ->
  exists L L',
    calculate_lattices V K T sigma delta r n deltas_manual = Return L /\
    calculate_lattices (c * V) (c * K) T sigma delta r n deltas_manual = Return L' /\
    out_deltas L' = out_deltas L /\
    out_ps_for_export L' = out_ps_for_export L /\
    forall i j : nat, (Z.of_nat i <= n)%Z -> (Z.of_nat j <= n)%Z ->
      cell (out_A L') i j = c * cell (out_A L) i j /\
      cell (out_N L') i j = c * cell (out_N L) i j /\
      cell (out_C L') i j = c * cell (out_C L) i j.
Proof.
  intros Hn Hc.
  destruct (calculate_lattices_cells V K T sigma delta r (Z.to_nat n) deltas_manual)
    as (L & HL & _ & Hd & Hp & _ & _ & _ & HA & HN & Hterm & Hrec & Hzero); [lia |].
  destruct (calculate_lattices_cells (c * V) (c * K) T sigma delta r (Z.to_nat n)
              deltas_manual)
    as (L' & HL' & _ & Hd' & Hp' & _ & _ & _ & HA' & HN' & Hterm' & Hrec' & Hzero');
    [lia |].
  rewrite Z2Nat.id in HL, HL' by lia.
  exists L, L'. split; [done |]. split; [done |].
  assert (Hdeltas : out_deltas L' = out_deltas L) by by rewrite Hd, Hd'.
  assert (Hps : out_ps_for_export L' = out_ps_for_export L)
    by by rewrite Hp, Hp', Hdeltas.
  split; [done |]. split; [done |].
  set (m := Z.to_nat n) in *.
  assert (HAs : forall i j : nat, (i <= m)%nat -> (j <= m)%nat ->
            cell (out_A L') i j = c * cell (out_A L) i j).
  { intros i j Hi Hj. rewrite HA, HA' by done. ring. }
  assert (HNs : forall i j : nat, (i <= m)%nat -> (j <= m)%nat ->
            cell (out_N L') i j = c * cell (out_N L) i j).
  { intros i j Hi Hj. rewrite HN, HN', HAs by done.
    replace (c * cell (out_A L) i j - c * K) with (c * (cell (out_A L) i j - K)) by ring.
    replace 0 with (c * 0) at 1 by ring. by apply py_max_scale. }
  assert (HCs : forall k i : nat, (k <= m)%nat -> (i <= m - k)%nat ->
            cell (out_C L') i (m - k) = c * cell (out_C L) i (m - k)).
  { induction k as [| k IH]; intros i Hk Hi.
    - rewrite Nat.sub_0_r in *. rewrite Hterm, Hterm' by done. by apply HNs.
    - rewrite Hrec, Hrec' by lia. rewrite Hps.
      replace (m - S k + 1)%nat with (m - k)%nat by lia.
      rewrite !IH, HNs by lia.
      rewrite <- py_max_scale by done. f_equal. ring. }
  intros i j Hi Hj. split; [apply HAs; lia |]. split; [apply HNs; lia |].
  destruct (decide (i <= j)%nat) as [Hij | Hij].
  - replace j with (m - (m - j))%nat by lia. apply HCs; lia.
  - rewrite Hzero, Hzero' by lia. ring.
Qed.

Lemma lattices_scale_with_currency_witness :
  exists L L',
    calculate_lattices 1000 900 2 (1 / 5) (1 / 20) (1 / 20) 2 None = Return L /\
    calculate_lattices (1000 * 1000) (1000 * 900) 2 (1 / 5) (1 / 20) (1 / 20) 2 None
    = Return L' /\
    out_deltas L' = out_deltas L /\
    out_ps_for_export L' = out_ps_for_export L /\
    forall i j : nat, (Z.of_nat i <= 2)%Z -> (Z.of_nat j <= 2)%Z ->
      cell (out_A L') i j = 1000 * cell (out_A L) i j /\
      cell (out_N L') i j = 1000 * cell (out_N L) i j /\
      cell (out_C L') i j = 1000 * cell (out_C L) i j.
Proof.
  apply (lattices_scale_with_currency 1000 1000 900 2 (1 / 5) (1 / 20) (1 / 20) 2 None).
  - lia.
  - lra.
Defined.

(** ** Risk-neutral probabilities *)

Lemma binomial_parameters_unfold (sigma r delta dt : R) :
  sigma * sqrt dt <> 0 ->
  let u := exp (sigma * sqrt dt) in
  let d := 1 / u in
  let p := (exp ((r - delta) * dt) - d) / (u - d) in
  p * u + (1 - p) * d = exp ((r - delta) * dt) /\ u <> d.
Proof.
  intros Hx u d p.
  assert (Hu : 0 < u) by apply exp_pos.
  assert (Hud : u <> d).
  { intros Heq. apply Hx.
    assert (Hexp : exp (sigma * sqrt dt) = exp (- (sigma * sqrt dt))).
    { rewrite exp_Ropp. fold u. subst d. lra. }
    apply exp_inv in Hexp. lra. }
  split; [| done]. subst p. field. lra.
Qed.

(** X8.  [binomial_parameters]: whenever [sigma * sqrt(dt)] is not 0, the
    returned factors satisfy [u * d = 1] and [u <> d], and the returned
    probability makes the expected one-period growth of the asset equal to
    the cost of carry: [p*u + (1-p)*d = exp((r - delta)*dt)]. *)
Theorem binomial_parameters_risk_neutral (sigma r delta dt : R) :
  sigma * sqrt dt <> 0 ->
  let '(u, d, p) := binomial_parameters sigma r delta dt in
  u * d = 1 /\ u <> d /\ p * u + (1 - p) * d = exp ((r - delta) * dt).
Proof.
  intros Hx. unfold binomial_parameters.
  destruct (binomial_parameters_unfold sigma r delta dt Hx) as [Hmart Hud].
  cbv zeta in Hmart, Hud.
  pose proof (exp_pos (sigma * sqrt dt)).
  split; [field; lra |]. split; done.
Qed.

Lemma binomial_parameters_risk_neutral_witness :
  let '(u, d, p) := binomial_parameters (1 / 5) (1 / 20) (1 / 50) 1 in
  u * d = 1 /\ u <> d /\ p * u + (1 - p) * d = exp ((1 / 20 - 1 / 50) * 1).
Proof.
  apply (binomial_parameters_risk_neutral (1 / 5) (1 / 20) (1 / 50) 1).
  rewrite sqrt_1. lra.
Defined.

(** X9.  For [n >= 1], [sigma <> 0] and [T > 0], [calculate_lattices]
    uses at period [t] the probability that [binomial_parameters] returns
    for the cost of delay [deltas[t]]; hence on the asset lattice the
    probability-weighted successors of a node are the node grown at the
    rate [r - deltas[j]]:
    [p[j]*A[i][j+1] + (1-p[j])*A[i+1][j+1] = exp((r-deltas[j])*dt) * A[i][j]]. *)
Theorem lattice_probabilities_risk_neutral (V K T sigma delta r : R) (n : Z)
    (deltas_manual : option (list R)) :
  (1 <= n)%Z -> sigma <> 0 -> 0 < T ->
  let dt := T / IZR n in
  exists L,
    calculate_lattices V K T sigma delta r n deltas_manual = Return L /\
    (forall t : nat, (Z.of_nat t <= n)%Z ->
       out_ps_for_export L !!! t
       = (binomial_parameters sigma r (out_deltas L !!! t) dt).2) /\
    (forall i j : nat, (Z.of_nat i + 1 <= n)%Z -> (Z.of_nat j + 1 <= n)%Z ->
       out_ps_for_export L !!! j * cell (out_A L) i (j + 1)
       + (1 - out_ps_for_export L !!! j) * cell (out_A L) (i + 1) (j + 1)
       = exp ((r - out_deltas L !!! j) * dt) * cell (out_A L) i j).
Proof.
  intros Hn Hsigma HT dt.
  destruct (calculate_lattices_cells V K T sigma delta r (Z.to_nat n) deltas_manual)
    as (L & HL & _ & _ & Hp & _ & _ & _ & HA & _); [lia |].
  rewrite Z2Nat.id in HL, Hp, HA by lia. fold dt in Hp, HA.
  exists L. split; [done |].
  assert (Hdt : 0 < dt).
  { apply Rdiv_lt_0_compat; [done | apply IZR_lt; lia]. }
  assert (Hx : sigma * sqrt dt <> 0).
  { apply Rmult_integral_contrapositive_currified; [done |].
    pose proof (sqrt_lt_R0 dt Hdt). lra. }
  assert (Hps : forall t : nat, (Z.of_nat t <= n)%Z ->
            out_ps_for_export L !!! t
            = (binomial_parameters sigma r (out_deltas L !!! t) dt).2).
  { intros t Ht. rewrite Hp, probabilities_lookup by lia.
    pose proof (binomial_parameters_unfold sigma r (out_deltas L !!! t) dt) as [_ Hne];
      [done |].
    unfold binomial_parameters, up_factor in *. cbn [snd].
    by rewrite decide_False by done. }
  split; [done |]. intros i j Hi Hj.
  rewrite Hps by lia.
  pose proof (binomial_parameters_unfold sigma r (out_deltas L !!! j) dt Hx)
    as [Hmart _].
  unfold binomial_parameters, up_factor in *. cbn [snd] in *.
  set (u := exp (sigma * sqrt dt)) in *.
  set (p := (exp ((r - out_deltas L !!! j) * dt) - 1 / u) / (u - 1 / u)) in *.
  assert (Hu : 0 < u) by apply exp_pos.
  rewrite !HA by lia.
  replace (Z.of_nat (j + 1) - Z.of_nat i)%Z with ((Z.of_nat j - Z.of_nat i) + 1)%Z
    by lia.
  replace (Z.of_nat (j + 1) - Z.of_nat (i + 1))%Z with (Z.of_nat j - Z.of_nat i)%Z
    by lia.
  rewrite powerRZ_add by lra. rewrite powerRZ_1.
  replace (i + 1)%nat with (S i) by lia. cbn [pow].
  rewrite <- Hmart. ring.
Qed.

(** ** Length of a period *)

(** X10.  For a time to maturity [T >= 0] the route uses at least one
    period and the period length [dt = T/n] is below 2; it is at least 1
    when [T >= 1], and it is [T] itself when [T < 1]. *)
Theorem period_length_bounds (T : R) :
  0 <= T ->
  let n := period_count T in
  (1 <= n)%Z /\ n = Z.max 1 (floor T) /\ T / IZR n < 2 /\
  (1 <= T -> 1 <= T / IZR n) /\ (T < 1 -> T / IZR n = T).
Proof.
  intros HT n.
  assert (Hn : n = Z.max 1 (floor T)) by (apply period_count_floor; lra).
  destruct (py_int_nonneg T HT) as [_ Hf].
  destruct (Int_part_bounds T) as [Hlo Hhi]. fold (floor T) in Hlo, Hhi.
  destruct (decide (floor T = 0%Z)) as [H0 | H0].
  - assert (Hn1 : n = 1%Z) by lia. rewrite H0 in Hhi. rewrite Hn1.
    split; [lia |]. split; [lia |].
    replace (T / 1) with T by field. repeat split; lra.
  - assert (Hnf : n = floor T) by lia. rewrite Hnf.
    assert (H1 : 1 <= IZR (floor T)) by (apply IZR_le; lia).
    split; [lia |]. split; [lia |].
    assert (Hinv : 0 < / IZR (floor T)) by (apply Rinv_0_lt_compat; lra).
    assert (Hone : IZR (floor T) * / IZR (floor T) = 1) by (field; lra).
    unfold Rdiv. repeat split; intros; nra.
Qed.

Lemma period_length_bounds_witness :
  (1 <= period_count (5 / 2))%Z /\
  period_count (5 / 2) = Z.max 1 (floor (5 / 2)) /\
  5 / 2 / IZR (period_count (5 / 2)) < 2 /\
  (1 <= 5 / 2 -> 1 <= 5 / 2 / IZR (period_count (5 / 2))) /\
  (5 / 2 < 1 -> 5 / 2 / IZR (period_count (5 / 2)) = 5 / 2).
Proof. apply (period_length_bounds (5 / 2)). lra. Defined.

(** * Further properties of the sensitivity analysis *)

Lemma perturbed_C0_cases (V K T sigma delta r : R) (n : Z) (f : R) :
  perturbed_C0 V K T sigma delta r n "Asset Value (V)" f
  = get_C0 (V * f) K T sigma delta r (PyInt n) /\
  perturbed_C0 V K T sigma delta r n "Volatility" f
  = get_C0 V K T (sigma * f) delta r (PyInt n) /\
  perturbed_C0 V K T sigma delta r n "Time to Maturity (T)" f
  = get_C0 V K (T * f) sigma delta r (PyFloat (T * f)) /\
  perturbed_C0 V K T sigma delta r n "Exercise Cost (K)" f
  = get_C0 V (K * f) T sigma delta r (PyInt n) /\
  perturbed_C0 V K T sigma delta r n "Cost of Delay" f
  = get_C0 V K T sigma (delta * f) r (PyInt n) /\
  perturbed_C0 V K T sigma delta r n "Risk-free Rate (r)" f
  = get_C0 V K T sigma delta (r * f) (PyInt n).
Proof.
  unfold perturbed_C0.
  repeat split; repeat (case_decide; [try discriminate | try done]); done.
Qed.

Lemma tornado_step_explicit (V K T sigma delta r : R) (n : Z) (base : R)
    (td : list (string * tornado_entry)) (sd : list (string * R))
    (name : string) (bv : R) (c1 c2 : lattice_call) (lo hi : R) :
  perturbed_C0 V K T sigma delta r n name (9 / 10) = ([c1], Return lo) ->
  perturbed_C0 V K T sigma delta r n name (11 / 10) = ([c2], Return hi) ->
  tornado_step V K T sigma delta r n base (td, sd) (name, bv)
  = ([c1; c2],
     Return (dict_set name (TornadoEntry (py_min lo hi) (py_max lo hi) base) td,
             dict_set name (spider_value base (py_min lo hi) (py_max lo hi)) sd)).
Proof.
  intros H1 H2. unfold tornado_step. cbn [fst mapM]. rewrite H1, H2.
  cbn [mbind traced_bind mret traced_ret app py_min_list py_max_list lift foldl].
  rewrite spider_percent_return. reflexivity.
Qed.

(** The whole run, written out. *)
Lemma calculate_sensitivity_data_explicit (bp : base_params) (n : Z) :
  let V := bp_V_calc bp in
  let K := bp_K_calc bp in
  let T := bp_T bp in
  let sigma := bp_sigma bp in
  let delta := bp_delta_val bp in
  let r := bp_r bp in
  let rng := linspace (sigma * (1 / 2)) (sigma * (3 / 2)) 7 in
  let base := point_value V K T sigma delta r in
  let entry := fun lo hi : R => TornadoEntry (py_min lo hi) (py_max lo hi) base in
  let pct := fun lo hi : R => spider_value base (py_min lo hi) (py_max lo hi) in
  let lV := point_value (V * (9 / 10)) K T sigma delta r in
  let hV := point_value (V * (11 / 10)) K T sigma delta r in
  let ls := point_value V K T (sigma * (9 / 10)) delta r in
  let hs := point_value V K T (sigma * (11 / 10)) delta r in
  let lT := point_value V K (T * (9 / 10)) sigma delta r in
  let hT := point_value V K (T * (11 / 10)) sigma delta r in
  let lK := point_value V (K * (9 / 10)) T sigma delta r in
  let hK := point_value V (K * (11 / 10)) T sigma delta r in
  let ld := point_value V K T sigma (delta * (9 / 10)) r in
  let hd := point_value V K T sigma (delta * (11 / 10)) r in
  let lr := point_value V K T sigma delta (r * (9 / 10)) in
  let hr := point_value V K T sigma delta (r * (11 / 10)) in
  calculate_sensitivity_data bp n
  = (point_call V K T sigma delta r
     :: [point_call (V * (9 / 10)) K T sigma delta r;
         point_call (V * (11 / 10)) K T sigma delta r;
         point_call V K T (sigma * (9 / 10)) delta r;
         point_call V K T (sigma * (11 / 10)) delta r;
         point_call V K (T * (9 / 10)) sigma delta r;
         point_call V K (T * (11 / 10)) sigma delta r;
         point_call V (K * (9 / 10)) T sigma delta r;
         point_call V (K * (11 / 10)) T sigma delta r;
         point_call V K T sigma (delta * (9 / 10)) r;
         point_call V K T sigma (delta * (11 / 10)) r;
         point_call V K T sigma delta (r * (9 / 10));
         point_call V K T sigma delta (r * (11 / 10))]
     ++ concat ((fun f => (fun s => point_call (V * f) K T s delta r) <$> rng)
                  <$> [8 / 10; 1; 12 / 10])
     ++ concat ((fun f => (fun s => point_call V K T s (delta * f) r) <$> rng)
                  <$> [1 / 2; 1; 3 / 2]),
     Return
       (Sensitivity
          [("Asset Value (V)"%string, entry lV hV); ("Volatility"%string, entry ls hs);
           ("Time to Maturity (T)"%string, entry lT hT);
           ("Exercise Cost (K)"%string, entry lK hK);
           ("Cost of Delay"%string, entry ld hd);
           ("Risk-free Rate (r)"%string, entry lr hr)]
          [("Asset Value (V)"%string, pct lV hV); ("Volatility"%string, pct ls hs);
           ("Time to Maturity (T)"%string, pct lT hT);
           ("Exercise Cost (K)"%string, pct lK hK);
           ("Cost of Delay"%string, pct ld hd);
           ("Risk-free Rate (r)"%string, pct lr hr)]
          (LineChart ((fun s => py_round_ndigits s 3) <$> rng)
             (foldl (fun acc f =>
                       dict_set (py_round (V * f / 1000))
                         ((fun s => py_round_ndigits
                                      (point_value (V * f) K T s delta r) 2) <$> rng)
                         acc)
                    [] [8 / 10; 1; 12 / 10]))
          (LineChart ((fun s => py_round_ndigits s 3) <$> rng)
             (foldl (fun acc f =>
                       dict_set (py_round_ndigits (delta * f * 100) 1)
                         ((fun s => py_round_ndigits
                                      (point_value V K T s (delta * f) r) 2) <$> rng)
                         acc)
                    [] [1 / 2; 1; 3 / 2]))
          base)).
Proof.
  intros V K T sigma delta r rng base entry pct lV hV ls hs lT hT lK hK ld hd lr hr.
  destruct (perturbed_C0_cases V K T sigma delta r n (9 / 10))
    as (P1 & P2 & P3 & P4 & P5 & P6).
  destruct (perturbed_C0_cases V K T sigma delta r n (11 / 10))
    as (Q1 & Q2 & Q3 & Q4 & Q5 & Q6).
  rewrite get_C0_run in P1, P2, P3, P4, P5, P6, Q1, Q2, Q3, Q4, Q5, Q6.
  eassert (Hrun : calculate_sensitivity_data bp n = (_, _)).
  {
    unfold calculate_sensitivity_data.
    fold V K T sigma delta r. cbv zeta. fold rng.
    eapply traced_bind_run; [apply get_C0_run |]. fold base.
    eapply traced_bind_run.
    { cbn [foldlM params_to_test].
      eapply traced_bind_run; [apply (tornado_step_explicit _ _ _ _ _ _ _ _ _ _ _ _ _ _ _ _ P1 Q1) |].
      eapply traced_bind_run; [apply (tornado_step_explicit _ _ _ _ _ _ _ _ _ _ _ _ _ _ _ _ P2 Q2) |].
      eapply traced_bind_run; [apply (tornado_step_explicit _ _ _ _ _ _ _ _ _ _ _ _ _ _ _ _ P3 Q3) |].
      eapply traced_bind_run; [apply (tornado_step_explicit _ _ _ _ _ _ _ _ _ _ _ _ _ _ _ _ P4 Q4) |].
      eapply traced_bind_run; [apply (tornado_step_explicit _ _ _ _ _ _ _ _ _ _ _ _ _ _ _ _ P5 Q5) |].
      eapply traced_bind_run; [apply (tornado_step_explicit _ _ _ _ _ _ _ _ _ _ _ _ _ _ _ _ P6 Q6) |].
      reflexivity. }
    cbv beta iota.
    repeat (rewrite dict_set_fresh;
            [| cbn [app fmap list_fmap fst]; rewrite ?elem_of_cons, elem_of_nil;
               intros Hk; repeat destruct Hk as [Hk | Hk]; done]).
    cbn [app].
    eapply traced_bind_run.
    { apply (foldlM_traced _
               (fun f => (fun s => point_call (V * f) K T s delta r) <$> rng)
               (fun acc f =>
                  dict_set (py_round (V * f / 1000))
                    ((fun s => py_round_ndigits
                                 (point_value (V * f) K T s delta r) 2) <$> rng) acc)).
      intros acc f.
      apply (chart_step_run (fun factor => py_round (V * factor / 1000)) _
               (fun f s => point_call (V * f) K T s delta r)
               (fun f s => point_value (V * f) K T s delta r)).
      intros f' s. apply get_C0_run. }
    eapply traced_bind_run.
    { apply (foldlM_traced _
               (fun f => (fun s => point_call V K T s (delta * f) r) <$> rng)
               (fun acc f =>
                  dict_set (py_round_ndigits (delta * f * 100) 1)
                    ((fun s => py_round_ndigits
                                 (point_value V K T s (delta * f) r) 2) <$> rng) acc)).
      intros acc f.
      apply (chart_step_run
               (fun factor => py_round_ndigits (delta * factor * 100) 1) _
               (fun f s => point_call V K T s (delta * f) r)
               (fun f s => point_value V K T s (delta * f) r)).
      intros f' s. apply get_C0_run. }
    reflexivity.
  }
  by rewrite Hrun.
Qed.

(** X11.  [calculate_sensitivity_data] makes exactly 55 valuations, in this
    order: the base parameters; for each of V, sigma, T, K, delta and r in
    turn, that parameter alone multiplied by 0.9 and then by 1.1; for each
    asset factor 0.8, 1.0, 1.2 the seven volatilities of the sweep; for
    each delay factor 0.5, 1.0, 1.5 the same seven volatilities.  None of
    them is given a manual cost-of-delay sequence. *)
Theorem sensitivity_evaluation_plan (bp : base_params) (n : Z) :
  let V := bp_V_calc bp in
  let K := bp_K_calc bp in
  let T := bp_T bp in
  let sigma := bp_sigma bp in
  let delta := bp_delta_val bp in
  let r := bp_r bp in
  let rng := linspace (sigma * (1 / 2)) (sigma * (3 / 2)) 7 in
  let tr := (calculate_sensitivity_data bp n).1 in
  tr = point_call V K T sigma delta r
       :: [point_call (V * (9 / 10)) K T sigma delta r;
           point_call (V * (11 / 10)) K T sigma delta r;
           point_call V K T (sigma * (9 / 10)) delta r;
           point_call V K T (sigma * (11 / 10)) delta r;
           point_call V K (T * (9 / 10)) sigma delta r;
           point_call V K (T * (11 / 10)) sigma delta r;
           point_call V (K * (9 / 10)) T sigma delta r;
           point_call V (K * (11 / 10)) T sigma delta r;
           point_call V K T sigma (delta * (9 / 10)) r;
           point_call V K T sigma (delta * (11 / 10)) r;
           point_call V K T sigma delta (r * (9 / 10));
           point_call V K T sigma delta (r * (11 / 10))]
       ++ concat ((fun f => (fun s => point_call (V * f) K T s delta r) <$> rng)
                    <$> [8 / 10; 1; 12 / 10])
       ++ concat ((fun f => (fun s => point_call V K T s (delta * f) r) <$> rng)
                    <$> [1 / 2; 1; 3 / 2]) /\
  length tr = 55%nat /\
  Forall (fun c => call_deltas_manual c = None) tr.
Proof.
  intros V K T sigma delta r rng tr. subst tr.
  rewrite calculate_sensitivity_data_explicit. cbv zeta. cbn [fst].
  fold V K T sigma delta r. fold rng.
  split; [done |]. split.
  - cbn [length app fmap list_fmap concat].
    rewrite !length_app, !length_fmap. unfold rng. rewrite !length_linspace. done.
  - apply Forall_cons. split; [done |].
    apply Forall_app. split; [repeat (apply Forall_cons; split; [done |]); done |].
    cbn [fmap list_fmap concat]. rewrite !app_nil_r.
    repeat (apply Forall_app; split); apply Forall_fmap, Forall_forall; done.
Qed.

(** ** Signs of the sensitivity figures *)

Lemma point_value_nonneg (V K T sigma delta r : R) : 0 <= point_value V K T sigma delta r.
Proof.
  unfold point_value, run_call, point_call.
  cbn [call_V call_K call_T call_sigma call_delta call_r call_n call_deltas_manual].
  destruct (calculate_lattices_cells V K T sigma delta r
              (Z.to_nat (Z.max 1 (py_int T))) None)
    as (L & HL & _ & _ & _ & _ & _ & _ & _ & HN & _ & Hrec & _); [lia |].
  rewrite Z2Nat.id in HL by lia. rewrite HL.
  rewrite Hrec by lia. rewrite py_max_Rmax, HN by lia.
  pose proof (Rmax_r (discount_factor r (T / IZR (Z.of_nat (Z.to_nat (Z.max 1 (py_int T)))))
                      * (out_ps_for_export L !!! 0%nat * cell (out_C L) 0 (0 + 1)
                         + (1 - out_ps_for_export L !!! 0%nat)
                           * cell (out_C L) (0 + 1) (0 + 1)))
                     (py_max (cell (out_A L) 0 0 - K) 0)) as Hmax.
  pose proof (py_max_nonneg (cell (out_A L) 0 0 - K)). lra.
Qed.

Lemma round_half_even_nonneg (x : R) : 0 <= x -> (0 <= round_half_even x)%Z.
Proof.
  intros Hx. unfold round_half_even.
  destruct (py_int_nonneg x Hx) as [_ Hf]. unfold floor in Hf.
  repeat case_decide; try (destruct (Z.even _)); lia.
Qed.

Lemma py_round_ndigits_nonneg (x : R) (k : nat) : 0 <= x -> 0 <= py_round_ndigits x k.
Proof.
  intros Hx. unfold py_round_ndigits.
  assert (Hp : 0 < 10 ^ k) by (apply pow_lt; lra).
  apply Rmult_le_pos; [| left; by apply Rinv_0_lt_compat].
  apply IZR_le, round_half_even_nonneg. apply Rmult_le_pos; lra.
Qed.

Lemma spider_value_nonneg (base mn mx : R) : 0 <= base -> 0 <= spider_value base mn mx.
Proof.
  intros Hb. unfold spider_value. apply py_round_ndigits_nonneg.
  case_decide; [lra |].
  assert (Habs : 0 <= py_max (Rabs (mx - base)) (Rabs (mn - base))).
  { rewrite py_max_Rmax. eapply Rle_trans; [apply Rabs_pos | apply Rmax_l]. }
  assert (Hinv : 0 < / base) by (apply Rinv_0_lt_compat; lra).
  unfold Rdiv. apply Rmult_le_pos; [| lra]. apply Rmult_le_pos; lra.
Qed.

Lemma py_min_le_py_max (a b : R) : py_min a b <= py_max a b.
Proof. unfold py_min, py_max. repeat case_decide; lra. Qed.

Lemma py_min_nonneg (a b : R) : 0 <= a -> 0 <= b -> 0 <= py_min a b.
Proof. intros Ha Hb. unfold py_min. case_decide; lra. Qed.

Lemma dict_set_Forall {K V : Type} `{EqDecision K} (P : K * V -> Prop) (k : K) (v : V)
    (d : list (K * V)) :
  P (k, v) -> Forall P d -> Forall P (dict_set k v d).
Proof.
  intros Hkv Hd. induction Hd as [| [k' v'] d Hx Hd IH]; cbn [dict_set].
  - by apply Forall_cons.
  - case_decide; apply Forall_cons; done.
Qed.

Lemma chart_series_Forall {L : Type} `{EqDecision L} (P : L * list R -> Prop)
    (label : R -> L) (values : R -> list R) (factors : list R) :
  (forall f, P (label f, values f)) ->
  Forall P (foldl (fun acc f => dict_set (label f) (values f) acc) [] factors).
Proof.
  intros HP.
  assert (Hgen : forall acc, Forall P acc ->
            Forall P (foldl (fun acc f => dict_set (label f) (values f) acc) acc factors)).
  { induction factors as [| f fs IH]; intros acc Hacc; [done |].
    cbn [foldl]. apply IH. by apply dict_set_Forall. }
  by apply Hgen.
Qed.

Lemma point_call_nan_free (V K T sigma delta r : R) :
  0 <= T -> nan_free (point_call V K T sigma delta r).
Proof.
  intros HT. unfold nan_free, run_call, point_call.
  cbn [call_V call_K call_T call_sigma call_delta call_r call_n call_deltas_manual].
  apply calculate_lattices_refines, period_length_nonneg; [lia | done].
Qed.

(** X12.  For a maturity [T >= 0] and any other parameters, no valuation
    that [calculate_sensitivity_data] makes meets a NaN, and the figures it
    returns are never negative: the base option value, the [min] and [max]
    of every tornado entry (with [min <= max]), every spider percentage and
    every value of the two line charts. *)
Theorem sensitivity_figures_nonnegative (bp : base_params) (n : Z) :
  0 <= bp_T bp ->
  exists tr S,
    calculate_sensitivity_data bp n = (tr, Return S) /\
    Forall nan_free tr /\
    0 <= base_option_value S /\
    Forall (fun te : string * tornado_entry =>
              0 <= tornado_min te.2 <= tornado_max te.2) (tornado S) /\
    Forall (fun sp : string * R => 0 <= sp.2) (spider S) /\
    Forall (fun series : Z * list R => Forall (fun v => 0 <= v) series.2)
           (chart_data (line_chart_v_sigma S)) /\
    Forall (fun series : R * list R => Forall (fun v => 0 <= v) series.2)
           (chart_data (line_chart_delta_sigma S)).
Proof.
  intros HT.
  eexists _, _. split; [apply calculate_sensitivity_data_explicit |].
  cbn [base_option_value tornado spider line_chart_v_sigma line_chart_delta_sigma
       chart_data].
  assert (Hpv := point_value_nonneg).
  split.
  { apply Forall_cons. split; [by apply point_call_nan_free |].
    apply Forall_app. split.
    - repeat (apply Forall_cons; split; [apply point_call_nan_free; lra |]). done.
    - apply Forall_app; split; apply Forall_concat, Forall_fmap, Forall_forall;
        intros f _; cbv beta delta [compose]; apply Forall_fmap, Forall_forall;
        intros s _; by apply point_call_nan_free. }
  split; [apply Hpv |]. split; [| split; [| split]].
  - repeat (apply Forall_cons; split;
            [cbn [snd tornado_min tornado_max]; split;
             [apply py_min_nonneg; apply Hpv | apply py_min_le_py_max] |]).
    done.
  - repeat (apply Forall_cons; split;
            [cbn [snd]; apply spider_value_nonneg, Hpv |]).
    done.
  - apply (chart_series_Forall
             (fun series : Z * list R => Forall (fun v => 0 <= v) series.2)).
    intros f. cbn [snd]. apply Forall_fmap, Forall_forall. intros s _.
    apply py_round_ndigits_nonneg, Hpv.
  - apply (chart_series_Forall
             (fun series : R * list R => Forall (fun v => 0 <= v) series.2)).
    intros f. cbn [snd]. apply Forall_fmap, Forall_forall. intros s _.
    apply py_round_ndigits_nonneg, Hpv.
Qed.

Lemma sensitivity_figures_nonnegative_witness :
  let bp := BaseParams 1000000 900000 2 (1 / 5) (1 / 20) (1 / 20) (1 / 20) None in
  exists tr S,
    calculate_sensitivity_data bp 2 = (tr, Return S) /\
    Forall nan_free tr /\
    0 <= base_option_value S /\
    Forall (fun te : string * tornado_entry =>
              0 <= tornado_min te.2 <= tornado_max te.2) (tornado S) /\
    Forall (fun sp : string * R => 0 <= sp.2) (spider S) /\
    Forall (fun series : Z * list R => Forall (fun v => 0 <= v) series.2)
           (chart_data (line_chart_v_sigma S)) /\
    Forall (fun series : R * list R => Forall (fun v => 0 <= v) series.2)
           (chart_data (line_chart_delta_sigma S)).
Proof.
  apply (sensitivity_figures_nonnegative
           (BaseParams 1000000 900000 2 (1 / 5) (1 / 20) (1 / 20) (1 / 20) None) 2).
  cbn [bp_T]. lra.
Defined.

(** ** Shape of the line charts *)

Lemma linspace_7 (a b : R) :
  linspace a b 7
  = [a; (b - a) / 6 + a; 2 * ((b - a) / 6) + a; 3 * ((b - a) / 6) + a;
     4 * ((b - a) / 6) + a; 5 * ((b - a) / 6) + a; b].
Proof.
  unfold linspace. cbn [seq fmap list_fmap Nat.sub insert list_insert].
  cbn [INR]. repeat f_equal; lra.
Qed.

Lemma length_dict_set {K V : Type} `{EqDecision K} (k : K) (v : V) (d : list (K * V)) :
  (length d <= length (dict_set k v d) <= S (length d))%nat /\
  (1 <= length (dict_set k v d))%nat.
Proof.
  induction d as [| [k' v'] d IH]; cbn [dict_set length]; [lia |].
  case_decide; cbn [length]; lia.
Qed.

Lemma chart_series_count {L : Type} `{EqDecision L} (label : R -> L)
    (values : R -> list R) (f1 f2 f3 : R) :
  (1 <= length (foldl (fun acc f => dict_set (label f) (values f) acc) [] [f1; f2; f3])
   <= 3)%nat.
Proof.
  cbn [foldl].
  pose proof (length_dict_set (label f1) (values f1) []) as [H1 _].
  pose proof (length_dict_set (label f2) (values f2)
                (dict_set (label f1) (values f1) [])) as [H2 _].
  pose proof (length_dict_set (label f3) (values f3)
                (dict_set (label f2) (values f2)
                   (dict_set (label f1) (values f1) []))) as [H3 H3'].
  cbn [length] in H1. lia.
Qed.

(** X13.  Both line charts share seven x labels, the roundings to 3
    decimals of a sweep that starts at [0.5*sigma], has [sigma] itself as
    its fourth point and ends at [1.5*sigma]; each chart holds between one
    and three series (series whose printed labels coincide overwrite one
    another) and every series has seven values. *)
Theorem line_chart_shapes (bp : base_params) (n : Z) :
  let sigma := bp_sigma bp in
  exists tr S,
    calculate_sensitivity_data bp n = (tr, Return S) /\
    x_labels (line_chart_v_sigma S) = x_labels (line_chart_delta_sigma S) /\
    length (x_labels (line_chart_v_sigma S)) = 7%nat /\
    x_labels (line_chart_v_sigma S) !! 0%nat = Some (py_round_ndigits (sigma * (1 / 2)) 3) /\
    x_labels (line_chart_v_sigma S) !! 3%nat = Some (py_round_ndigits sigma 3) /\
    x_labels (line_chart_v_sigma S) !! 6%nat = Some (py_round_ndigits (sigma * (3 / 2)) 3) /\
    (1 <= length (chart_data (line_chart_v_sigma S)) <= 3)%nat /\
    (1 <= length (chart_data (line_chart_delta_sigma S)) <= 3)%nat /\
    Forall (fun series : Z * list R => length series.2 = 7%nat)
           (chart_data (line_chart_v_sigma S)) /\
    Forall (fun series : R * list R => length series.2 = 7%nat)
           (chart_data (line_chart_delta_sigma S)).
Proof.
  intros sigma.
  eexists _, _. split; [apply calculate_sensitivity_data_explicit |].
  cbn [line_chart_v_sigma line_chart_delta_sigma chart_data x_labels].
  fold sigma.
  split; [done |]. split; [by rewrite length_fmap, length_linspace |].
  rewrite linspace_7. cbn [fmap list_fmap lookup list_lookup].
  split; [done |]. split; [do 2 f_equal; lra |]. split; [done |].
  split; [apply chart_series_count |]. split; [apply chart_series_count |].
  split.
  - apply (chart_series_Forall (fun series : Z * list R => length series.2 = 7%nat)).
    intros f. done.
  - apply (chart_series_Forall (fun series : R * list R => length series.2 = 7%nat)).
    intros f. done.
Qed.

(** X14.  When the scalar cost of delay is 0 the three series of the
    volatility-versus-cost-of-delay chart all carry the label 0.0, so the
    chart holds a single series: the last one written, whose values are the
    valuations with [delta = 0] along the sweep, rounded to 2 decimals. *)
Theorem zero_delta_chart_single_series (bp : base_params) (n : Z) :
  bp_delta_val bp = 0 ->
  let V := bp_V_calc bp in
  let K := bp_K_calc bp in
  let T := bp_T bp in
  let sigma := bp_sigma bp in
  let r := bp_r bp in
  exists tr S,
    calculate_sensitivity_data bp n = (tr, Return S) /\
    chart_data (line_chart_delta_sigma S)
    = [(0, (fun s => py_round_ndigits (point_value V K T s 0 r) 2)
             <$> linspace (sigma * (1 / 2)) (sigma * (3 / 2)) 7)].
Proof.
  intros Hdelta V K T sigma r.
  eexists _, _. split; [apply calculate_sensitivity_data_explicit |].
  cbn [line_chart_delta_sigma chart_data]. rewrite Hdelta.
  fold V K T sigma r. cbn [foldl].
  replace (0 * (1 / 2) * 100) with 0 by lra.
  replace (0 * 1 * 100) with 0 by lra.
  replace (0 * (3 / 2) * 100) with 0 by lra.
  replace (0 * (3 / 2)) with 0 by lra.
  rewrite py_round_ndigits_zero.
  cbn [dict_set]. case_decide; [| done].
  cbn [dict_set]. case_decide; [| done]. done.
Qed.

Lemma zero_delta_chart_single_series_witness :
  exists tr S,
    calculate_sensitivity_data
      (BaseParams 1000000 900000 2 (1 / 5) 0 (1 / 20) 0 None) 2 = (tr, Return S) /\
    chart_data (line_chart_delta_sigma S)
    = [(0, (fun s => py_round_ndigits (point_value 1000000 900000 2 s 0 (1 / 20)) 2)
             <$> linspace (1 / 5 * (1 / 2)) (1 / 5 * (3 / 2)) 7)].
Proof.
  apply (zero_delta_chart_single_series
           (BaseParams 1000000 900000 2 (1 / 5) 0 (1 / 20) 0 None) 2).
  reflexivity.
Defined.

(** * Further properties of the [/calculate] route *)

Lemma parse_entries_raise `{Builtins} (l : list string) (err : exn) :
  mapM parse_entry l = Raise err ->
  err = ValueError /\ exists e, e ∈ l /\ float_of_string (py_strip e) = None.
Proof.
  induction l as [| d l IH]; [discriminate |].
  cbn [mapM]. rewrite (parse_entry_unfold d).
  destruct (float_of_string (py_strip d)) as [x |] eqn:Hd.
  - destruct (mapM parse_entry l) as [k | e'] eqn:Hl; [discriminate |].
    intros Heq. assert (e' = err) as -> by (cbn in Heq; congruence).
    destruct (IH eq_refl) as [-> (e & He & Hnone)].
    split; [done |]. exists e. split; [apply elem_of_cons; by right | done].
  - intros Heq. assert (err = ValueError) as -> by (cbn in Heq; congruence).
    split; [done |]. exists d. split; [apply elem_of_cons; by left | done].
Qed.

Lemma catch_all_not_400 (m : traced calculation) (tr : list lattice_call)
    (msg : string) :
  catch_all m <> (tr, Return (Error400 msg)).
Proof. destruct m as [t [c | e]]; cbn [catch_all]; congruence. Qed.

(** X15.  The route answers 400 only in one situation: [V] and [K] have
    converted, the mode is not ['auto'], the [delta] field is a non-empty
    string and one of its comma-separated entries is rejected by [float].
    The message is then the fixed one and no valuation has been made. *)
Theorem error_400_only_for_manual_sequence `{Builtins} (data : gmap string json)
    (tr : list lattice_call) (msg : string) :
  calculate data = (tr, Return (Error400 msg)) ->
  tr = [] /\
  msg = "Manual Cost of Delay values must be valid numbers."%string /\
  (exists v k, dict_get data "V" ≫= py_float = Return v /\
               dict_get data "K" ≫= py_float = Return k) /\
  is_auto (default (JStr "auto") (data !! "delta-mode"%string)) = false /\
  exists s e,
    data !! "delta"%string = Some (JStr s) /\ s <> ""%string /\
    e ∈ py_split "," s /\ float_of_string (py_strip e) = None.
Proof.
  unfold calculate.
  destruct (dict_get data "V" ≫= py_float) as [v | e1] eqn:HV; [| discriminate].
  destruct (dict_get data "K" ≫= py_float) as [k | e2] eqn:HK; [| discriminate].
  unfold dict_get at 1.
  destruct (data !! "delta"%string) as [delta_input |] eqn:Hdelta; [| discriminate].
  destruct (is_auto _) eqn:Hmode.
  - destruct (py_float delta_input); [| discriminate].
    intros Heq. by apply catch_all_not_400 in Heq.
  - destruct (parse_manual delta_input) as [dm | err] eqn:Hparse.
    + intros Heq. by apply catch_all_not_400 in Heq.
    + destruct err; try discriminate.
      intros Heq. injection Heq as <- <-.
      split; [done |]. split; [done |]. split; [eauto |]. split; [done |].
      unfold parse_manual in Hparse.
      destruct (truthy delta_input) eqn:Htruthy; [| discriminate].
      destruct delta_input as [| b | x | s | l | l]; try discriminate.
      apply parse_entries_raise in Hparse as [_ (e & He & Hnone)].
      exists s, e. split; [done |]. split; [| done].
      cbn [truthy] in Htruthy. by apply bool_decide_eq_true in Htruthy.
Qed.

Lemma error_400_only_for_manual_sequence_witness :
  let data : gmap string json :=
    {[ "V"%string := JNum 1000; "K"%string := JNum 900;
       "delta-mode"%string := JStr "manual"; "delta"%string := JStr "1,x" ]} in
  [] = @nil lattice_call /\
  "Manual Cost of Delay values must be valid numbers."%string
  = "Manual Cost of Delay values must be valid numbers."%string /\
  (exists v k, dict_get data "V" ≫= @py_float example_runtime = Return v /\
               dict_get data "K" ≫= @py_float example_runtime = Return k) /\
  is_auto (default (JStr "auto") (data !! "delta-mode"%string)) = false /\
  exists s e,
    data !! "delta"%string = Some (JStr s) /\ s <> ""%string /\
    e ∈ py_split "," s /\
    @float_of_string example_runtime (@py_strip example_runtime e) = None.
Proof.
  cbv zeta.
  apply (@error_400_only_for_manual_sequence example_runtime _ []
           "Manual Cost of Delay values must be valid numbers.").
  reflexivity.
Defined.

(** ** Missing fields *)

Lemma valuation_input_failure `{Builtins} (data : gmap string json)
    (v k dv dt0 : R) (dmo : option (list R)) :
  (forall T sigma r,
     dict_get data "T" ≫= py_float = Return T ->
     dict_get data "sigma" ≫= py_float = Return sigma ->
     dict_get data "r" ≫= py_float = Return r -> False) ->
  exists e, valuation data v k dv dt0 dmo = ([], Raise e).
Proof.
  intros Hfail. unfold valuation.
  destruct (dict_get data "T" ≫= py_float) as [T | e] eqn:HT; [| by exists e].
  destruct (dict_get data "sigma" ≫= py_float) as [sigma | e] eqn:Hs; [| by exists e].
  destruct (dict_get data "r" ≫= py_float) as [r | e] eqn:Hr; [| by exists e].
  by destruct (Hfail T sigma r).
Qed.

(** X16.  A request that lacks one of the fields [V], [K], [delta], [T],
    [sigma], [r] never leads to a valuation: the reply is an error reply
    and no call to [calculate_lattices] has been made. *)
Theorem missing_field_no_valuation `{Builtins} (data : gmap string json) (key : string) :
  key ∈ ["V"; "K"; "delta"; "T"; "sigma"; "r"]%string ->
  data !! key = None ->
  exists resp,
    calculate data = ([], Return resp) /\ forall c, resp <> Computed c.
Proof.
  intros Hkey Hnone.
  assert (Hval : forall v k dv dt0 dmo,
            key ∈ ["T"; "sigma"; "r"]%string ->
            exists e, catch_all (valuation data v k dv dt0 dmo)
                      = ([], Return (Error500 e))).
  { intros v k dv dt0 dmo Hk.
    destruct (valuation_input_failure data v k dv dt0 dmo) as [e He].
    - intros T sigma r HT Hs Hr. unfold dict_get in HT, Hs, Hr.
      repeat (apply elem_of_cons in Hk as [-> | Hk]);
        [ by rewrite Hnone in HT | by rewrite Hnone in Hs | by rewrite Hnone in Hr
        | by apply elem_of_nil in Hk ].
    - exists e. by rewrite He. }
  unfold calculate.
  destruct (dict_get data "V" ≫= py_float) as [v | e1] eqn:HV; [| by eexists].
  destruct (dict_get data "K" ≫= py_float) as [k | e2] eqn:HK; [| by eexists].
  unfold dict_get at 1.
  destruct (data !! "delta"%string) as [delta_input |] eqn:Hdelta; [| by eexists].
  assert (Hk : key ∈ ["T"; "sigma"; "r"]%string).
  { unfold dict_get in HV, HK.
    repeat (apply elem_of_cons in Hkey as [-> | Hkey]);
      try (by rewrite Hnone in HV); try (by rewrite Hnone in HK);
      try congruence; try (by apply elem_of_nil in Hkey);
      rewrite !elem_of_cons; tauto. }
  destruct (is_auto _).
  - destruct (py_float delta_input) as [dv | e]; [| by eexists].
    destruct (Hval v k dv dv None Hk) as [e ->]. by eexists.
  - destruct (parse_manual delta_input) as [dm | err].
    + destruct (Hval v k (default 0 (head dm)) (default 0 (head dm)) (Some dm) Hk)
        as [e ->].
      by eexists.
    + destruct err; by eexists.
Qed.

Lemma missing_field_no_valuation_witness :
  exists resp,
    @calculate example_runtime
      {[ "V"%string := JNum 1000; "K"%string := JNum 900;
         "delta"%string := JNum (1 / 20); "T"%string := JNum 2;
         "r"%string := JNum (1 / 20) ]}
    = ([], Return resp) /\ forall c, resp <> Computed c.
Proof.
  apply (@missing_field_no_valuation example_runtime _ "sigma").
  - rewrite !elem_of_cons. tauto.
  - reflexivity.
Defined.

(** ** Replies of the route *)

Lemma period_count_nonneg_T (T : R) :
  0 <= T -> (1 <= period_count T)%Z /\ period_count T = Z.max 1 (py_int T).
Proof.
  intros HT. rewrite max_py_int_floor.
  rewrite (period_count_floor T) by lra. split; lia.
Qed.

Lemma period_count_below_minus_one (T : R) : T <= -1 -> (period_count T < 0)%Z.
Proof.
  intros HT. unfold period_count, py_int. rewrite decide_False by lra.
  destruct (Int_part_bounds (- T)) as [_ Hhi].
  assert (H : (0 < Int_part (- T))%Z) by (apply lt_IZR; lra).
  case_bool_decide; lia.
Qed.

(** The route once its inputs have converted and [T >= 0]. *)
Lemma valuation_run `{Builtins} (data : gmap string json) (v k dv dt0 T sigma r : R)
    (dmo : option (list R)) :
  dict_get data "T" ≫= py_float = Return T ->
  dict_get data "sigma" ≫= py_float = Return sigma ->
  dict_get data "r" ≫= py_float = Return r ->
  0 <= T ->
  let n := period_count T in
  let c := LatticeCall (v * 1000) (k * 1000) T sigma dv r n dmo in
  let bp := BaseParams (v * 1000) (k * 1000) T sigma dv r dt0 dmo in
  exists L strace S,
    run_call c = Return L /\
    square (Z.to_nat (n + 1)) (out_C L) /\
    calculate_sensitivity_data bp n = (strace, Return S) /\
    valuation data v k dv dt0 dmo
    = (c :: strace,
       Return (Calculation n dt0 dmo L (cell (out_C L) 0 0 / 1000)
                 (thousands (out_A L)) (thousands (out_N L)) (thousands (out_C L)) S)).
Proof.
  intros HT Hs Hr HT0 n c bp.
  destruct (period_count_nonneg_T T HT0) as [Hn _]. fold n in Hn.
  destruct (calculate_lattices_cells (v * 1000) (k * 1000) T sigma dv r (Z.to_nat n) dmo)
    as (L & HL & _ & _ & _ & _ & _ & HsqC & _); [lia |].
  rewrite Z2Nat.id in HL by lia.
  assert (Hrun : run_call c = Return L) by exact HL.
  pose proof (calculate_sensitivity_data_explicit bp n) as Hsens. cbv zeta in Hsens.
  eexists L, _, _. split; [done |]. split.
  { by replace (Z.to_nat (n + 1)) with (S (Z.to_nat n)) by lia. }
  split; [exact Hsens |].
  unfold valuation. rewrite HT, Hs, Hr, !traced_bind_lift.
  fold n. fold c. fold bp. unfold call_lattices. rewrite Hrun.
  eapply (traced_bind_run _ _ [c]); [reflexivity |].
  rewrite (index2_cell _ _ _ _ HsqC) by lia. rewrite traced_bind_lift.
  rewrite Hsens. reflexivity.
Qed.

(** X17.  Auto mode, all six fields converted, [T <= -1]: the period count
    is negative, the single call to [calculate_lattices] returns empty
    lattices, reading [C[0][0]] fails and the reply is the generic error
    reply; no sensitivity analysis is run. *)
Theorem negative_maturity_generic_error `{Builtins} (data : gmap string json)
    (v k dv T sigma r : R) (delta_input : json) :
  dict_get data "V" ≫= py_float = Return v ->
  dict_get data "K" ≫= py_float = Return k ->
  is_auto (default (JStr "auto") (data !! "delta-mode"%string)) = true ->
  data !! "delta"%string = Some delta_input ->
  py_float delta_input = Return dv ->
  dict_get data "T" ≫= py_float = Return T ->
  dict_get data "sigma" ≫= py_float = Return sigma ->
  dict_get data "r" ≫= py_float = Return r ->
  T <= -1 ->
  (period_count T < 0)%Z /\
  calculate data
  = ([LatticeCall (v * 1000) (k * 1000) T sigma dv r (period_count T) None],
     Return (Error500 IndexError)).
Proof.
  intros HV HK Hmode Hdelta Hdv HT Hs Hr HT1.
  pose proof (period_count_below_minus_one T HT1) as Hn.
  split; [done |].
  unfold calculate. rewrite HV, HK, Hmode. unfold dict_get at 1.
  rewrite Hdelta, Hdv.
  unfold valuation. rewrite HT, Hs, Hr, !traced_bind_lift.
  unfold call_lattices, run_call.
  cbn [call_V call_K call_T call_sigma call_delta call_r call_n call_deltas_manual].
  rewrite calculate_lattices_negative by done. reflexivity.
Qed.

Lemma negative_maturity_generic_error_witness :
  let data : gmap string json :=
    {[ "V"%string := JNum 1000; "K"%string := JNum 900;
       "delta"%string := JNum (1 / 20); "T"%string := JNum (-3);
       "sigma"%string := JNum (1 / 5); "r"%string := JNum (1 / 20) ]} in
  (period_count (-3) < 0)%Z /\
  @calculate example_runtime data
  = ([LatticeCall (1000 * 1000) (900 * 1000) (-3) (1 / 5) (1 / 20) (1 / 20)
        (period_count (-3)) None],
     Return (Error500 IndexError)).
Proof.
  cbv zeta.
  apply (@negative_maturity_generic_error example_runtime _ 1000 900 (1 / 20) (-3)
           (1 / 5) (1 / 20) (JNum (1 / 20)));
    try reflexivity.
  lra.
Defined.

(** X18.  Auto mode, all six fields converted, [T >= 0]: the route reaches
    its reply with [n = max(1, floor(T))] periods after 56 valuations (the
    main one, then the 55 of the sensitivity analysis), and the
    [base_option_value] of the sensitivity analysis equals the initial
    option value of the main valuation, [C[0][0] / 1000]. *)
Theorem auto_request_computed `{Builtins} (data : gmap string json)
    (v k dv T sigma r : R) (delta_input : json) :
  dict_get data "V" ≫= py_float = Return v ->
  dict_get data "K" ≫= py_float = Return k ->
  is_auto (default (JStr "auto") (data !! "delta-mode"%string)) = true ->
  data !! "delta"%string = Some delta_input ->
  py_float delta_input = Return dv ->
  dict_get data "T" ≫= py_float = Return T ->
  dict_get data "sigma" ≫= py_float = Return sigma ->
  dict_get data "r" ≫= py_float = Return r ->
  0 <= T ->
  exists tr c,
    calculate data
    = (LatticeCall (v * 1000) (k * 1000) T sigma dv r (Z.max 1 (floor T)) None :: tr,
       Return (Computed c)) /\
    length tr = 55%nat /\
    calc_n c = Z.max 1 (floor T) /\
    calc_delta_t0 c = dv /\
    calc_deltas_manual c = None /\
    calc_initial_option_value_thousands c = cell (out_C (calc_lattices c)) 0 0 / 1000 /\
    base_option_value (calc_sensitivity c) = calc_initial_option_value_thousands c.
Proof.
  intros HV HK Hmode Hdelta Hdv HT Hs Hr HT0.
  destruct (valuation_run data v k dv dv T sigma r None HT Hs Hr HT0)
    as (L & strace & S & Hrun & _ & Hsens & Hval).
  destruct (period_count_nonneg_T T HT0) as [_ Hn].
  assert (Hnf : period_count T = Z.max 1 (floor T)) by (apply period_count_floor; lra).
  rewrite Hnf in Hval, Hsens, Hrun.
  eexists strace, _. split.
  { unfold calculate. rewrite HV, HK, Hmode. unfold dict_get at 1.
    rewrite Hdelta, Hdv, Hval. reflexivity. }
  cbn [calc_n calc_delta_t0 calc_deltas_manual calc_initial_option_value_thousands
       calc_lattices calc_sensitivity].
  rewrite calculate_sensitivity_data_explicit in Hsens. cbv zeta in Hsens.
  injection Hsens as <- <-.
  split.
  { cbn [length app fmap list_fmap concat bp_V_calc bp_K_calc bp_T bp_sigma
         bp_delta_val bp_r].
    rewrite ?length_app, ?length_fmap, ?length_linspace. done. }
  do 4 (split; [done |]).
  cbn [base_option_value bp_V_calc bp_K_calc bp_T bp_sigma bp_delta_val bp_r].
  unfold point_value, point_call. rewrite max_py_int_floor, Hrun. done.
Qed.

Lemma auto_request_computed_witness :
  let data : gmap string json :=
    {[ "V"%string := JNum 1000; "K"%string := JNum 900;
       "delta"%string := JNum (1 / 20); "T"%string := JNum 2;
       "sigma"%string := JNum (1 / 5); "r"%string := JNum (1 / 20) ]} in
  exists tr c,
    @calculate example_runtime data
    = (LatticeCall (1000 * 1000) (900 * 1000) 2 (1 / 5) (1 / 20) (1 / 20)
         (Z.max 1 (floor 2)) None :: tr,
       Return (Computed c)) /\
    length tr = 55%nat /\
    calc_n c = Z.max 1 (floor 2) /\
    calc_delta_t0 c = 1 / 20 /\
    calc_deltas_manual c = None /\
    calc_initial_option_value_thousands c = cell (out_C (calc_lattices c)) 0 0 / 1000 /\
    base_option_value (calc_sensitivity c) = calc_initial_option_value_thousands c.
Proof.
  cbv zeta.
  apply (@auto_request_computed example_runtime _ 1000 900 (1 / 20) 2 (1 / 5) (1 / 20)
           (JNum (1 / 20)));
    try reflexivity.
  lra.
Defined.

(** X19.  Manual mode with a sequence [dm] of exactly [n] numeric entries
    ([T >= 0], all fields converted): the main valuation runs on the
    schedule [dm] followed by 1.0, whereas the sensitivity analysis starts
    from a base valuation made without the sequence, on the auto-mode
    schedule of its first entry; its [base_option_value] is the value of
    that other valuation. *)
Theorem manual_request_computed `{Builtins} (data : gmap string json)
    (v k T sigma r : R) (delta_input : json) (dm : list R) :
  dict_get data "V" ≫= py_float = Return v ->
  dict_get data "K" ≫= py_float = Return k ->
  is_auto (default (JStr "auto") (data !! "delta-mode"%string)) = false ->
  data !! "delta"%string = Some delta_input ->
  parse_manual delta_input = Return dm ->
  dict_get data "T" ≫= py_float = Return T ->
  dict_get data "sigma" ≫= py_float = Return sigma ->
  dict_get data "r" ≫= py_float = Return r ->
  0 <= T ->
  Z.of_nat (length dm) = period_count T ->
  exists d0 tr c,
    head dm = Some d0 /\
    calculate data
    = (LatticeCall (v * 1000) (k * 1000) T sigma d0 r (period_count T) (Some dm)
       :: point_call (v * 1000) (k * 1000) T sigma d0 r :: tr,
       Return (Computed c)) /\
    out_deltas (calc_lattices c) = dm ++ [1] /\
    calc_delta_t0 c = d0 /\
    calc_deltas_manual c = Some dm /\
    base_option_value (calc_sensitivity c)
    = point_value (v * 1000) (k * 1000) T sigma d0 r.
Proof.
  intros HV HK Hmode Hdelta Hparse HT Hs Hr HT0 Hlen.
  destruct (period_count_nonneg_T T HT0) as [Hn _].
  destruct dm as [| d0 dm']; [cbn [length] in Hlen; lia |].
  set (dm := d0 :: dm') in *.
  destruct (valuation_run data v k d0 d0 T sigma r (Some dm) HT Hs Hr HT0)
    as (L & strace & S & Hrun & _ & Hsens & Hval).
  rewrite calculate_sensitivity_data_explicit in Hsens. cbv zeta in Hsens.
  cbn [bp_V_calc bp_K_calc bp_T bp_sigma bp_delta_val bp_r] in Hsens.
  injection Hsens as Htr HS.
  exists d0. eexists _, _. split; [done |]. split.
  { unfold calculate. rewrite HV, HK, Hmode. unfold dict_get at 1.
    rewrite Hdelta, Hparse. change (default 0 (head dm)) with d0.
    rewrite Hval, <- Htr. reflexivity. }
  cbn [calc_lattices calc_delta_t0 calc_deltas_manual calc_sensitivity].
  split; [| split; [done | split; [done | by rewrite <- HS]]].
  destruct (calculate_lattices_deltas (v * 1000) (k * 1000) T sigma d0 r
              (period_count T) (Some dm)) as (L' & HL' & Hd); [lia |].
  assert (L' = L) as -> by (unfold run_call in Hrun; cbn in Hrun; congruence).
  rewrite Hd. unfold delay_schedule. by rewrite bool_decide_eq_true_2 by done.
Qed.

Lemma manual_request_computed_witness :
  let data : gmap string json :=
    {[ "V"%string := JNum 1000; "K"%string := JNum 900;
       "delta-mode"%string := JStr "manual"; "delta"%string := JStr "1,2";
       "T"%string := JNum 2; "sigma"%string := JNum (1 / 5);
       "r"%string := JNum (1 / 20) ]} in
  exists d0 tr c,
    head [1; 2] = Some d0 /\
    @calculate example_runtime data
    = (LatticeCall (1000 * 1000) (900 * 1000) 2 (1 / 5) d0 (1 / 20) (period_count 2)
         (Some [1; 2])
       :: point_call (1000 * 1000) (900 * 1000) 2 (1 / 5) d0 (1 / 20) :: tr,
       Return (Computed c)) /\
    out_deltas (calc_lattices c) = [1; 2] ++ [1] /\
    calc_delta_t0 c = d0 /\
    calc_deltas_manual c = Some [1; 2] /\
    base_option_value (calc_sensitivity c)
    = point_value (1000 * 1000) (900 * 1000) 2 (1 / 5) d0 (1 / 20).
Proof.
  cbv zeta.
  apply (@manual_request_computed example_runtime _ 1000 900 2 (1 / 5) (1 / 20)
           (JStr "1,2") [1; 2]);
    try reflexivity.
  - lra.
  - unfold period_count. rewrite py_int_IZR.
    rewrite bool_decide_eq_false_2 by lia. reflexivity.
Defined.

Lemma lattice_probabilities_risk_neutral_witness :
  exists L,
    calculate_lattices 1000 900 2 (1 / 5) (1 / 20) (1 / 20) 2 None = Return L /\
    (forall t : nat, (Z.of_nat t <= 2)%Z ->
       out_ps_for_export L !!! t
       = (binomial_parameters (1 / 5) (1 / 20) (out_deltas L !!! t) (2 / 2)).2) /\
    (forall i j : nat, (Z.of_nat i + 1 <= 2)%Z -> (Z.of_nat j + 1 <= 2)%Z ->
       out_ps_for_export L !!! j * cell (out_A L) i (j + 1)
       + (1 - out_ps_for_export L !!! j) * cell (out_A L) (i + 1) (j + 1)
       = exp ((1 / 20 - out_deltas L !!! j) * (2 / 2)) * cell (out_A L) i j).
Proof.
  apply (lattice_probabilities_risk_neutral 1000 900 2 (1 / 5) (1 / 20) (1 / 20) 2 None).
  - lia.
  - lra.
  - lra.
Defined.

(** * The history of stored calculations *)

Lemma earliest_None l : earliest l = None -> l = [].
Proof.
  destruct l as [| x l]; [done |]. cbn [earliest].
  destruct (earliest l); [case_bool_decide |]; done.
Qed.

Lemma earliest_Some l x :
  earliest l = Some x ->
  x ∈ l /\ forall y, y ∈ l -> (sc_timestamp x.2 <= sc_timestamp y.2)%Z.
Proof.
  revert x. induction l as [| a l IH]; intros x; [done |].
  cbn [earliest]. destruct (earliest l) as [b |] eqn:Hl.
  - destruct (IH b eq_refl) as [Hb Hmin].
    case_bool_decide as Hab; intros [= <-].
    + split; [apply elem_of_cons; by left |].
      intros y [-> | Hy]%elem_of_cons; [lia |]. specialize (Hmin y Hy). lia.
    + split; [apply elem_of_cons; by right |].
      intros y [-> | Hy]%elem_of_cons; [lia | by apply Hmin].
  - intros [= <-]. apply earliest_None in Hl as ->.
    split; [apply elem_of_cons; by left |].
    intros y [-> | Hy]%elem_of_cons; [lia |]. by apply elem_of_nil in Hy.
Qed.

Lemma oldest_calculation_Some uid t id c :
  oldest_calculation uid t = Some (id, c) ->
  user_calculations uid t !! id = Some c /\
  forall id' c', user_calculations uid t !! id' = Some c' ->
    (sc_timestamp c <= sc_timestamp c')%Z.
Proof.
  intros [Hin Hmin]%earliest_Some. split.
  - by apply elem_of_map_to_list in Hin.
  - intros id' c' H'. apply (Hmin (id', c')). by apply elem_of_map_to_list.
Qed.

Lemma oldest_calculation_None uid t :
  oldest_calculation uid t = None -> user_calculations uid t = ∅.
Proof. intros H%earliest_None. by apply map_to_list_empty_iff. Qed.

Lemma user_calculations_insert uid uid' id c t :
  sc_user_id c = uid' ->
  t !! id = None ->
  user_calculations uid (<[id := c]> t)
  = if decide (uid' = uid) then <[id := c]> (user_calculations uid t)
    else user_calculations uid t.
Proof.
  intros Hc Hid. unfold user_calculations. case_decide as Hu.
  - apply map_filter_insert_True. cbn. congruence.
  - rewrite map_filter_insert_False by (cbn; congruence).
    by rewrite delete_id.
Qed.

(** X20: saving a calculation leaves the user with one stored calculation
    more while fewer than 15 are stored and with as many as before from 15
    on, so a history of at most 15 never grows beyond 15. *)
Theorem save_calculation_count (uid now new_id : Z) (inp out : string)
    (t : gmap Z stored_calculation) :
  t !! new_id = None ->
  let c := size (user_calculations uid t) in
  let c' := size (user_calculations uid (save_calculation uid now new_id inp out t)) in
  c' = (if bool_decide (15 <= c)%nat then c else S c) /\
  ((c <= 15)%nat -> (c' <= 15)%nat).
Proof.
  intros Hnew c c'.
  assert (Hc' : c' = if bool_decide (15 <= c)%nat then c else S c).
  { subst c'. unfold save_calculation. fold c.
    case_bool_decide as Hc.
    - destruct (oldest_calculation uid t) as [[id row] |] eqn:Hold.
      + apply oldest_calculation_Some in Hold as [Hrow _].
        assert (Hne : id <> new_id).
        { intros ->. apply map_lookup_filter_Some in Hrow as [Hrow _]. congruence. }
        rewrite (user_calculations_insert uid uid) by
          (by rewrite ?lookup_delete_ne).
        rewrite decide_True by done.
        rewrite map_size_insert_None.
        * unfold user_calculations. rewrite map_filter_delete.
          rewrite map_size_delete_Some by (by eexists).
          fold (user_calculations uid t). fold c. lia.
        * apply map_lookup_filter_None. left. by rewrite lookup_delete_ne.
      + apply oldest_calculation_None in Hold.
        subst c. rewrite Hold, map_size_empty in Hc. lia.
    - rewrite (user_calculations_insert uid uid) by done.
      rewrite decide_True by done.
      rewrite map_size_insert_None; [done |].
      apply map_lookup_filter_None. by left. }
  split; [done |]. rewrite Hc'. case_bool_decide; lia.
Qed.

Lemma save_calculation_count_witness :
  let t : gmap Z stored_calculation :=
    {[ 1%Z := StoredCalculation 7 100 "a" "b" ]} in
  let c := size (user_calculations 7 t) in
  let c' := size (user_calculations 7 (save_calculation 7 200 2 "c" "d" t)) in
  c' = (if bool_decide (15 <= c)%nat then c else S c) /\
  ((c <= 15)%nat -> (c' <= 15)%nat).
Proof.
  apply (save_calculation_count 7 200 2 "c" "d"
           {[ 1%Z := StoredCalculation 7 100 "a" "b" ]}).
  reflexivity.
Defined.

(** X21: saving a calculation stores the new row under its key, leaves the
    stored calculations of every other user as they are, and drops at most
    a row of the same user whose timestamp is least among that user's rows,
    and that only when the user has 15 or more. *)
Theorem save_calculation_effect (uid now new_id : Z) (inp out : string)
    (t : gmap Z stored_calculation) :
  t !! new_id = None ->
  let t' := save_calculation uid now new_id inp out t in
  t' !! new_id = Some (StoredCalculation uid now inp out) /\
  (forall uid', uid' <> uid -> user_calculations uid' t' = user_calculations uid' t) /\
  (forall id c, t !! id = Some c ->
     t' !! id = Some c \/
     (t' !! id = None /\ sc_user_id c = uid /\
      (15 <= size (user_calculations uid t))%nat /\
      forall id' c', t !! id' = Some c' -> sc_user_id c' = uid ->
        (sc_timestamp c <= sc_timestamp c')%Z)) /\
  (forall id1 id2, is_Some (t !! id1) -> is_Some (t !! id2) ->
     t' !! id1 = None -> t' !! id2 = None -> id1 = id2).
Proof.
  intros Hnew t'. subst t'. unfold save_calculation.
  set (c := size (user_calculations uid t)).
  split; [by rewrite lookup_insert_eq |].
  case_bool_decide as Hc;
    [destruct (oldest_calculation uid t) as [[old row] |] eqn:Hold |].
  - apply oldest_calculation_Some in Hold as [Hrow Hmin].
    apply map_lookup_filter_Some in Hrow as [Hrow Huid]. cbn in Huid.
    assert (Hne : old <> new_id) by congruence.
    split; [| split].
    + intros uid' Hu.
      rewrite (user_calculations_insert uid' uid) by (by rewrite ?lookup_delete_ne).
      rewrite decide_False by done.
      unfold user_calculations. rewrite map_filter_delete.
      apply delete_id. apply map_lookup_filter_None. right.
      intros x Hx. cbn. congruence.
    + intros id r Hr. destruct (decide (id = old)) as [-> | Hid].
      * right. assert (r = row) as -> by congruence.
        split; [by rewrite lookup_insert_ne, lookup_delete_eq |].
        split; [done |]. split; [done |].
        intros id' r' Hr' Hu'. apply (Hmin id').
        apply map_lookup_filter_Some. by split.
      * left. rewrite lookup_insert_ne by congruence.
        by rewrite lookup_delete_ne.
    + intros id1 id2 [r1 H1] [r2 H2] N1 N2.
      rewrite lookup_insert_ne in N1 by congruence.
      rewrite lookup_insert_ne in N2 by congruence.
      destruct (decide (id1 = old)) as [-> | ?];
        [| rewrite lookup_delete_ne in N1 by done; congruence].
      destruct (decide (id2 = old)) as [-> | ?];
        [done | rewrite lookup_delete_ne in N2 by done; congruence].
  - split; [| split].
    + intros uid' Hu.
      rewrite (user_calculations_insert uid' uid) by done.
      by rewrite decide_False.
    + intros id r Hr. left. rewrite lookup_insert_ne by congruence. done.
    + intros id1 id2 [r1 H1] _ N1 _.
      rewrite lookup_insert_ne in N1 by congruence. congruence.
  - split; [| split].
    + intros uid' Hu.
      rewrite (user_calculations_insert uid' uid) by done.
      by rewrite decide_False.
    + intros id r Hr. left. rewrite lookup_insert_ne by congruence. done.
    + intros id1 id2 [r1 H1] _ N1 _.
      rewrite lookup_insert_ne in N1 by congruence. congruence.
Qed.

Lemma save_calculation_effect_witness :
  let t : gmap Z stored_calculation :=
    {[ 1%Z := StoredCalculation 7 100 "a" "b" ]} in
  let t' := save_calculation 7 200 2 "c" "d" t in
  t' !! 2%Z = Some (StoredCalculation 7 200 "c" "d") /\
  (forall uid', uid' <> 7%Z -> user_calculations uid' t' = user_calculations uid' t) /\
  (forall id c, t !! id = Some c ->
     t' !! id = Some c \/
     (t' !! id = None /\ sc_user_id c = 7%Z /\
      (15 <= size (user_calculations 7 t))%nat /\
      forall id' c', t !! id' = Some c' -> sc_user_id c' = 7%Z ->
        (sc_timestamp c <= sc_timestamp c')%Z)) /\
  (forall id1 id2, is_Some (t !! id1) -> is_Some (t !! id2) ->
     t' !! id1 = None -> t' !! id2 = None -> id1 = id2).
Proof.
  apply (save_calculation_effect 7 200 2 "c" "d"
           {[ 1%Z := StoredCalculation 7 100 "a" "b" ]}).
  reflexivity.
Defined.

(** * Accounts *)

Lemma current_user_Some w cid cur :
  current_user w = Some (cid, cur) ->
  session w = Some cid /\ users w !! cid = Some cur.
Proof.
  unfold current_user. destruct (session w) as [id |]; [| done]. cbn.
  destruct (users w !! id) as [u |] eqn:Hu; [| done]. cbn.
  by intros [= <- <-].
Qed.

Lemma form_user_Some (form : admin_form) (us : gmap Z user) tid target :
  f_user_id form ≫= (fun id => (fun u => (id, u)) <$> us !! id) = Some (tid, target) ->
  f_user_id form = Some tid /\ us !! tid = Some target.
Proof.
  destruct (f_user_id form) as [id |]; [| done]. cbn.
  destruct (us !! id) as [u |] eqn:Hu; [| done]. cbn.
  by intros [= <- <-].
Qed.

Lemma no_name_or_email name mail (us : gmap Z user) :
  size (users_with_name_or_email name mail us) = 0%nat ->
  forall j v, us !! j = Some v -> username v <> name /\ email v <> mail.
Proof.
  intros Hsize%map_size_empty_iff j v Hv.
  split; intros Hn;
    apply (map_filter_empty_not_lookup _ _ j v Hsize); cbn; auto.
Qed.

Lemma fresh_key (us : gmap Z user) : us !! fresh (dom us) = None.
Proof. apply not_elem_of_dom. apply is_fresh. Qed.

Lemma insert_user_inr commit u us us' :
  insert_user commit u us = inr us' ->
  us' = <[fresh (dom us) := u]> us /\
  forall j v, us !! j = Some v -> username v <> username u /\ email v <> email u.
Proof.
  unfold insert_user. destruct commit; [done |].
  case_bool_decide as Hsize; [| done]. intros [= <-].
  split; [done |]. by apply no_name_or_email.
Qed.

Section portal.
Context `{Hashing}.

Lemma add_user_action_change cur cid form commit w :
  portal_change cur cid (users w) (users (add_user_action cur form commit w).1).
Proof.
  unfold add_user_action. cbv zeta.
  destruct (negb _); [constructor |].
  destruct (negb (bool_decide _)); [constructor |].
  destruct (bool_decide (f_is_super_admin form = Some "on"%string)
            && negb (is_super_admin cur)) eqn:Hsup; [constructor |].
  match goal with |- context [insert_user commit ?u _] => set (new_user := u) end.
  destruct (insert_user commit new_user (users w)) as [e | us'] eqn:Hins;
    [constructor |].
  apply insert_user_inr in Hins as [-> Hfree]. cbn [portal fst users].
  apply change_add; [apply fresh_key | done |].
  subst new_user. cbn. intros Hflag. rewrite Hflag in Hsup |- *.
  split; [done |]. by destruct (is_super_admin cur).
Qed.

Lemma delete_user_action_change cur cid form commit w :
  portal_change cur cid (users w) (users (delete_user_action cid cur form commit w).1).
Proof.
  unfold delete_user_action.
  destruct (f_user_id form ≫= _) as [[tid target] |] eqn:Ht; [| constructor].
  apply form_user_Some in Ht as [_ Ht].
  destruct (is_super_admin target && bool_decide _ && bool_decide _) eqn:Hprot;
    [constructor |].
  destruct (is_super_admin target && negb (is_super_admin cur)) eqn:Hsup;
    [constructor |].
  assert (Hok : is_super_admin target = true ->
            is_super_admin cur = true /\
            (username target = SUPER_ADMIN_USERNAME ->
             (2 <= size (super_admins (users w)))%nat)).
  { intros Hs. rewrite Hs in Hprot, Hsup. cbn in Hprot, Hsup.
    split; [by destruct (is_super_admin cur) |].
    intros Hn. rewrite (bool_decide_eq_true_2 _ Hn) in Hprot. cbn in Hprot.
    apply bool_decide_eq_false in Hprot. lia. }
  destruct (bool_decide (tid = cid)); destruct commit;
    cbn [portal fst users logout_user];
    first [by constructor | by eapply change_delete].
Qed.

Lemma toggle_admin_action_change cur cid form commit w :
  portal_change cur cid (users w) (users (toggle_admin_action cur form commit w).1).
Proof.
  unfold toggle_admin_action.
  destruct (f_user_id form ≫= _) as [[tid target] |] eqn:Ht; [| constructor].
  apply form_user_Some in Ht as [_ Ht].
  destruct (is_admin cur); [| constructor].
  destruct (is_super_admin target && negb (is_super_admin cur)) eqn:Hsup;
    [constructor |].
  destruct (bool_decide (username target = SUPER_ADMIN_USERNAME) && is_admin target)
    eqn:Hprim; [constructor |].
  cbv zeta. destruct commit; [constructor |]. cbn [portal fst users].
  apply change_toggle; [done | |].
  - intros Hs. rewrite Hs in Hsup. by destruct (is_super_admin cur).
  - intros Hn. rewrite (bool_decide_eq_true_2 _ Hn) in Hprim.
    by destruct (is_admin target).
Qed.

Lemma set_super_admin_action_change cur cid form commit w :
  portal_change cur cid (users w)
    (users (set_super_admin_action cid cur form commit w).1).
Proof.
  unfold set_super_admin_action. cbv zeta.
  destruct (is_super_admin cur) eqn:Hsup; [| constructor]. cbn [negb].
  destruct (f_user_id form ≫= _) as [[tid target] |] eqn:Ht; [| constructor].
  apply form_user_Some in Ht as [_ Ht].
  case_bool_decide; [constructor |].
  destruct commit; [constructor |]. cbn [fst users].
  by apply change_transfer.
Qed.

(** A request either leaves the table of users as it is or is one of the
    changes of [portal_change], made for an admin who is logged in. *)
Lemma admin_manage_users_change method form commit w :
  users (admin_manage_users method form commit w).1 = users w \/
  exists cid cur,
    current_user w = Some (cid, cur) /\ is_admin cur = true /\
    portal_change cur cid (users w)
      (users (admin_manage_users method form commit w).1).
Proof.
  unfold admin_manage_users, admin_required, login_required.
  destruct (current_user w) as [[cid cur] |] eqn:Hcur; [| by left].
  destruct (is_admin cur) eqn:Hadm; [| by left].
  destruct method; [by left |].
  right. exists cid, cur. split; [done |]. split; [done |].
  repeat case_bool_decide;
    first [ apply add_user_action_change | apply delete_user_action_change
          | apply toggle_admin_action_change | apply set_super_admin_action_change
          | constructor ].
Qed.

End portal.

Lemma super_implies_admin_insert us id u :
  (is_super_admin u = true -> is_admin u = true) ->
  super_implies_admin us -> super_implies_admin (<[id := u]> us).
Proof.
  intros Hu Hus j v Hv. destruct (decide (j = id)) as [-> | Hj].
  - rewrite lookup_insert_eq in Hv. by injection Hv as <-.
  - rewrite lookup_insert_ne in Hv by done. by apply (Hus j).
Qed.

Lemma super_implies_admin_delete us id :
  super_implies_admin us -> super_implies_admin (delete id us).
Proof.
  intros Hus j v Hv. destruct (decide (j = id)) as [-> | Hj].
  - by rewrite lookup_delete_eq in Hv.
  - rewrite lookup_delete_ne in Hv by done. by apply (Hus j).
Qed.

Lemma unique_accounts_insert_fresh us id u :
  us !! id = None ->
  (forall j v, us !! j = Some v -> username v <> username u /\ email v <> email u) ->
  unique_accounts us -> unique_accounts (<[id := u]> us).
Proof.
  intros Hid Hfree Hus i j u1 u2 H1 H2 Hor.
  destruct (decide (i = id)) as [-> | Hi], (decide (j = id)) as [-> | Hj];
    [done | | |].
  - rewrite lookup_insert_eq in H1. injection H1 as <-.
    rewrite lookup_insert_ne in H2 by done.
    destruct (Hfree j u2 H2) as [Hn Hm]. destruct Hor; congruence.
  - rewrite lookup_insert_eq in H2. injection H2 as <-.
    rewrite lookup_insert_ne in H1 by done.
    destruct (Hfree i u1 H1) as [Hn Hm]. destruct Hor; congruence.
  - rewrite lookup_insert_ne in H1, H2 by done. by apply (Hus i j u1 u2).
Qed.

Lemma unique_accounts_update us id u u' :
  us !! id = Some u ->
  username u' = username u -> email u' = email u ->
  unique_accounts us -> unique_accounts (<[id := u']> us).
Proof.
  intros Hid Hn Hm Hus i j u1 u2 H1 H2 Hor.
  destruct (decide (i = id)) as [-> | Hi], (decide (j = id)) as [-> | Hj];
    [done | | |].
  - rewrite lookup_insert_eq in H1. injection H1 as <-.
    rewrite lookup_insert_ne in H2 by done.
    apply (Hus id j u u2); [done | done |]. destruct Hor; [left | right]; congruence.
  - rewrite lookup_insert_eq in H2. injection H2 as <-.
    rewrite lookup_insert_ne in H1 by done.
    apply (Hus i id u1 u); [done | done |]. destruct Hor; [left | right]; congruence.
  - rewrite lookup_insert_ne in H1, H2 by done. by apply (Hus i j u1 u2).
Qed.

Lemma unique_accounts_delete us id :
  unique_accounts us -> unique_accounts (delete id us).
Proof.
  intros Hus i j u1 u2 H1 H2.
  apply lookup_delete_Some in H1 as [_ H1]. apply lookup_delete_Some in H2 as [_ H2].
  by apply (Hus i j u1 u2).
Qed.

Lemma portal_change_super_implies_admin cur cid us us' :
  portal_change cur cid us us' ->
  super_implies_admin us -> super_implies_admin us'.
Proof.
  intros [| id u _ _ Hu | tid target _ _ | tid target _ _ _ | tid target _ _ _] Hus.
  - done.
  - apply super_implies_admin_insert; [| done]. intros Hs. by apply Hu.
  - by apply super_implies_admin_delete.
  - apply super_implies_admin_insert; [| done]. cbn. by destruct (is_admin target).
  - apply super_implies_admin_insert; [done |].
    by apply super_implies_admin_insert.
Qed.

Lemma portal_change_unique_accounts cur cid us us' :
  portal_change cur cid us us' ->
  us !! cid = Some cur ->
  unique_accounts us -> unique_accounts us'.
Proof.
  intros [| id u Hid Hfree _ | tid target _ _ | tid target Ht _ _
          | tid target _ Ht Hne] Hcur Hus.
  - done.
  - by apply unique_accounts_insert_fresh.
  - by apply unique_accounts_delete.
  - by apply (unique_accounts_update us tid target).
  - apply (unique_accounts_update _ tid target); [| done | done |].
    + by rewrite lookup_insert_ne.
    + by apply (unique_accounts_update us cid cur).
Qed.

Lemma super_admins_insert_not us id u :
  is_super_admin u = false ->
  (forall v, us !! id = Some v -> is_super_admin v = false) ->
  super_admins (<[id := u]> us) = super_admins us.
Proof.
  intros Hu Hv. unfold super_admins. apply map_filter_insert_not'.
  - cbn. congruence.
  - intros v Hv'. cbn. rewrite (Hv v Hv'). done.
Qed.

Lemma super_admins_delete_not us id :
  (forall v, us !! id = Some v -> is_super_admin v = false) ->
  super_admins (delete id us) = super_admins us.
Proof.
  intros Hv. unfold super_admins. rewrite map_filter_delete.
  apply delete_id. apply map_lookup_filter_None.
  destruct (us !! id) as [v |] eqn:Hid; [right | by left].
  intros x [= <-]. cbn. by rewrite (Hv v).
Qed.

Lemma portal_change_super_admins cur cid us us' :
  portal_change cur cid us us' ->
  is_super_admin cur = false ->
  super_admins us' = super_admins us.
Proof.
  intros [| id u Hid _ Hu | tid target Ht Hs | tid target Ht Hs _
          | tid target Hs _ _] Hcur.
  - done.
  - apply super_admins_insert_not; [| by rewrite Hid].
    destruct (is_super_admin u); [| done]. destruct Hu; congruence.
  - apply super_admins_delete_not. intros v Hv.
    destruct (is_super_admin v) eqn:E; [| done].
    assert (v = target) as -> by congruence. destruct (Hs E). congruence.
  - assert (Hns : is_super_admin target = false).
    { destruct (is_super_admin target); [| done]. rewrite Hs in Hcur; done. }
    apply super_admins_insert_not.
    + cbn. rewrite Hns. by destruct (negb _).
    + intros v Hv. congruence.
  - congruence.
Qed.

Lemma delete_account_users commit w :
  users (delete_account commit w).1 = users w \/
  exists cid cur,
    current_user w = Some (cid, cur) /\
    users (delete_account commit w).1 = delete cid (users w) /\
    (is_super_admin cur = true -> username cur = SUPER_ADMIN_USERNAME ->
     exists j v, j <> cid /\ users w !! j = Some v /\ is_super_admin v = true).
Proof.
  unfold delete_account, login_required.
  destruct (current_user w) as [[cid cur] |] eqn:Hcur; [| by left].
  destruct (is_super_admin cur && bool_decide _ && bool_decide _) eqn:Hprot;
    [by left |].
  destruct commit; [by left |].
  right. exists cid, cur. split; [done |]. split; [done |].
  intros Hs Hn. rewrite Hs, (bool_decide_eq_true_2 _ Hn) in Hprot. cbn in Hprot.
  apply bool_decide_eq_false in Hprot.
  apply map_size_ne_0_lookup in Hprot as [j [v Hv]].
  apply map_lookup_filter_Some in Hv as [Hv [Hsv Hj]]. cbn in Hsv, Hj.
  by exists j, v.
Qed.

Lemma create_default_admin_inr `{Hashing} commit us us' :
  create_default_admin commit us = inr us' ->
  us' = us \/
  (us' = <[fresh (dom us) :=
             User SUPER_ADMIN_USERNAME "grid.thoma@unicam.it"
               (generate_password_hash "gridthoma123") true true]> us /\
   forall j v, us !! j = Some v ->
     username v <> SUPER_ADMIN_USERNAME /\ email v <> "grid.thoma@unicam.it"%string).
Proof.
  unfold create_default_admin. case_bool_decide as Hnone.
  - intros [-> Hfree]%insert_user_inr. right. split; [done |]. apply Hfree.
  - intros [= <-]. by left.
Qed.

(** X22: every route that writes to the table of users keeps each super
    admin an admin: the admin portal and the deletion of one's own account
    on every request, and the creation of the default admin whenever it
    succeeds. *)
Theorem super_admin_is_admin_preserved `{Hashing} (method : http_method)
    (form : admin_form) (commit : option string) (w : world) :
  super_implies_admin (users w) ->
  super_implies_admin (users (admin_manage_users method form commit w).1) /\
  super_implies_admin (users (delete_account commit w).1) /\
  (forall us', create_default_admin commit (users w) = inr us' ->
     super_implies_admin us').
Proof.
  intros Hus. split; [| split].
  - destruct (admin_manage_users_change method form commit w)
      as [-> | (cid & cur & _ & _ & Hch)]; [done |].
    by apply (portal_change_super_implies_admin cur cid (users w)).
  - destruct (delete_account_users commit w) as [-> | (cid & cur & _ & -> & _)];
      [done |].
    by apply super_implies_admin_delete.
  - intros us' [-> | [-> _]]%create_default_admin_inr; [done |].
    by apply super_implies_admin_insert.
Qed.

(** X23: every route that writes to the table of users keeps user names and
    e-mail addresses unique, so the uniqueness constraints of the table are
    never what makes a request to the admin portal fail. *)
Theorem accounts_stay_unique `{Hashing} (method : http_method)
    (form : admin_form) (commit : option string) (w : world) :
  unique_accounts (users w) ->
  unique_accounts (users (admin_manage_users method form commit w).1) /\
  unique_accounts (users (delete_account commit w).1) /\
  (forall us', create_default_admin commit (users w) = inr us' ->
     unique_accounts us').
Proof.
  intros Hus. split; [| split].
  - destruct (admin_manage_users_change method form commit w)
      as [-> | (cid & cur & [_ Hcur]%current_user_Some & _ & Hch)]; [done |].
    by apply (portal_change_unique_accounts cur cid (users w)).
  - destruct (delete_account_users commit w) as [-> | (cid & cur & _ & -> & _)];
      [done |].
    by apply unique_accounts_delete.
  - intros us' [-> | [-> Hfree]]%create_default_admin_inr; [done |].
    by apply unique_accounts_insert_fresh; [apply fresh_key | |].
Qed.

(** X24: a request to the admin portal or to delete one's account made by
    anyone who is not a super admin leaves the rows of all super admins as
    they are: none is added, removed or changed. *)
Theorem super_admins_untouched_by_others `{Hashing} (method : http_method)
    (form : admin_form) (commit : option string) (w : world) :
  (forall cid cur, current_user w = Some (cid, cur) -> is_super_admin cur = false) ->
  super_admins (users (admin_manage_users method form commit w).1)
  = super_admins (users w) /\
  super_admins (users (delete_account commit w).1) = super_admins (users w).
Proof.
  intros Hcur. split.
  - destruct (admin_manage_users_change method form commit w)
      as [-> | (cid & cur & Hc & _ & Hch)]; [done |].
    apply (portal_change_super_admins cur cid); [done |]. by apply (Hcur cid).
  - destruct (delete_account_users commit w) as [-> | (cid & cur & Hc & -> & _)];
      [done |].
    apply super_admins_delete_not. intros v Hv.
    apply current_user_Some in Hc as Hc'. destruct Hc' as [_ Hc'].
    assert (v = cur) as -> by congruence. by apply (Hcur cid).
Qed.

Lemma has_super_admin_filter us :
  has_super_admin us <-> super_admins us <> ∅.
Proof.
  rewrite <- map_size_non_empty_iff, map_size_ne_0_lookup. unfold has_super_admin.
  split.
  - intros (id & u & Hu & Hs). exists id, u. by apply map_lookup_filter_Some.
  - intros (id & u & [Hu Hs]%map_lookup_filter_Some). by exists id, u.
Qed.

Lemma has_super_admin_insert_fresh us id u :
  us !! id = None -> has_super_admin us -> has_super_admin (<[id := u]> us).
Proof.
  intros Hid (j & v & Hv & Hs). exists j, v. split; [| done].
  rewrite lookup_insert_ne; [done | congruence].
Qed.

Lemma two_supers_survive us us' tid :
  (2 <= size (super_admins us))%nat ->
  (forall j, j <> tid -> us' !! j = us !! j) ->
  has_super_admin us'.
Proof.
  intros Hsize Hsame.
  assert (Hne : size (super_admins us) <> 0%nat) by lia.
  apply map_size_ne_0_lookup in Hne as [i [x Hx]].
  destruct (decide (i = tid)) as [-> | Hi].
  - assert (Hne : size (delete tid (super_admins us)) <> 0%nat).
    { rewrite map_size_delete_Some by (by eexists). lia. }
    apply map_size_ne_0_lookup in Hne as [j [y Hy]].
    apply lookup_delete_Some in Hy as [Hj Hy].
    apply map_lookup_filter_Some in Hy as [Hy Hs].
    exists j, y. split; [| done]. rewrite Hsame; [done | congruence].
  - apply map_lookup_filter_Some in Hx as [Hx Hs].
    exists i, x. split; [| done]. by rewrite Hsame.
Qed.

Lemma portal_change_has_super_admin cur cid us us' :
  portal_change cur cid us us' ->
  (2 <= size (super_admins us))%nat \/
  (exists id u, us !! id = Some u /\ is_super_admin u = true /\
                username u = SUPER_ADMIN_USERNAME) ->
  has_super_admin us'.
Proof.
  intros Hch Hpre.
  assert (Hhas : has_super_admin us).
  { destruct Hpre as [Hsize | (id & u & Hu & Hs & _)]; [| by exists id, u].
    apply has_super_admin_filter, map_size_non_empty_iff. lia. }
  destruct Hch as [| id u Hid _ _ | tid target Ht Hs | tid target Ht _ Hprim
                   | tid target _ _ _].
  - done.
  - by apply has_super_admin_insert_fresh.
  - assert (Hsame : forall j, j <> tid -> delete tid us !! j = us !! j)
      by (intros j Hj; by rewrite lookup_delete_ne).
    destruct Hpre as [Hsize | (id & u & Hu & Hsu & Hn)];
      [by apply (two_supers_survive us _ tid) |].
    destruct (decide (id = tid)) as [-> | Hid].
    + assert (u = target) as -> by congruence.
      destruct (Hs Hsu) as [_ Hsize].
      apply (two_supers_survive us _ tid); [by apply Hsize | done].
    + exists id, u. by rewrite Hsame.
  - match goal with |- has_super_admin (<[tid := ?x]> us) => set (row := x) end.
    assert (Hsame : forall j, j <> tid -> <[tid := row]> us !! j = us !! j)
      by (intros j Hj; by rewrite lookup_insert_ne).
    destruct Hpre as [Hsize | (id & u & Hu & Hsu & Hn)];
      [by apply (two_supers_survive us _ tid) |].
    destruct (decide (id = tid)) as [-> | Hid].
    + assert (u = target) as -> by congruence.
      exists tid, row. rewrite lookup_insert_eq. split; [done |].
      subst row. cbn. by rewrite (Hprim Hn).
    + exists id, u. by rewrite Hsame.
  - eexists tid, _. by rewrite lookup_insert_eq.
Qed.

(** X25: a request to the admin portal by anyone who is not logged in as an
    admin changes neither the table of users nor the session, and is
    answered by one message and a redirect. *)
Theorem portal_requires_admin `{Hashing} (method : http_method)
    (form : admin_form) (commit : option string) (w : world) :
  (forall cid cur, current_user w = Some (cid, cur) -> is_admin cur = false) ->
  exists message endpoint,
    admin_manage_users method form commit w
    = (w, Reply [message] (Redirect endpoint)).
Proof.
  intros Hcur. unfold admin_manage_users, admin_required, login_required.
  destruct (current_user w) as [[cid cur] |] eqn:Hc; [| by eexists _, _].
  rewrite (Hcur cid cur eq_refl). by eexists _, _.
Qed.

(** X26: while the account named Grid.Thoma is a super admin, or while
    there are two or more super admins, no request to the admin portal and
    no deletion of one's own account leaves the table without a super
    admin. *)
Theorem super_admin_remains `{Hashing} (method : http_method)
    (form : admin_form) (commit : option string) (w : world) :
  (2 <= size (super_admins (users w)))%nat \/
  (exists id u, users w !! id = Some u /\ is_super_admin u = true /\
                username u = SUPER_ADMIN_USERNAME) ->
  has_super_admin (users (admin_manage_users method form commit w).1) /\
  has_super_admin (users (delete_account commit w).1).
Proof.
  intros Hpre.
  assert (Hhas : has_super_admin (users w)).
  { destruct Hpre as [Hsize | (id & u & Hu & Hs & _)]; [| by exists id, u].
    apply has_super_admin_filter, map_size_non_empty_iff. lia. }
  split.
  - destruct (admin_manage_users_change method form commit w)
      as [-> | (cid & cur & _ & _ & Hch)]; [done |].
    by apply (portal_change_has_super_admin cur cid (users w)).
  - destruct (delete_account_users commit w)
      as [-> | (cid & cur & [_ Hc]%current_user_Some & -> & Hother)]; [done |].
    assert (Hsame : forall j, j <> cid -> delete cid (users w) !! j = users w !! j)
      by (intros j Hj; by rewrite lookup_delete_ne).
    destruct Hpre as [Hsize | (id & u & Hu & Hsu & Hn)];
      [by apply (two_supers_survive (users w) _ cid) |].
    destruct (decide (id = cid)) as [-> | Hid].
    + assert (u = cur) as -> by congruence.
      destruct (Hother Hsu Hn) as (j & v & Hj & Hv & Hsv).
      exists j, v. by rewrite Hsame.
    + exists id, u. by rewrite Hsame.
Qed.

(** X27: the protection of the last super admin covers the account named
    Grid.Thoma only: a sole super admin of any other name who deletes the
    own account, by the account route or through the admin portal, is
    deleted and logged out, and no super admin is left. *)
Theorem last_super_admin_of_other_name_deleted `{Hashing} (w : world)
    (cid : Z) (cur : user) (form : admin_form) :
  current_user w = Some (cid, cur) ->
  username cur <> SUPER_ADMIN_USERNAME ->
  super_admins (users w) = {[ cid := cur ]} ->
  (delete_account None w).1 = World (delete cid (users w)) None /\
  (is_admin cur = true ->
   f_action form = Some "delete_user"%string -> f_user_id form = Some cid ->
   (admin_manage_users POST form None w).1 = World (delete cid (users w)) None) /\
  ~ has_super_admin (delete cid (users w)).
Proof.
  intros Hc Hn Hsup.
  pose proof (current_user_Some _ _ _ Hc) as [_ Hrow].
  assert (Hs : is_super_admin cur = true).
  { assert (Hl : super_admins (users w) !! cid = Some cur)
      by (by rewrite Hsup, lookup_singleton_eq).
    by apply map_lookup_filter_Some in Hl as [_ Hl]. }
  split; [| split].
  - unfold delete_account, login_required. rewrite Hc, Hs.
    by rewrite (bool_decide_eq_false_2 _ Hn).
  - intros Hadm Hact Hid.
    unfold admin_manage_users, admin_required, login_required.
    rewrite Hc, Hadm, Hact.
    rewrite bool_decide_eq_false_2 by done.
    rewrite bool_decide_eq_true_2 by done.
    unfold delete_user_action. rewrite Hid. cbn. rewrite Hrow. cbn.
    rewrite Hs, (bool_decide_eq_false_2 _ Hn). cbn.
    by rewrite bool_decide_eq_true_2.
  - rewrite has_super_admin_filter. intros Hne. apply Hne.
    unfold super_admins. rewrite map_filter_delete.
    fold (super_admins (users w)). rewrite Hsup. apply delete_singleton_eq.
Qed.

(** X28: creating the default admin keeps every existing row, ends with an
    account named Grid.Thoma in the table, adds the row with the default
    password and both roles when no account had that name, and is
    idempotent: run again on its result it succeeds and changes nothing. *)
Theorem create_default_admin_idempotent `{Hashing} (commit : option string)
    (us us' : gmap Z user) :
  create_default_admin commit us = inr us' ->
  us ⊆ us' /\
  (exists id u, us' !! id = Some u /\ username u = SUPER_ADMIN_USERNAME) /\
  ((forall j v, us !! j = Some v -> username v <> SUPER_ADMIN_USERNAME) ->
   exists id, us !! id = None /\
     us' = <[id := User SUPER_ADMIN_USERNAME "grid.thoma@unicam.it"
                     (generate_password_hash "gridthoma123") true true]> us) /\
  (forall commit', create_default_admin commit' us' = inr us').
Proof.
  intros Hrun.
  assert (Hnamed : exists id u, us' !! id = Some u /\ username u = SUPER_ADMIN_USERNAME).
  { revert Hrun. unfold create_default_admin. case_bool_decide as Hsize.
    - intros [-> _]%insert_user_inr. eexists _, _. by rewrite lookup_insert_eq.
    - intros [= <-]. apply map_size_ne_0_lookup in Hsize as [id [u Hu]].
      apply map_lookup_filter_Some in Hu as [Hu Hn]. by exists id, u. }
  split; [| split; [done | split]].
  - apply create_default_admin_inr in Hrun as [-> | [-> _]]; [done |].
    apply insert_subseteq, fresh_key.
  - intros Hnone. exists (fresh (dom us)). split; [apply fresh_key |].
    revert Hrun. unfold create_default_admin. rewrite bool_decide_eq_true_2.
    + by intros [-> _]%insert_user_inr.
    + apply map_size_empty_iff, map_empty. intros j.
      apply map_lookup_filter_None.
      destruct (us !! j) as [v |] eqn:Hv; [right | by left].
      intros x [= <-]. cbn. by apply (Hnone j).
  - intros commit'. unfold create_default_admin.
    rewrite bool_decide_eq_false_2; [done |].
    destruct Hnamed as (id & u & Hu & Hn).
    apply map_size_ne_0_lookup. exists id, u. by apply map_lookup_filter_Some.
Qed.

Lemma example_users_lookup id u :
  example_users !! id = Some u ->
  (id = 2%Z /\ u = bob) \/ (id = 1%Z /\ u = grid_thoma).
Proof.
  unfold example_users. intros [[<- <-] | [_ [<- <-]%lookup_singleton_Some]]%lookup_insert_Some;
    auto.
Qed.

Lemma super_admin_is_admin_preserved_witness :
  let w := World example_users (Some 1%Z) in
  super_implies_admin (users (@admin_manage_users example_hashing POST add_form None w).1) /\
  super_implies_admin (users (delete_account None w).1) /\
  (forall us', @create_default_admin example_hashing None (users w) = inr us' ->
     super_implies_admin us').
Proof.
  apply (@super_admin_is_admin_preserved example_hashing POST add_form None
           (World example_users (Some 1%Z))).
  intros id u [[-> ->] | [-> ->]]%example_users_lookup; done.
Defined.

Lemma accounts_stay_unique_witness :
  let w := World example_users (Some 1%Z) in
  unique_accounts (users (@admin_manage_users example_hashing POST add_form None w).1) /\
  unique_accounts (users (delete_account None w).1) /\
  (forall us', @create_default_admin example_hashing None (users w) = inr us' ->
     unique_accounts us').
Proof.
  apply (@accounts_stay_unique example_hashing POST add_form None
           (World example_users (Some 1%Z))).
  intros i j u1 u2 [[-> ->] | [-> ->]]%example_users_lookup
    [[-> ->] | [-> ->]]%example_users_lookup [Heq | Heq];
    first [done | discriminate Heq].
Defined.

Lemma super_admins_untouched_by_others_witness :
  let w := World example_users (Some 2%Z) in
  super_admins (users (@admin_manage_users example_hashing POST (toggle_form 1) None w).1)
  = super_admins (users w) /\
  super_admins (users (delete_account None w).1) = super_admins (users w).
Proof.
  apply (@super_admins_untouched_by_others example_hashing POST (toggle_form 1) None
           (World example_users (Some 2%Z))).
  intros cid cur Hc. vm_compute in Hc. by injection Hc as <- <-.
Defined.

Lemma portal_requires_admin_witness :
  exists message endpoint,
    @admin_manage_users example_hashing POST (delete_form 1) None
      (World example_users None)
    = (World example_users None, Reply [message] (Redirect endpoint)).
Proof.
  apply (@portal_requires_admin example_hashing POST (delete_form 1) None
           (World example_users None)).
  intros cid cur Hc. vm_compute in Hc. discriminate Hc.
Defined.

Lemma super_admin_remains_witness :
  let w := World example_users (Some 1%Z) in
  has_super_admin (users (@admin_manage_users example_hashing POST (delete_form 1) None w).1) /\
  has_super_admin (users (delete_account None w).1).
Proof.
  apply (@super_admin_remains example_hashing POST (delete_form 1) None
           (World example_users (Some 1%Z))).
  right. exists 1%Z, grid_thoma. split; [reflexivity | split; reflexivity].
Defined.

Lemma last_super_admin_of_other_name_deleted_witness :
  let w := World {[ 1%Z := eve ]} (Some 1%Z) in
  (delete_account None w).1 = World (delete 1%Z (users w)) None /\
  (is_admin eve = true ->
   f_action (delete_form 1) = Some "delete_user"%string ->
   f_user_id (delete_form 1) = Some 1%Z ->
   (@admin_manage_users example_hashing POST (delete_form 1) None w).1
   = World (delete 1%Z (users w)) None) /\
  ~ has_super_admin (delete 1%Z (users w)).
Proof.
  apply (@last_super_admin_of_other_name_deleted example_hashing
           (World {[ 1%Z := eve ]} (Some 1%Z)) 1 eve (delete_form 1)).
  - reflexivity.
  - discriminate.
  - reflexivity.
Defined.

Lemma create_default_admin_idempotent_witness :
  let us : gmap Z user := {[ 1%Z := bob ]} in
  let us' : gmap Z user :=
    <[fresh (dom us) :=
        User SUPER_ADMIN_USERNAME "grid.thoma@unicam.it"
          (@generate_password_hash example_hashing "gridthoma123") true true]> us in
  us ⊆ us' /\
  (exists id u, us' !! id = Some u /\ username u = SUPER_ADMIN_USERNAME) /\
  ((forall j v, us !! j = Some v -> username v <> SUPER_ADMIN_USERNAME) ->
   exists id, us !! id = None /\
     us' = <[id := User SUPER_ADMIN_USERNAME "grid.thoma@unicam.it"
                     (@generate_password_hash example_hashing "gridthoma123")
                     true true]> us) /\
  (forall commit', @create_default_admin example_hashing commit' us' = inr us').
Proof.
  apply (@create_default_admin_idempotent example_hashing None {[ 1%Z := bob ]}).
  reflexivity.
Defined.

(** X29: when the sole super admin transfers the role through the admin
    portal to another existing account and the commit succeeds, that
    account becomes an admin and the sole super admin, the former super
    admin keeps everything but the super admin role, no other row changes,
    and the session ends with a redirect to the login page. *)
Theorem super_admin_transfer `{Hashing} (w : world) (cid tid : Z)
    (cur target : user) (form : admin_form) :
  current_user w = Some (cid, cur) ->
  is_admin cur = true ->
  super_admins (users w) = {[ cid := cur ]} ->
  f_action form = Some "set_super_admin"%string ->
  f_user_id form = Some tid ->
  users w !! tid = Some target ->
  tid <> cid ->
  exists us' message,
    admin_manage_users POST form None w
    = (World us' None, Reply [message] (Redirect "login")) /\
    super_admins us'
    = {[ tid := User (username target) (email target) (password_hash target) true true ]} /\
    us' !! cid
    = Some (User (username cur) (email cur) (password_hash cur) (is_admin cur) false) /\
    (forall j, j <> tid -> j <> cid -> us' !! j = users w !! j).
Proof.
  intros Hc Hadm Hsup Hact Hid Ht Hne.
  assert (Hs : is_super_admin cur = true).
  { assert (Hl : super_admins (users w) !! cid = Some cur)
      by (by rewrite Hsup, lookup_singleton_eq).
    by apply map_lookup_filter_Some in Hl as [_ Hl]. }
  unfold admin_manage_users, admin_required, login_required.
  rewrite Hc, Hadm, Hact.
  rewrite !bool_decide_eq_false_2 by done.
  rewrite bool_decide_eq_true_2 by done.
  unfold set_super_admin_action. rewrite Hs, Hid. cbn. rewrite Ht. cbn.
  rewrite bool_decide_eq_false_2 by done.
  eexists _, _. split; [reflexivity |]. split; [| split].
  - unfold super_admins. rewrite map_filter_insert_True by done.
    rewrite map_filter_insert_False by (cbn; done).
    rewrite map_filter_delete. fold (super_admins (users w)).
    by rewrite Hsup, delete_singleton_eq, insert_empty.
  - rewrite lookup_insert_ne by done. by rewrite lookup_insert_eq, ?Hadm.
  - intros j Hj Hj'. by rewrite !lookup_insert_ne.
Qed.

Lemma super_admin_transfer_witness :
  exists us' message,
    @admin_manage_users example_hashing POST (transfer_form 2) None
      (World example_users (Some 1%Z))
    = (World us' None, Reply [message] (Redirect "login")) /\
    super_admins us'
    = {[ 2%Z := User (username bob) (email bob) (password_hash bob) true true ]} /\
    us' !! 1%Z
    = Some (User (username grid_thoma) (email grid_thoma) (password_hash grid_thoma)
              (is_admin grid_thoma) false) /\
    (forall j, j <> 2%Z -> j <> 1%Z -> us' !! j = example_users !! j).
Proof.
  apply (@super_admin_transfer example_hashing (World example_users (Some 1%Z))
           1 2 grid_thoma bob (transfer_form 2)).
  - reflexivity.
  - reflexivity.
  - reflexivity.
  - reflexivity.
  - reflexivity.
  - reflexivity.
  - discriminate.
Defined.
